(** * Telegram confirmation workflow of Agente-IA-correo

    A shallow embedding of
    - [app/telegram/confirmation_handler.py] (the store of pending
      confirmations and its three operations),
    - [app/telegram/telegram_sender.py] (outbound messages and buttons),
    - [app/telegram/bot_server.py] (the long-poll loop and its dispatch),
    - [app/config.py] ([Config.validate]),
    - the lines of [app/main.py] that offer the correction of a spreadsheet,
      with the two closures they register,
    - [app/mcp/file_editor_server.py] ([call_tool], [analyze_excel] and
      [edit_excel]),
    followed by the properties of the approval protocol and of the code
    around it.

    Conventions of the embedding.
    - Python values that travel through the code (JSON bodies, callback
      payloads, result dictionaries) are terms of [value]; a dictionary is
      the list of its items in insertion order, with distinct keys.
    - A statement that may raise returns an [outcome]; [try_except] is
      [try: ... except Exception: ...], which lets faults that are not
      instances of [Exception] through.
    - The process state is a [World]: the two module-level singletons
      ([confirmation_handler], [bot_server]) and the trace of what the code
      did to its environment (callbacks called, HTTP posts, threads).
    - What the environment decides is an argument: the reading of
      [time.time()] ([now], whole seconds), the text of [str(uuid.uuid4())],
      the answer of the HTTP transport.
    - A resume action is a function of the stored data to a value or an
      exception; what it does to files is not part of the world, only the
      fact that it was called is recorded.
    - Calls to [logger] and [time.sleep] change nothing that the code reads
      back and are left out; so is [_poll_loop], which only repeats
      [_poll_once] on its own thread while the flag is set: [start_polling]
      records that the thread was started.
    - Strings are byte strings (UTF-8); every pattern the code searches for
      is ASCII, so prefix tests and replacements agree with Python's.
    - Of a pandas [DataFrame] the tools see the number of rows and, column
      by column, the label and the number of null cells. Reading a file and
      the three in-place operations of [edit_excel] belong to pandas and
      are arguments, as are [str.strip] and [str.lower]; [save_file], which
      consists of such calls only, stays a tool that is given. *)

From Stdlib Require Import ZArith String Ascii List Bool Lia.
From Stdlib Require DecimalString.
From stdpp Require Import base gmap strings list fin_maps.

Local Open Scope string_scope.
Local Open Scope list_scope.
Local Open Scope Z_scope.

(** ** Python values, exceptions and the helpers the code relies on *)

Module Py.

#[local] Set Warnings "-register-all".

Inductive value : Type :=
| VNone
| VBool (b : bool)
| VInt (n : Z)
| VStr (s : string)
| VList (l : list value)
| VDict (d : list (string * value)).

(** A raised exception: whether it is an instance of [Exception] (and so
    caught by [except Exception]) and its [str(e)]. *)
Record exn : Type := Exn { is_Exception : bool; exn_str : string }.

Definition KeyError (k : string) : exn := Exn true ("'" +:+ k +:+ "'").
Definition TypeError (msg : string) : exn := Exn true msg.
Definition AttributeError (msg : string) : exn := Exn true msg.

Inductive outcome (A : Type) : Type :=
| Ok (a : A)
| Raise (e : exn).
Arguments Ok {A} a.
Arguments Raise {A} e.

(** [bool(v)] *)
Definition truthy (v : value) : bool :=
  match v with
  | VNone => false
  | VBool b => b
  | VInt n => negb (n =? 0)
  | VStr s => negb (String.eqb s "")
  | VList l => match l with [] => false | _ => true end
  | VDict d => match d with [] => false | _ => true end
  end.

(** [d.get(k)] on the items of a dictionary *)
Fixpoint dict_get (d : list (string * value)) (k : string) : option value :=
  match d with
  | [] => None
  | (k', v) :: rest => if String.eqb k' k then Some v else dict_get rest k
  end.

(** [pat in s] for two strings *)
Fixpoint str_contains (pat s : string) : bool :=
  String.prefix pat s ||
  match s with
  | EmptyString => false
  | String _ rest => str_contains pat rest
  end.

(** [k in v], for a string [k] *)
Definition contains (k : string) (v : value) : outcome bool :=
  match v with
  | VDict d => Ok (match dict_get d k with Some _ => true | None => false end)
  | VList l =>
      Ok (existsb (fun x => match x with VStr s => String.eqb s k | _ => false end) l)
  | VStr s => Ok (str_contains k s)
  | _ => Raise (TypeError "argument is not iterable")
  end.

(** [v[k]], for a string [k] *)
Definition getitem (v : value) (k : string) : outcome value :=
  match v with
  | VDict d => match dict_get d k with Some x => Ok x | None => Raise (KeyError k) end
  | VList _ | VStr _ => Raise (TypeError "indices must be integers")
  | _ => Raise (TypeError "object is not subscriptable")
  end.

(** [v.get(k, default)] *)
Definition get (v : value) (k : string) (default : value) : outcome value :=
  match v with
  | VDict d => Ok (match dict_get d k with Some x => x | None => default end)
  | _ => Raise (AttributeError "object has no attribute 'get'")
  end.

(** [v.startswith(p)] *)
Definition startswith (v : value) (p : string) : outcome bool :=
  match v with
  | VStr s => Ok (String.prefix p s)
  | _ => Raise (AttributeError "object has no attribute 'startswith'")
  end.

(** [s.replace(old, "")]: every occurrence of [old], found left to right
    without overlap, is dropped. [skip] counts the characters of the current
    occurrence that are still to be dropped. *)
Fixpoint remove_from (skip : nat) (old s : string) : string :=
  match s with
  | EmptyString => EmptyString
  | String c rest =>
      match skip with
      | S k => remove_from k old rest
      | O =>
          if String.prefix old s
          then remove_from (Nat.pred (String.length old)) old rest
          else String c (remove_from O old rest)
      end
  end.

Definition str_remove (s old : string) : string :=
  match old with
  | EmptyString => s
  | _ => remove_from O old s
  end.

(** [v.replace(old, "")] *)
Definition replace_with_empty (v : value) (old : string) : outcome string :=
  match v with
  | VStr s => Ok (str_remove s old)
  | _ => Raise (AttributeError "object has no attribute 'replace'")
  end.

(** [for x in v]: the elements the loop visits *)
Definition iter (v : value) : outcome (list value) :=
  match v with
  | VList l => Ok l
  | VDict d => Ok (map (fun kv => VStr (fst kv)) d)
  | VStr s => Ok (map (fun c => VStr (String c EmptyString)) (list_ascii_of_string s))
  | _ => Raise (TypeError "object is not iterable")
  end.

(** [v + 1] *)
Definition add_one (v : value) : outcome Z :=
  match v with
  | VInt n => Ok (n + 1)
  | VBool b => Ok ((if b then 1 else 0) + 1)
  | _ => Raise (TypeError "unsupported operand type(s) for +")
  end.

End Py.
Import Py.


(** ** The world the three modules act on *)

(** A resume action: called with the stored [data], it returns a value or
    raises. *)
Definition callback : Type := value -> outcome value.

(** One entry of [pending_confirmations]. A callback that is [None] in the
    source is [None] here. *)
Record confirmation : Type := Confirmation {
  message : string;
  data : value;
  on_confirm : option callback;
  on_cancel : option callback;
  timestamp : Z
}.

(** [ConfirmationHandler] *)
Record ConfirmationHandler : Type := Handler {
  pending_confirmations : gmap string confirmation;
  timeout_seconds : Z
}.

(** [TelegramBotServer]; [last_update_id] holds whatever the last update
    carried under ["update_id"]. *)
Record TelegramBotServer : Type := BotServer {
  last_update_id : value;
  running : bool
}.

(** [Config], as far as the Telegram modules read it ([os.getenv] gives
    [None] for an unset variable). *)
Record Config : Type := {
  TELEGRAM_BOT_TOKEN : option string;
  TELEGRAM_CHAT_ID : option string
}.

(** A call of a resume action: the entry it belongs to, which of the two
    actions ([true] for [on_confirm]) and the argument. *)
Inductive call : Type :=
| Called (confirmation_id : string) (confirm : bool) (arg : value).

(** [httpx.post(url, json=payload)] *)
Record request : Type := Post { url : string; json : value }.

Record World : Type := {
  confirmation_handler : ConfirmationHandler;
  bot_server : TelegramBotServer;
  invoked : list call;
  posted : list request;
  threads : nat
}.

Definition set_handler (h : ConfirmationHandler) (w : World) : World :=
  {| confirmation_handler := h; bot_server := bot_server w;
     invoked := invoked w; posted := posted w; threads := threads w |}.

Definition set_bot (b : TelegramBotServer) (w : World) : World :=
  {| confirmation_handler := confirmation_handler w; bot_server := b;
     invoked := invoked w; posted := posted w; threads := threads w |}.

Definition set_pending (m : gmap string confirmation) (w : World) : World :=
  set_handler (Handler m (timeout_seconds (confirmation_handler w))) w.

Definition pending (w : World) : gmap string confirmation :=
  pending_confirmations (confirmation_handler w).

(** *** Statements: state passing with exceptions *)

Definition M (A : Type) : Type := World -> outcome A * World.

Definition ret {A} (a : A) : M A := fun w => (Ok a, w).

Definition raise {A} (e : exn) : M A := fun w => (Raise e, w).

Definition bind {A B} (m : M A) (k : A -> M B) : M B :=
  fun w =>
    match m w with
    | (Ok a, w') => k a w'
    | (Raise e, w') => (Raise e, w')
    end.

(** An expression that may raise and has no effect *)
Definition eval {A} (o : outcome A) : M A := fun w => (o, w).

(** [try: body except Exception as e: handler e] *)
Definition try_except {A} (body : M A) (handler : exn -> M A) : M A :=
  fun w =>
    match body w with
    | (Raise e, w') => if is_Exception e then handler e w' else (Raise e, w')
    | r => r
    end.

Declare Scope py_scope.
Delimit Scope py_scope with py.
Notation "'let*' x := m 'in' k" := (bind m (fun x => k))
  (at level 10, x name, m at level 100, k at level 200) : py_scope.
Notation "m ;; k" := (bind m (fun _ => k))
  (at level 100, k at level 200, right associativity) : py_scope.
Local Open Scope py_scope.

Definition modify (f : World -> World) : M unit := fun w => (Ok tt, f w).

(** The callback is called and the call recorded. *)
Definition invoke (confirmation_id : string) (confirm : bool)
    (f : callback) (arg : value) : M value :=
  fun w =>
    (f arg,
     {| confirmation_handler := confirmation_handler w;
        bot_server := bot_server w;
        invoked := invoked w ++ [Called confirmation_id confirm arg];
        posted := posted w; threads := threads w |}).

(** ** confirmation_handler.py *)

(** [ConfirmationHandler.__init__] *)
Definition ConfirmationHandler_init : ConfirmationHandler :=
  Handler ∅ 300.

(** [create_confirmation]; [uuid4] is the text of [str(uuid.uuid4())] and
    [now] the reading of [time.time()]. *)
Definition create_confirmation (uuid4 : string) (now : Z)
    (message : string) (data : value)
    (on_confirm on_cancel : option callback) : M string :=
  let confirmation_id := substring 0 8 uuid4 in
  modify (fun w =>
    set_pending
      (<[confirmation_id :=
           Confirmation message data on_confirm on_cancel now]> (pending w))
      w) ;;
  ret confirmation_id.

Definition error_result (msg : string) : value :=
  VDict [("error", VStr msg)].

(** The test of both [handle_response] and [cleanup_expired]:
    [time.time() - conf["timestamp"] > self.timeout_seconds]. *)
Definition timed_out (now : Z) (conf : confirmation) (timeout : Z) : bool :=
  now - timestamp conf >? timeout.

(** [handle_response]; [now] is the reading of [time.time()] at the
    timeout check. *)
Definition handle_response (confirmation_id : string) (confirmed : bool)
    (now : Z) : M value :=
  fun w =>
    match pending w !! confirmation_id with
    | None => ret (error_result "Confirmación no encontrada o expirada") w
    | Some conf =>
        (modify (set_pending (delete confirmation_id (pending w))) ;;
         if timed_out now conf (timeout_seconds (confirmation_handler w))
         then ret (error_result "Confirmación expirada")
         else
           match confirmed, on_confirm conf, on_cancel conf with
           | true, Some f, _ =>
               try_except
                 (let* result := invoke confirmation_id true f (data conf) in
                  ret (VDict [("success", VBool true); ("result", result)]))
                 (fun e => ret (error_result (exn_str e)))
           | false, _, Some f =>
               try_except
                 (let* result := invoke confirmation_id false f (data conf) in
                  ret (VDict [("success", VBool true); ("result", result);
                              ("cancelled", VBool true)]))
                 (fun e => ret (error_result (exn_str e)))
           | _, _, _ =>
               ret (VDict [("success", VBool true);
                           ("cancelled", VBool (negb confirmed))])
           end) w
    end.

(** [del d[cid]] *)
Definition del_pending (cid : string) : M unit :=
  fun w =>
    match pending w !! cid with
    | None => raise (KeyError cid) w
    | Some _ => modify (set_pending (delete cid (pending w))) w
    end.

(** [for x in xs: body x] *)
Fixpoint for_each {A} (xs : list A) (body : A -> M unit) : M unit :=
  match xs with
  | [] => ret tt
  | x :: rest => body x ;; for_each rest body
  end.

(** The list [expired] of [cleanup_expired]: the ids of the items whose age
    is over the timeout. *)
Definition expired_ids (current_time : Z) (w : World) : list string :=
  map fst
    (List.filter
       (fun item =>
          timed_out current_time (snd item)
            (timeout_seconds (confirmation_handler w)))
       (map_to_list (pending w))).

(** [cleanup_expired]; the ids to drop are collected first, then deleted
    one by one. *)
Definition cleanup_expired (now : Z) : M unit :=
  fun w =>
    let current_time := now in
    let expired := expired_ids current_time w in
    for_each expired del_pending w.

(** ** The transport *)

(** What an HTTP call comes back with: a status code, or a failure of the
    client library (a subclass of [Exception]). *)
Inductive reply : Type :=
| Status (status_code : Z)
| Failure (msg : string).

(** The body of a [getUpdates] answer: [status_code] and [response.json()]. *)
Record response : Type := Response {
  status_code : Z;
  response_json : outcome value
}.

Section Telegram.

(** [Config], the builtin [str] on values, and the network: the answer to a
    post may depend on everything posted before it. *)
Variable config : Config.
Variable py_str : value -> string.
Variable httpx_post : list request -> request -> reply.

Definition base_url : string :=
  "https://api.telegram.org/bot" +:+
  match TELEGRAM_BOT_TOKEN config with Some t => t | None => "None" end.

Definition http_post (r : request) : M Z :=
  fun w =>
    (match httpx_post (posted w) r with
     | Status c => Ok c
     | Failure msg => Raise (Exn true msg)
     end,
     {| confirmation_handler := confirmation_handler w;
        bot_server := bot_server w;
        invoked := invoked w;
        posted := posted w ++ [r]; threads := threads w |}).

(** ** telegram_sender.py *)

(** [not TELEGRAM_BOT_TOKEN or not TELEGRAM_CHAT_ID] *)
Definition credentials_missing : bool :=
  match TELEGRAM_BOT_TOKEN config, TELEGRAM_CHAT_ID config with
  | Some t, Some c => String.eqb t "" || String.eqb c ""
  | _, _ => true
  end.

Definition chat_id : value :=
  match TELEGRAM_CHAT_ID config with Some c => VStr c | None => VNone end.

(** [send_message]: on a 400 the post is repeated without ["parse_mode"]. *)
Definition send_message (text : string) : M unit :=
  if credentials_missing then ret tt
  else
    let url := base_url +:+ "/sendMessage" in
    try_except
      (let* status := http_post
           (Post url (VDict [("chat_id", chat_id); ("text", VStr text);
                             ("parse_mode", VStr "Markdown")])) in
       if status =? 200 then ret tt
       else if status =? 400 then
         (let* retry := http_post
              (Post url (VDict [("chat_id", chat_id); ("text", VStr text)])) in
          ret tt)
       else ret tt)
      (fun e => ret tt).

(** The inline keyboard with the two buttons *)
Definition keyboard (confirmation_id : string) : value :=
  VDict [("inline_keyboard",
          VList [VList [
            VDict [("text", VStr "✅ Sí, corregir");
                   ("callback_data", VStr ("confirm_" +:+ confirmation_id))];
            VDict [("text", VStr "❌ No, dejar así");
                   ("callback_data", VStr ("cancel_" +:+ confirmation_id))]]])].

(** [send_confirmation_message] *)
Definition send_confirmation_message (text confirmation_id : string) : M unit :=
  if credentials_missing then ret tt
  else
    let url := base_url +:+ "/sendMessage" in
    try_except
      (let* status := http_post
           (Post url (VDict [("chat_id", chat_id); ("text", VStr text);
                             ("reply_markup", keyboard confirmation_id)])) in
       ret tt)
      (fun e => ret tt).

(** ** bot_server.py *)

(** [TelegramBotServer.__init__] *)
Definition TelegramBotServer_init : TelegramBotServer :=
  BotServer (VInt 0) false.

Definition set_running (b : bool) (w : World) : World :=
  set_bot (BotServer (last_update_id (bot_server w)) b) w.

Definition set_last_update_id (v : value) (w : World) : World :=
  set_bot (BotServer v (running (bot_server w))) w.

(** [threading.Thread(target=self._poll_loop, daemon=True).start()] *)
Definition start_thread (w : World) : World :=
  {| confirmation_handler := confirmation_handler w;
     bot_server := bot_server w;
     invoked := invoked w; posted := posted w;
     threads := S (threads w) |}.

(** [start_polling] *)
Definition start_polling : M unit :=
  fun w =>
    if running (bot_server w) then ret tt w
    else (modify (set_running true) ;; modify start_thread) w.

(** [stop_polling] *)
Definition stop_polling : M unit :=
  modify (set_running false).

(** The text sent back after a response, lines 99-106 of
    [_handle_confirmation]. *)
Definition result_message (result : value) : M string :=
  let* has_error := eval (contains "error" result) in
  if has_error then
    let* e := eval (getitem result "error") in
    ret ("❌ Error: " +:+ py_str e)
  else
    let* cancelled := eval (get result "cancelled" VNone) in
    if truthy cancelled then ret "❌ Operación cancelada"
    else
      let* has_result := eval (contains "result" result) in
      if has_result then
        let* r := eval (getitem result "result") in
        let* has_path := eval (contains "file_path" r) in
        if has_path then
          let* path := eval (getitem r "file_path") in
          ret ("✅ Archivo editado y guardado:

📁 " +:+ py_str path)
        else ret "✅ Operación completada"
      else ret "✅ Operación completada".

(** [_handle_confirmation]; the call of [handle_response] is outside the
    [try]. *)
Definition _handle_confirmation (confirmation_id : string) (confirmed : bool)
    (callback : value) (now : Z) : M unit :=
  let* result := handle_response confirmation_id confirmed now in
  try_except
    (let answer_url := base_url +:+ "/answerCallbackQuery" in
     let* query_id := eval (getitem callback "id") in
     let answer_payload :=
       VDict [("callback_query_id", query_id);
              ("text", VStr (if confirmed then "✅ Procesando..."
                             else "❌ Cancelado"))] in
     let* answer := http_post (Post answer_url answer_payload) in
     let* message := result_message result in
     send_message message)
    (fun e => ret tt).

(** The part of [_handle_confirmation] after the call of
    [handle_response]. *)
Definition report (confirmed : bool) (callback result : value) : M unit :=
  try_except
    (let answer_url := base_url +:+ "/answerCallbackQuery" in
     let* query_id := eval (getitem callback "id") in
     let answer_payload :=
       VDict [("callback_query_id", query_id);
              ("text", VStr (if confirmed then "✅ Procesando..."
                             else "❌ Cancelado"))] in
     let* answer := http_post (Post answer_url answer_payload) in
     let* message := result_message result in
     send_message message)
    (fun e => ret tt).

(** [_handle_update] *)
Definition _handle_update (update : value) (now : Z) : M unit :=
  let* has_callback := eval (contains "callback_query" update) in
  if has_callback then
    let* callback := eval (getitem update "callback_query") in
    let* callback_data := eval (get callback "data" (VStr "")) in
    let* is_confirm := eval (startswith callback_data "confirm_") in
    if is_confirm then
      let* confirmation_id := eval (replace_with_empty callback_data "confirm_") in
      _handle_confirmation confirmation_id true callback now
    else
      let* is_cancel := eval (startswith callback_data "cancel_") in
      if is_cancel then
        let* confirmation_id := eval (replace_with_empty callback_data "cancel_") in
        _handle_confirmation confirmation_id false callback now
      else ret tt
  else ret tt.

(** The loop of [_poll_once] over the updates of one answer: the update is
    handled, then the cursor is set from it. [clock i] is the reading of
    [time.time()] while the [i]-th update of the batch is handled. *)
Fixpoint handle_updates (clock : nat -> Z) (i : nat) (updates : list value)
    : M unit :=
  match updates with
  | [] => ret tt
  | update :: rest =>
      _handle_update update (clock i) ;;
      (let* update_id := eval (getitem update "update_id") in
       modify (set_last_update_id update_id) ;;
       handle_updates clock (S i) rest)
  end.

(** [_poll_once]; [httpx_get offset] is the answer of [getUpdates] asked
    with that offset. On a 409 the code only sleeps, as for any status other
    than 200 nothing is done to the state. *)
Definition _poll_once (httpx_get : Z -> outcome response) (clock : nat -> Z)
    : M unit :=
  try_except
    (fun w =>
       (let* offset := eval (add_one (last_update_id (bot_server w))) in
        let* response := eval (httpx_get offset) in
        if status_code response =? 200 then
          let* data := eval (response_json response) in
          let* ok := eval (get data "ok" VNone) in
          if truthy ok then
            let* updates := eval (get data "result" (VList [])) in
            let* updates := eval (iter updates) in
            handle_updates clock O updates
          else ret tt
        else ret tt) w)
    (fun e => ret tt).

End Telegram.

(** ** Histories of the store *)

(** The three operations of [ConfirmationHandler] that touch the store, with
    what the environment supplied to each. *)
Inductive op : Type :=
| Create (uuid4 : string) (now : Z) (message : string) (data : value)
         (on_confirm on_cancel : option callback)
| Respond (confirmation_id : string) (confirmed : bool) (now : Z)
| Cleanup (now : Z).

(** The world after one operation, whatever it returned or raised. *)
Definition exec (w : World) (o : op) : World :=
  match o with
  | Create uuid4 now message data on_confirm on_cancel =>
      snd (create_confirmation uuid4 now message data on_confirm on_cancel w)
  | Respond confirmation_id confirmed now =>
      snd (handle_response confirmation_id confirmed now w)
  | Cleanup now => snd (cleanup_expired now w)
  end.

Definition run (w : World) (history : list op) : World :=
  fold_left exec history w.

(** The operation is a [create_confirmation] that draws [confirmation_id]. *)
Definition creates (confirmation_id : string) (o : op) : bool :=
  match o with
  | Create uuid4 _ _ _ _ _ => String.eqb (substring 0 8 uuid4) confirmation_id
  | _ => false
  end.

(** The process as the modules leave it once imported. *)
Definition initial : World :=
  {| confirmation_handler := ConfirmationHandler_init;
     bot_server := TelegramBotServer_init;
     invoked := []; posted := []; threads := O |}.

(** ** Vocabulary of the properties *)

(** The two fixed errors of [handle_response] *)
Definition not_found : value :=
  error_result "Confirmación no encontrada o expirada".

Definition expired : value := error_result "Confirmación expirada".

(** The store after the deletions of [cleanup_expired] *)
Definition delete_all (ks : list string) (m : gmap string confirmation)
    : gmap string confirmation :=
  fold_left (fun acc k => delete k acc) ks m.


(** Whatever the expression raises is an instance of [Exception]. *)
Definition catchable {A} (o : outcome A) : Prop :=
  forall e, o = Raise e -> is_Exception e = true.

(** The store, the poller and the log of resume actions are left alone, and
    whatever is raised can be caught. *)
Definition notifier {A} (m : M A) : Prop :=
  forall w r w', m w = (r, w') ->
    confirmation_handler w' = confirmation_handler w /\
    bot_server w' = bot_server w /\
    invoked w' = invoked w /\
    catchable r.

(** The store holds only resume actions whose faults are instances of
    [Exception]. *)
Definition polite (w : World) : Prop :=
  forall cid conf f e,
    pending w !! cid = Some conf ->
    on_confirm conf = Some f \/ on_cancel conf = Some f ->
    f (data conf) = Raise e ->
    is_Exception e = true.

(** An update as the Bot API documents it: an object with an ["update_id"]
    whose ["callback_query"], when there is one, is an object whose
    ["data"], when there is one, is a string. *)
Definition well_formed (update : value) : bool :=
  match update with
  | VDict d =>
      match dict_get d "update_id" with
      | None => false
      | Some _ =>
          match dict_get d "callback_query" with
          | None => true
          | Some (VDict c) =>
              match dict_get c "data" with
              | None | Some (VStr _) => true
              | Some _ => false
              end
          | Some _ => false
          end
      end
  | _ => false
  end.

(** The cursor after a batch: the ["update_id"] of its last update. *)
Definition cursor_after (updates : list value) (cursor : value) : value :=
  fold_left
    (fun c update =>
       match getitem update "update_id" with Ok x => x | Raise _ => c end)
    updates cursor.

(** The characters of the first group of a UUID in text form. *)
Definition hex_digit (c : ascii) : bool :=
  existsb (Ascii.eqb c) (list_ascii_of_string "0123456789abcdef").

Definition hex_string (s : string) : bool :=
  forallb hex_digit (list_ascii_of_string s).

(** The executable form of [polite]. *)
Definition raises_only_exceptions (conf : confirmation)
    (f : option callback) : bool :=
  match f with
  | None => true
  | Some g =>
      match g (data conf) with
      | Ok _ => true
      | Raise e => is_Exception e
      end
  end.

Definition politeb (w : World) : bool :=
  forallb
    (fun item =>
       raises_only_exceptions (snd item) (on_confirm (snd item)) &&
       raises_only_exceptions (snd item) (on_cancel (snd item)))
    (map_to_list (pending w)).

(** ** Sample data, after [main.py] *)

Definition sample_uuid : string := "3f2a9c1e-7b4d-4e8a-9c0f-1a2b3c4d5e6f".

Definition sample_data : value :=
  VDict [("file_path", VStr "downloads/ventas.xlsx");
         ("suggestions", VList [])].

Definition saves_file : callback :=
  fun d => Ok (VDict [("file_path", VStr "downloads/ventas_corregido.xlsx")]).

Definition edit_fails : callback :=
  fun d => Raise (Exn true "Unknown error").

Definition reports_cancel : callback :=
  fun d => Ok (VDict [("cancelled", VBool true)]).

Definition sample_entry : confirmation :=
  Confirmation "File editing confirmation" sample_data
    (Some saves_file) (Some reports_cancel) 1000.

(** One confirmation is pending, created at time 1000. *)
Definition waiting : World :=
  snd (create_confirmation sample_uuid 1000 "File editing confirmation"
         sample_data (Some saves_file) (Some reports_cancel) initial).

(** The same with an edit that fails. *)
Definition waiting_for_failure : World :=
  snd (create_confirmation sample_uuid 1000 "File editing confirmation"
         sample_data (Some edit_fails) (Some reports_cancel) initial).

Definition sample_config : Config :=
  {| TELEGRAM_BOT_TOKEN := Some "123456:token";
     TELEGRAM_CHAT_ID := Some "987654" |}.

(** [str] on the strings the samples format. *)
Definition sample_str (v : value) : string :=
  match v with VStr s => s | _ => "" end.

Definition always_200 (sent : list request) (r : request) : reply :=
  Status 200.

Definition button_press (update_id : Z) (callback_data : value) : value :=
  VDict [("update_id", VInt update_id);
         ("callback_query",
          VDict [("id", VStr "4382"); ("data", callback_data)])].

Definition answer_with (updates : list value) (offset : Z) : outcome response :=
  Ok (Response 200
        (Ok (VDict [("ok", VBool true); ("result", VList updates)]))).

(** Other operations on the store, none of which draws the sample id. *)
Definition sample_history : list op :=
  [Cleanup 1100; Respond "3f2a9c1e" false 1200;
   Create "77aa01bc-0f3e-4d5c-8b9a-6e7f8091a2b3" 1250
     "File editing confirmation" sample_data None None].



(** The poller once [main] has started it. *)
Definition started : World := snd (start_polling initial).

Definition good_batch : list value :=
  [button_press 5 (VStr "confirm_3f2a9c1e");
   VDict [("update_id", VInt 6); ("message", VDict [("text", VStr "hola")])]].

(** A batch whose first update carries a callback query with a null
    ["data"]. *)
Definition bad_batch : list value :=
  [button_press 7 VNone; VDict [("update_id", VInt 8)]].

Definition at_cursor_6 : World := set_last_update_id (VInt 6) waiting.

(** ** The rest of the three modules *)

(** The world with further posts on record. *)
Definition with_posts (rs : list request) (w : World) : World :=
  {| confirmation_handler := confirmation_handler w;
     bot_server := bot_server w;
     invoked := invoked w;
     posted := posted w ++ rs; threads := threads w |}.

(** The world with further calls of resume actions on record. *)
Definition with_calls (cs : list call) (w : World) : World :=
  {| confirmation_handler := confirmation_handler w;
     bot_server := bot_server w;
     invoked := invoked w ++ cs;
     posted := posted w; threads := threads w |}.

Definition call_id (c : call) : string :=
  match c with Called cid _ _ => cid end.

(** *** confirmation_handler.py: [format_confirmation_message] *)

(** The line feed of the string literals *)
Definition LF : string := String "010"%char EmptyString.

(** [enumerate(xs, start)] *)
Fixpoint enumerate {A} (start : Z) (xs : list A) : list (Z * A) :=
  match xs with
  | [] => []
  | x :: rest => (start, x) :: enumerate (start + 1) rest
  end.

Section Formatting.

(** The builtin [str], which the f-strings apply to what they format. *)
Variable py_str : value -> string.

(** [format_confirmation_message]; [issues] is a list, [suggestions] is
    never looked at. *)
Definition format_confirmation_message (confirmation_id : string)
    (issues : list value) (suggestions : value) : string :=
  let message := "📊 **Análisis de Archivo Completado**" +:+ LF +:+ LF in
  let message := message +:+ ("**Problemas detectados:**" +:+ LF) in
  let message :=
    fold_left
      (fun message item =>
         message +:+
         (py_str (VInt (fst item)) +:+ ". " +:+ py_str (snd item) +:+ LF))
      (enumerate 1 (firstn 5 issues)) message in
  let message :=
    if (5 <? Z.of_nat (length issues))
    then message +:+
         ("... y " +:+ py_str (VInt (Z.of_nat (length issues) - 5)) +:+
          " más" +:+ LF)
    else message in
  let message :=
    message +:+
    (LF +:+ "¿Deseas que corrija estos problemas automáticamente?" +:+ LF) in
  let message := message +:+ (LF +:+ "_ID: " +:+ confirmation_id +:+ "_") in
  message.

End Formatting.

(** *** The requests of [send_message] and [_handle_confirmation] *)

(** The first post of [send_message] and the one it falls back to. *)
Definition markdown_message (config : Config) (text : string) : request :=
  Post (base_url config +:+ "/sendMessage")
    (VDict [("chat_id", chat_id config); ("text", VStr text);
            ("parse_mode", VStr "Markdown")]).

Definition plain_message (config : Config) (text : string) : request :=
  Post (base_url config +:+ "/sendMessage")
    (VDict [("chat_id", chat_id config); ("text", VStr text)]).

(** The acknowledgement of a button press. *)
Definition answer_callback (config : Config) (confirmed : bool)
    (query_id : value) : request :=
  Post (base_url config +:+ "/answerCallbackQuery")
    (VDict [("callback_query_id", query_id);
            ("text", VStr (if confirmed then "✅ Procesando..."
                           else "❌ Cancelado"))]).

(** The text [_handle_confirmation] picks for a result, or the fault of
    picking it. *)
Definition message_for (py_str : value -> string) (result : value)
    : outcome string :=
  fst (result_message py_str result initial).

(** *** Vocabulary for the poller *)

(** [v + 1] is defined. *)
Definition is_number (v : value) : bool :=
  match v with
  | VInt _ | VBool _ => true
  | _ => false
  end.

Definition catchableb {A} (o : outcome A) : bool :=
  match o with
  | Ok _ => true
  | Raise e => is_Exception e
  end.

(** What the transport does when asked with the offset the cursor gives can
    be caught: the request and the decoding of the body raise nothing but
    instances of [Exception]. *)
Definition fetch_catchable (httpx_get : Z -> outcome response) (w : World)
    : bool :=
  match add_one (last_update_id (bot_server w)) with
  | Raise _ => true
  | Ok offset =>
      match httpx_get offset with
      | Raise e => is_Exception e
      | Ok r => catchableb (response_json r)
      end
  end.

(** The calls of [start_polling] and [stop_polling] made by a program. *)
Inductive switch : Type := Start | Stop.

Definition flip (w : World) (s : switch) : World :=
  match s with
  | Start => snd (start_polling w)
  | Stop => snd (stop_polling w)
  end.

Definition count_stops (l : list switch) : nat :=
  length (List.filter (fun s => match s with Stop => true | Start => false end) l).

Definition count_starts (l : list switch) : nat :=
  length (List.filter (fun s => match s with Start => true | Stop => false end) l).

(** The statement only takes entries out of the store and only adds calls
    to the record, each for an id that was pending and no longer is, no id
    twice; it does not touch the timeout or the running flag. *)
Definition consuming {A} (m : M A) : Prop :=
  forall w r w', m w = (r, w') ->
    exists calls,
      invoked w' = invoked w ++ calls /\
      NoDup (map call_id calls) /\
      (forall cid, In cid (map call_id calls) ->
         is_Some (pending w !! cid) /\ pending w' !! cid = None) /\
      pending w' ⊆ pending w /\
      timeout_seconds (confirmation_handler w')
      = timeout_seconds (confirmation_handler w) /\
      running (bot_server w') = running (bot_server w).

(** From a polite store, whatever the statement raises can be caught. *)
Definition tame {A} (m : M A) : Prop :=
  forall w r w', polite w -> m w = (r, w') -> catchable r.

(** A value that is neither a dictionary, nor a list, nor a string. *)
Definition not_a_container (v : value) : bool :=
  match v with
  | VNone | VBool _ | VInt _ => true
  | _ => false
  end.

Definition flips (w : World) (l : list switch) : World :=
  fold_left flip l w.

(** ** config.py: [Config.validate] *)

(** The variables [validate] looks at, beside the Telegram ones. *)
Record Settings : Type := {
  AZURE_CLIENT_ID : option string;
  AZURE_TENANT_ID : option string;
  GEMINI_API_KEY : option string;
  telegram : Config
}.

(** Truth value of what [os.getenv] gave: unset and empty are false. *)
Definition is_set (v : option string) : bool :=
  match v with
  | Some s => negb (String.eqb s "")
  | None => false
  end.

(** [sep.join(l)] *)
Fixpoint join (sep : string) (l : list string) : string :=
  match l with
  | [] => ""
  | [x] => x
  | x :: rest => x +:+ sep +:+ join sep rest
  end.

(** The list [missing] of [validate] *)
Definition missing_variables (s : Settings) : list string :=
  (if is_set (AZURE_CLIENT_ID s) then [] else ["AZURE_CLIENT_ID"]) ++
  (if is_set (AZURE_TENANT_ID s) then [] else ["AZURE_TENANT_ID"]) ++
  (if is_set (GEMINI_API_KEY s) then [] else ["GEMINI_API_KEY"]) ++
  (if is_set (TELEGRAM_BOT_TOKEN (telegram s)) then []
   else ["TELEGRAM_BOT_TOKEN"]).

(** [Config.validate] *)
Definition validate (s : Settings) : outcome unit :=
  let missing := missing_variables s in
  match missing with
  | [] => Ok tt
  | _ =>
      Raise (Exn true
               ("Missing configuration variables: " +:+ join ", " missing))
  end.

(** ** main.py: offering a correction, and the tools it calls *)

(** A tool of [FileEditorServer], called with its keyword arguments; what it
    does to files is outside the world. *)
Definition tool : Type := value -> outcome value.

Record FileEditorServer : Type := {
  analyze_excel : tool;
  edit_excel : tool;
  save_file : tool
}.

(** [call_tool] *)
Definition call_tool (self : FileEditorServer) (tool_name : string)
    (params : value) : outcome value :=
  if String.eqb tool_name "analyze_excel" then analyze_excel self params
  else if String.eqb tool_name "edit_excel" then edit_excel self params
  else if String.eqb tool_name "save_file" then save_file self params
  else Raise (Exn true ("Unknown tool: " +:+ tool_name)).

(** Sequencing of expressions that may raise *)
Definition and_then {A B} (o : outcome A) (k : A -> outcome B) : outcome B :=
  match o with
  | Ok a => k a
  | Raise e => Raise e
  end.

(** What [issues[:5]], [enumerate] and [len] see of the value: a list, or
    the characters of a string; anything else cannot be sliced. *)
Definition sequence_of (v : value) : outcome (list value) :=
  match v with
  | VList l => Ok l
  | VStr s =>
      Ok (map (fun c => VStr (String c EmptyString)) (list_ascii_of_string s))
  | _ => Raise (TypeError "object cannot be sliced")
  end.

Section Main.

Variable config : Config.
Variable py_str : value -> string.
Variable httpx_post : list request -> request -> reply.
Variable mcp_server : FileEditorServer.

(** The closure [on_confirm] of [main] *)
Definition on_confirm_edit : callback :=
  fun data =>
    and_then (getitem data "file_path") (fun file_path =>
    and_then (getitem data "suggestions") (fun suggestions =>
    and_then (call_tool mcp_server "edit_excel"
                (VDict [("file_path", file_path);
                        ("operations", suggestions)])) (fun edit_result =>
    and_then (get edit_result "success" VNone) (fun success =>
    if truthy success then
      and_then (getitem edit_result "dataframe") (fun dataframe =>
      and_then (call_tool mcp_server "save_file"
                  (VDict [("dataframe", dataframe);
                          ("original_path", file_path);
                          ("suffix", VStr "_corregido")])) (fun new_path =>
      Ok (VDict [("file_path", new_path)])))
    else
      and_then (get edit_result "error" (VStr "Unknown error")) (fun error =>
      Raise (Exn true (py_str error))))))).

(** The closure [on_cancel] of [main] *)
Definition on_cancel_report : callback :=
  fun data => Ok (VDict [("cancelled", VBool true)]).

(** Lines 94-145 of [main]: the analysis of one spreadsheet and, when it
    asks for it, the registration of a confirmation and the prompt with its
    two buttons. [uuid4] and [now] are what [create_confirmation] draws. *)
Definition offer_correction (file_path uuid4 : string) (now : Z) : M unit :=
  let* analysis_result :=
    eval (call_tool mcp_server "analyze_excel"
            (VDict [("file_path", VStr file_path)])) in
  let* needs_editing := eval (get analysis_result "needs_editing" VNone) in
  if truthy needs_editing then
    let* suggestions := eval (getitem analysis_result "suggestions") in
    let* confirmation_id :=
      create_confirmation uuid4 now "File editing confirmation"
        (VDict [("file_path", VStr file_path); ("suggestions", suggestions)])
        (Some on_confirm_edit) (Some on_cancel_report) in
    let* issues := eval (getitem analysis_result "issues") in
    let* suggestions := eval (getitem analysis_result "suggestions") in
    let* issues := eval (sequence_of issues) in
    let conf_message :=
      format_confirmation_message py_str confirmation_id issues suggestions in
    send_confirmation_message config httpx_post conf_message confirmation_id
  else ret tt.

End Main.

(** The callback data of the buttons a request carries, row by row. *)
Definition items_of (v : value) : list value :=
  match v with VList l => l | _ => [] end.

Definition field (v : value) (k : string) : value :=
  match v with
  | VDict d => match dict_get d k with Some x => x | None => VNone end
  | _ => VNone
  end.

Definition button_data (r : request) : list value :=
  flat_map
    (fun row => map (fun button => field button "callback_data") (items_of row))
    (items_of (field (field (json r) "reply_markup") "inline_keyboard")).

(** ** mcp/file_editor_server.py: the analysis and the editing of a table *)

Module Editor.

(** What the tools see of a pandas [DataFrame]: the number of rows and,
    column by column, the label and the number of null cells. The readers
    [read_csv] and [read_excel] give every column a label of its own, so
    that [df.isnull().sum()] and [df[col]] speak of one column. *)
Record Column : Type := { label : value; null_cells : nat }.

Record DataFrame : Type := { row_count : nat; columns : list Column }.

(** [s.endswith(suffix)] *)
Definition is_suffix (suffix s : string) : bool :=
  (String.length suffix <=? String.length s)%nat &&
  String.eqb
    (substring (String.length s - String.length suffix)
       (String.length suffix) s)
    suffix.

(** [s.replace(' ', '_')] *)
Fixpoint replace_spaces (s : string) : string :=
  match s with
  | EmptyString => EmptyString
  | String c rest =>
      String (if Ascii.eqb c " " then "_"%char else c) (replace_spaces rest)
  end.

(** [v == s] for a string literal [s] *)
Definition equals (v : value) (s : string) : bool :=
  match v with
  | VStr t => String.eqb t s
  | _ => false
  end.

Section Tools.

(** Python's [str], [str.strip] and [str.lower]; pandas' readers; the
    reference by which a frame travels in a dictionary; and the three pandas
    operations of [edit_excel], each of which may change the frame in place
    and may raise. *)
Variable py_str : value -> string.
Variable strip lower : string -> string.
Variable read_csv read_excel : string -> outcome DataFrame.
Variable reference : DataFrame -> value.
Variable rename : DataFrame -> value -> value -> outcome unit * DataFrame.
Variable fillna : DataFrame -> value -> value -> outcome unit * DataFrame.
Variable to_datetime : DataFrame -> value -> outcome unit * DataFrame.

(** The first lines of both tools: [read_csv] for a path that ends in
    ".csv", [read_excel] for any other. *)
Definition read_file (file_path : value) : outcome DataFrame :=
  match file_path with
  | VStr p => if is_suffix ".csv" p then read_csv p else read_excel p
  | _ => Raise (AttributeError "object has no attribute 'endswith'")
  end.

(** The three loops of [analyze_excel]; each one appends to [issues] and
    [suggestions]. *)
Definition check_name (lists : list value * list value) (c : Column)
    : list value * list value :=
  let col := label c in
  if str_contains " " (py_str col) ||
     negb (String.eqb (strip (py_str col)) (py_str col))
  then
    (fst lists ++
       [VStr ("Columna '" +:+ py_str col +:+
              "' tiene espacios o formato inconsistente")],
     snd lists ++
       [VDict [("type", VStr "rename_column");
               ("column", col);
               ("new_name", VStr (replace_spaces (strip (py_str col))))]])
  else lists.

Definition check_nulls (lists : list value * list value) (c : Column)
    : list value * list value :=
  let col := label c in
  let count := null_cells c in
  if (0 <? count)%nat
  then
    (fst lists ++
       [VStr ("Columna '" +:+ py_str col +:+ "' tiene " +:+
              py_str (VInt (Z.of_nat count)) +:+ " valores nulos")],
     snd lists ++
       [VDict [("type", VStr "fill_nulls");
               ("column", col);
               ("count", VInt (Z.of_nat count))]])
  else lists.

Definition check_dates (df : DataFrame)
    (lists : list value * list value) (c : Column)
    : list value * list value :=
  let col := label c in
  if str_contains "fecha" (lower (py_str col)) ||
     str_contains "date" (lower (py_str col))
  then
    let sample := Nat.min 10 (row_count df - null_cells c) in
    if (0 <? sample)%nat
    then
      (fst lists ++
         [VStr ("Columna de fecha '" +:+ py_str col +:+
                "' puede tener formato inconsistente")],
       snd lists ++
         [VDict [("type", VStr "standardize_dates"); ("column", col)]])
    else lists
  else lists.

Definition checks (df : DataFrame) : list value * list value :=
  fold_left (check_dates df) (columns df)
    (fold_left check_nulls (columns df)
       (fold_left check_name (columns df) ([], []))).

(** [analyze_excel] *)
Definition analyze_excel (file_path : value) : outcome value :=
  match read_file file_path with
  | Ok df =>
      let '(issues, suggestions) := checks df in
      Ok (VDict [("issues", VList issues);
                 ("suggestions", VList suggestions);
                 ("needs_editing", VBool (0 <? length issues)%nat);
                 ("row_count", VInt (Z.of_nat (row_count df)));
                 ("column_count", VInt (Z.of_nat (length (columns df))))])
  | Raise e =>
      if is_Exception e
      then Ok (VDict [("issues",
                       VList [VStr ("Error al analizar: " +:+ exn_str e)]);
                      ("suggestions", VList []);
                      ("needs_editing", VBool false)])
      else Raise e
  end.

(** The body of the inner [try] of [edit_excel], on the counter
    [operations_applied] and the frame. *)
Definition operation (op : value) (st : nat * DataFrame)
    : outcome unit * (nat * DataFrame) :=
  let '(operations_applied, df) := st in
  match getitem op "type" with
  | Raise e => (Raise e, st)
  | Ok type =>
      if equals type "rename_column" then
        match getitem op "column" with
        | Raise e => (Raise e, st)
        | Ok column =>
            match getitem op "new_name" with
            | Raise e => (Raise e, st)
            | Ok new_name =>
                match rename df column new_name with
                | (Ok _, df') => (Ok tt, (S operations_applied, df'))
                | (Raise e, df') => (Raise e, (operations_applied, df'))
                end
            end
        end
      else if equals type "fill_nulls" then
        match get op "value" (VInt 0) with
        | Raise e => (Raise e, st)
        | Ok v =>
            match getitem op "column" with
            | Raise e => (Raise e, st)
            | Ok column =>
                match fillna df column v with
                | (Ok _, df') => (Ok tt, (S operations_applied, df'))
                | (Raise e, df') => (Raise e, (operations_applied, df'))
                end
            end
        end
      else if equals type "standardize_dates" then
        match getitem op "column" with
        | Raise e => (Raise e, st)
        | Ok column =>
            match to_datetime df column with
            | (Ok _, df') => (Ok tt, (S operations_applied, df'))
            | (Raise e, df') => (Raise e, (operations_applied, df'))
            end
        end
      else (Ok tt, st)
  end.

(** The loop over the operations; a failed operation is logged and the
    loop goes on. *)
Fixpoint apply_operations (operations : list value) (st : nat * DataFrame)
    : outcome (nat * DataFrame) :=
  match operations with
  | [] => Ok st
  | op :: rest =>
      match operation op st with
      | (Ok _, st') => apply_operations rest st'
      | (Raise e, st') =>
          if is_Exception e then apply_operations rest st' else Raise e
      end
  end.

(** [edit_excel] *)
Definition edit_excel (file_path operations : value) : outcome value :=
  let failed (e : exn) : outcome value :=
    if is_Exception e
    then Ok (VDict [("success", VBool false);
                    ("operations_applied", VInt 0);
                    ("error", VStr (exn_str e))])
    else Raise e in
  match read_file file_path with
  | Raise e => failed e
  | Ok df =>
      match iter operations with
      | Raise e => failed e
      | Ok ops =>
          match apply_operations ops (O, df) with
          | Raise e => failed e
          | Ok (operations_applied, df') =>
              Ok (VDict [("success", VBool true);
                         ("operations_applied",
                          VInt (Z.of_nat operations_applied));
                         ("dataframe", reference df')])
          end
      end
  end.

(** *** Vocabulary: what the analysis objects to in a column *)

Definition badly_named (c : Column) : bool :=
  str_contains " " (py_str (label c)) ||
  negb (String.eqb (strip (py_str (label c))) (py_str (label c))).

Definition has_nulls (c : Column) : bool := (0 <? null_cells c)%nat.

Definition dated (df : DataFrame) (c : Column) : bool :=
  (str_contains "fecha" (lower (py_str (label c))) ||
   str_contains "date" (lower (py_str (label c)))) &&
  (null_cells c <? row_count df)%nat.

Definition defective (df : DataFrame) (c : Column) : bool :=
  badly_named c || has_nulls c || dated df c.

(** A suggestion as [edit_excel] can apply it: a dictionary with one of
    the three types, on a column of the frame, and for a renaming a new name
    without a space. *)
Definition editable (df : DataFrame) (suggestion : value) : Prop :=
  exists d c type,
    suggestion = VDict d /\
    In c (columns df) /\
    dict_get d "column" = Some (label c) /\
    dict_get d "type" = Some (VStr type) /\
    ((type = "rename_column" /\
      exists n, dict_get d "new_name" = Some (VStr n) /\
                str_contains " " n = false) \/
     type = "fill_nulls" \/
     type = "standardize_dates").

End Tools.

End Editor.

(** *** Further sample data *)

(** A transport that never gets through. *)
Definition always_fails (sent : list request) (r : request) : reply :=
  Failure "connection refused".

(** An action that returns [None]. *)
Definition returns_none : callback := fun d => Ok VNone.

Definition waiting_for_none : World :=
  snd (create_confirmation sample_uuid 1000 "File editing confirmation"
         sample_data (Some returns_none) None initial).

Definition sample_query : list (string * value) :=
  [("id", VStr "4382"); ("data", VStr "confirm_3f2a9c1e")].

(** A query as the poller would never build it: without ["id"]. *)
Definition query_without_id : list (string * value) :=
  [("data", VStr "confirm_3f2a9c1e")].

(** A batch whose update carries a string as ["update_id"]. *)
Definition odd_batch : list value :=
  [VDict [("update_id", VStr "seven")]].

(** Tools that find one issue, edit and save. *)
Definition sample_tools : FileEditorServer :=
  {| analyze_excel := fun params =>
       Ok (VDict [("issues",
                   VList [VStr "Columna 'Fecha Venta' tiene espacios o formato inconsistente"]);
                  ("suggestions",
                   VList [VDict [("type", VStr "rename_column");
                                 ("column", VStr "Fecha Venta");
                                 ("new_name", VStr "Fecha_Venta")]]);
                  ("needs_editing", VBool true);
                  ("row_count", VInt 12); ("column_count", VInt 3)]);
     edit_excel := fun params =>
       Ok (VDict [("success", VBool true); ("operations_applied", VInt 1);
                  ("dataframe", VStr "frame")]);
     save_file := fun params =>
       Ok (VStr "downloads/ventas_corregido_20240101_120000.xlsx") |}.

Definition sample_suggestions : value :=
  VList [VDict [("type", VStr "rename_column");
                ("column", VStr "Fecha Venta");
                ("new_name", VStr "Fecha_Venta")]].

(** The store after [main] has offered the correction of one file. *)
Definition offered : World :=
  snd (offer_correction sample_config sample_str always_200 sample_tools
         "downloads/ventas.xlsx" sample_uuid 1000 initial).

Definition offered_entry : confirmation :=
  Confirmation "File editing confirmation"
    (VDict [("file_path", VStr "downloads/ventas.xlsx");
            ("suggestions", sample_suggestions)])
    (Some (on_confirm_edit sample_str sample_tools))
    (Some on_cancel_report) 1000.

(** *** A sample table and sample tools *)

(** [str] of the scalars that occur in the samples. *)
Definition table_str (v : value) : string :=
  match v with
  | VStr s => s
  | VInt n => DecimalString.NilZero.string_of_int (Z.to_int n)
  | VBool b => if b then "True" else "False"
  | VNone => "None"
  | _ => ""
  end.

(** [str.lower] and [str.strip] on ASCII text whose only blanks are
    spaces. *)
Fixpoint ascii_lower (s : string) : string :=
  match s with
  | EmptyString => EmptyString
  | String c rest =>
      let n := nat_of_ascii c in
      String (if (65 <=? n)%nat && (n <=? 90)%nat
              then ascii_of_nat (n + 32) else c)
        (ascii_lower rest)
  end.

Fixpoint strip_left (s : string) : string :=
  match s with
  | String c rest => if Ascii.eqb c " " then strip_left rest else s
  | EmptyString => EmptyString
  end.

Fixpoint strip_right (s : string) : string :=
  match s with
  | String c rest =>
      match strip_right rest with
      | EmptyString => if Ascii.eqb c " " then EmptyString
                       else String c EmptyString
      | r => String c r
      end
  | EmptyString => EmptyString
  end.

Definition strip_spaces (s : string) : string := strip_right (strip_left s).

Definition sample_table : Editor.DataFrame :=
  {| Editor.row_count := 12;
     Editor.columns :=
       [ {| Editor.label := VStr "Fecha Venta"; Editor.null_cells := 0 |};
         {| Editor.label := VStr "monto"; Editor.null_cells := 2 |};
         {| Editor.label := VStr "cliente"; Editor.null_cells := 0 |} ] |}.

Definition no_such_file (p : string) : exn :=
  Exn true ("[Errno 2] No such file or directory: '" +:+ p +:+ "'").

Definition sample_read_excel (p : string) : outcome Editor.DataFrame :=
  if String.eqb p "downloads/ventas.xlsx" then Ok sample_table
  else Raise (no_such_file p).

Definition sample_read_csv (p : string) : outcome Editor.DataFrame :=
  Raise (no_such_file p).

Definition has_column (df : Editor.DataFrame) (column : value) : bool :=
  existsb
    (fun c => String.eqb (table_str (Editor.label c)) (table_str column))
    (Editor.columns df).

Definition on_column (df : Editor.DataFrame) (column : value)
    (f : Editor.Column -> Editor.Column) : Editor.DataFrame :=
  {| Editor.row_count := Editor.row_count df;
     Editor.columns :=
       map (fun c =>
              if String.eqb (table_str (Editor.label c)) (table_str column)
              then f c else c)
         (Editor.columns df) |}.

Definition sample_rename (df : Editor.DataFrame) (column new_name : value)
    : outcome unit * Editor.DataFrame :=
  (Ok tt,
   on_column df column
     (fun c => {| Editor.label := new_name;
                  Editor.null_cells := Editor.null_cells c |})).

Definition sample_fillna (df : Editor.DataFrame) (column v : value)
    : outcome unit * Editor.DataFrame :=
  if has_column df column
  then (Ok tt,
        on_column df column
          (fun c => {| Editor.label := Editor.label c;
                       Editor.null_cells := 0 |}))
  else (Raise (KeyError (table_str column)), df).

Definition sample_to_datetime (df : Editor.DataFrame) (column : value)
    : outcome unit * Editor.DataFrame :=
  if has_column df column then (Ok tt, df)
  else (Raise (KeyError (table_str column)), df).

Definition sample_reference (df : Editor.DataFrame) : value :=
  VDict [("rows", VInt (Z.of_nat (Editor.row_count df)));
         ("columns", VList (map Editor.label (Editor.columns df)))].

(** The server of [main], with its tools bound by keyword. *)
Definition pandas_tools : FileEditorServer :=
  {| analyze_excel := fun params =>
       match params with
       | VDict [(k, p)] =>
           if String.eqb k "file_path"
           then Editor.analyze_excel table_str strip_spaces ascii_lower
                  sample_read_csv sample_read_excel p
           else Raise (TypeError "got an unexpected keyword argument")
       | _ => Raise (TypeError "missing 1 required positional argument")
       end;
     edit_excel := fun params =>
       match params with
       | VDict [(k1, p); (k2, operations)] =>
           if String.eqb k1 "file_path" && String.eqb k2 "operations"
           then Editor.edit_excel sample_read_csv sample_read_excel
                  sample_reference sample_rename sample_fillna
                  sample_to_datetime p operations
           else Raise (TypeError "got an unexpected keyword argument")
       | _ => Raise (TypeError "missing required positional arguments")
       end;
     save_file := fun params =>
       Ok (VStr "downloads/ventas_corregido_20240101_120000.xlsx") |}.

Definition table_suggestions : list value :=
  [VDict [("type", VStr "rename_column"); ("column", VStr "Fecha Venta");
          ("new_name", VStr "Fecha_Venta")];
   VDict [("type", VStr "fill_nulls"); ("column", VStr "monto");
          ("count", VInt 2)];
   VDict [("type", VStr "standardize_dates");
          ("column", VStr "Fecha Venta")]].

(** * Properties *)

(** ** Records and the monad *)

Lemma set_pending_pending m w : pending (set_pending m w) = m.
Proof. reflexivity. Qed.

Lemma set_pending_twice m1 m2 w :
  set_pending m2 (set_pending m1 w) = set_pending m2 w.
Proof. reflexivity. Qed.

Lemma set_pending_same w : set_pending (pending w) w = w.
Proof. destruct w as [[m t] b i p n]. reflexivity. Qed.

Ltac run_monad :=
  unfold bind, ret, raise, eval, modify, try_except, invoke; simpl.

(** ** [handle_response], case by case *)

(** An id that is not in the store: the fixed error, and nothing changes. *)
Lemma handle_response_absent cid confirmed now w :
  pending w !! cid = None ->
  handle_response cid confirmed now w = (Ok not_found, w).
Proof.
  intros Habs. unfold handle_response. rewrite Habs. reflexivity.
Qed.

(** An entry older than the timeout: it is popped and nothing is called. *)
Lemma handle_response_timed_out cid confirmed now w conf :
  pending w !! cid = Some conf ->
  timed_out now conf (timeout_seconds (confirmation_handler w)) = true ->
  handle_response cid confirmed now w
  = (Ok expired, set_pending (delete cid (pending w)) w).
Proof.
  intros Hin Hold. unfold handle_response. rewrite Hin.
  run_monad. rewrite Hold. reflexivity.
Qed.

(** Whatever happens, the store afterwards is the store without the id. *)
Lemma handle_response_store cid confirmed now w :
  pending (snd (handle_response cid confirmed now w)) = delete cid (pending w).
Proof.
  unfold handle_response.
  destruct (pending w !! cid) as [conf|] eqn:Hin.
  - run_monad.
    destruct (timed_out now conf _); [reflexivity|].
    destruct confirmed, (on_confirm conf) as [f|], (on_cancel conf) as [g|];
      simpl; try reflexivity;
      match goal with
      | |- context [match ?h (data conf) with _ => _ end] =>
          destruct (h (data conf)) as [v|[[] msg]]; reflexivity
      end.
  - simpl. symmetry. apply delete_id. exact Hin.
Qed.


(** ** [cleanup_expired] *)

Lemma NoDup_keys_filter {A} (f : string * A -> bool) (l : list (string * A)) :
  NoDup (map fst l) -> NoDup (map fst (List.filter f l)).
Proof.
  induction l as [|[k x] l IH]; simpl; intros Hnd; [constructor|].
  apply NoDup_cons in Hnd as [Hk Hl].
  destruct (f (k, x)); simpl; [|auto].
  apply NoDup_cons. split; [|auto].
  intros Hin. apply Hk.
  apply list_elem_of_In in Hin. apply list_elem_of_In.
  apply in_map_iff in Hin as [[k' x'] [Heq Hin]]. simpl in Heq. subst k'.
  apply filter_In in Hin as [Hin _].
  apply in_map_iff. exists (k, x'). auto.
Qed.

Lemma expired_ids_spec now w cid :
  In cid (expired_ids now w) <->
  exists conf, pending w !! cid = Some conf /\
    timed_out now conf (timeout_seconds (confirmation_handler w)) = true.
Proof.
  unfold expired_ids. rewrite in_map_iff. split.
  - intros [[k conf] [Hk Hin]]. simpl in Hk. subst k.
    apply filter_In in Hin as [Hin Hold]. simpl in Hold.
    exists conf. split; [|exact Hold].
    apply elem_of_map_to_list. apply list_elem_of_In. exact Hin.
  - intros [conf [Hin Hold]]. exists (cid, conf). split; [reflexivity|].
    apply filter_In. split; [|exact Hold].
    apply list_elem_of_In. apply elem_of_map_to_list. exact Hin.
Qed.

Lemma expired_ids_NoDup now w : NoDup (expired_ids now w).
Proof.
  unfold expired_ids. apply NoDup_keys_filter.
  apply (NoDup_fst_map_to_list (pending w)).
Qed.

Lemma lookup_delete_all ks : forall (m : gmap string confirmation) k,
  delete_all ks m !! k = if decide (k ∈ ks) then None else m !! k.
Proof.
  induction ks as [|a ks IH]; intros m k.
  - destruct (decide (k ∈ [])) as [Hin|_]; [|reflexivity].
    apply elem_of_nil in Hin. contradiction.
  - unfold delete_all in *. simpl. rewrite IH.
    destruct (decide (k ∈ ks)) as [Hin|Hnin];
      destruct (decide (k ∈ a :: ks)) as [Hin'|Hnin']; try reflexivity.
    + exfalso. apply Hnin'. apply elem_of_cons. right. exact Hin.
    + apply elem_of_cons in Hin' as [->|Hin']; [|contradiction].
      apply lookup_delete_eq.
    + apply lookup_delete_ne. intros ->. apply Hnin'.
      apply elem_of_cons. left. reflexivity.
Qed.

(** The loop of deletions never meets a missing key. *)
Lemma for_each_del_pending ks : forall w,
  NoDup ks ->
  (forall k, In k ks -> is_Some (pending w !! k)) ->
  for_each ks del_pending w
  = (Ok tt, set_pending (delete_all ks (pending w)) w).
Proof.
  induction ks as [|a ks IH]; intros w Hnd Hall.
  - simpl. unfold ret, delete_all. simpl. rewrite set_pending_same. reflexivity.
  - apply NoDup_cons in Hnd as [Ha Hnd].
    destruct (Hall a (or_introl eq_refl)) as [conf Hconf].
    simpl. unfold bind at 1. unfold del_pending at 1. rewrite Hconf.
    unfold modify at 1.
    rewrite IH.
    + rewrite set_pending_twice, set_pending_pending. reflexivity.
    + exact Hnd.
    + intros k Hk. rewrite set_pending_pending.
      rewrite lookup_delete_ne.
      * apply Hall. right. exact Hk.
      * intros ->. apply Ha. apply list_elem_of_In. exact Hk.
Qed.

Lemma cleanup_expired_run now w :
  cleanup_expired now w
  = (Ok tt, set_pending (delete_all (expired_ids now w) (pending w)) w).
Proof.
  unfold cleanup_expired. apply for_each_del_pending.
  - apply expired_ids_NoDup.
  - intros k Hk. apply expired_ids_spec in Hk as [conf [Hin _]]. eauto.
Qed.

Lemma cleanup_expired_lookup now w cid :
  pending (snd (cleanup_expired now w)) !! cid =
  match pending w !! cid with
  | Some conf =>
      if timed_out now conf (timeout_seconds (confirmation_handler w))
      then None else Some conf
  | None => None
  end.
Proof.
  rewrite cleanup_expired_run. cbn [snd].
  rewrite set_pending_pending, lookup_delete_all.
  destruct (decide (cid ∈ expired_ids now w)) as [Hin|Hnin].
  - apply list_elem_of_In, expired_ids_spec in Hin as [conf [Hin Hold]].
    rewrite Hin, Hold. reflexivity.
  - destruct (pending w !! cid) as [conf|] eqn:Hin; [|reflexivity].
    destruct (timed_out now conf _) eqn:Hold; [|reflexivity].
    exfalso. apply Hnin. apply list_elem_of_In, expired_ids_spec. eauto.
Qed.

(** C7. Whatever the store and the clock reading, [cleanup_expired] returns
    normally; an entry is gone afterwards exactly when its age was over the
    timeout (300 seconds from [__init__]), every other entry is still there
    with the same contents, no id appears, and nothing else moves: neither
    resume action of any entry is called. *)
Theorem cleanup_expired_drops_exactly_the_expired now w :
  exists w',
    cleanup_expired now w = (Ok tt, w') /\
    (forall cid conf, pending w !! cid = Some conf ->
       (now - timestamp conf > timeout_seconds (confirmation_handler w) ->
        pending w' !! cid = None) /\
       (now - timestamp conf <= timeout_seconds (confirmation_handler w) ->
        pending w' !! cid = Some conf)) /\
    (forall cid, pending w !! cid = None -> pending w' !! cid = None) /\
    invoked w' = invoked w /\
    posted w' = posted w /\
    bot_server w' = bot_server w /\
    timeout_seconds (confirmation_handler w')
    = timeout_seconds (confirmation_handler w) /\
    timeout_seconds ConfirmationHandler_init = 300.
Proof.
  exists (snd (cleanup_expired now w)).
  split; [rewrite cleanup_expired_run; reflexivity|].
  split.
  - intros cid conf Hin. rewrite cleanup_expired_lookup, Hin.
    unfold timed_out. split; intros Hage.
    + destruct (Z.gtb_spec (now - timestamp conf)
                  (timeout_seconds (confirmation_handler w))); [reflexivity|lia].
    + destruct (Z.gtb_spec (now - timestamp conf)
                  (timeout_seconds (confirmation_handler w))); [lia|reflexivity].
  - split.
    + intros cid Habs. rewrite cleanup_expired_lookup, Habs. reflexivity.
    + rewrite cleanup_expired_run. repeat split; reflexivity.
Qed.

(** ** Responses in time *)

(** The full account of [handle_response] on an entry that is present and
    not over the timeout. *)
Lemma handle_response_in_time cid confirmed now w conf :
  pending w !! cid = Some conf ->
  timed_out now conf (timeout_seconds (confirmation_handler w)) = false ->
  exists r w',
    handle_response cid confirmed now w = (r, w') /\
    pending w' = delete cid (pending w) /\
    match (if confirmed then on_confirm conf else on_cancel conf) with
    | None =>
        r = Ok (VDict [("success", VBool true);
                       ("cancelled", VBool (negb confirmed))]) /\
        invoked w' = invoked w
    | Some f =>
        invoked w' = invoked w ++ [Called cid confirmed (data conf)] /\
        match f (data conf) with
        | Ok v =>
            r = Ok (VDict (("success", VBool true) :: ("result", v) ::
                           (if confirmed then []
                            else [("cancelled", VBool true)])))
        | Raise e =>
            r = if is_Exception e then Ok (error_result (exn_str e))
                else Raise e
        end
    end.
Proof.
  intros Hin Hfresh.
  exists (fst (handle_response cid confirmed now w)),
         (snd (handle_response cid confirmed now w)).
  split; [destruct (handle_response cid confirmed now w); reflexivity|].
  split; [apply handle_response_store|].
  unfold handle_response. rewrite Hin. run_monad. rewrite Hfresh.
  destruct confirmed, (on_confirm conf) as [f|], (on_cancel conf) as [g|];
    simpl; try (split; reflexivity);
    match goal with
    | |- context [match ?h (data conf) with _ => _ end] =>
        destruct (h (data conf)) as [v|[[] msg]]; simpl; split; reflexivity
    end.
Qed.

Lemma timed_out_true now conf timeout :
  timed_out now conf timeout = true <-> now > timestamp conf + timeout.
Proof.
  unfold timed_out.
  destruct (Z.gtb_spec (now - timestamp conf) timeout); split; intros; try lia;
    try reflexivity; discriminate.
Qed.

Lemma timed_out_false now conf timeout :
  timed_out now conf timeout = false <-> now <= timestamp conf + timeout.
Proof.
  unfold timed_out.
  destruct (Z.gtb_spec (now - timestamp conf) timeout); split; intros; try lia;
    try reflexivity; discriminate.
Qed.

(** C3 (amended). For an entry stored with timestamp [T] under a handler
    with timeout [W]: a [handle_response] on its id at a time strictly after
    [T + W] returns the error "Confirmación expirada" and calls neither
    resume action; at any time up to and including [T + W] it resolves: the
    action chosen by [confirmed], when set, is called once with the stored
    data, its value comes back under "success", and with no action set the
    plain success result comes back. *)
Theorem handle_response_timeout_boundary cid confirmed now w conf :
  pending w !! cid = Some conf ->
  let T := timestamp conf in
  let W := timeout_seconds (confirmation_handler w) in
  (now > T + W ->
   exists w',
     handle_response cid confirmed now w
     = (Ok (VDict [("error", VStr "Confirmación expirada")]), w') /\
     invoked w' = invoked w) /\
  (now <= T + W ->
   exists r w',
     handle_response cid confirmed now w = (r, w') /\
     match (if confirmed then on_confirm conf else on_cancel conf) with
     | None =>
         r = Ok (VDict [("success", VBool true);
                        ("cancelled", VBool (negb confirmed))]) /\
         invoked w' = invoked w
     | Some f =>
         invoked w' = invoked w ++ [Called cid confirmed (data conf)] /\
         forall v, f (data conf) = Ok v ->
           r = Ok (VDict (("success", VBool true) :: ("result", v) ::
                          (if confirmed then []
                           else [("cancelled", VBool true)])))
     end).
Proof.
  intros Hin T W. split; intros Hnow.
  - eexists. split.
    + apply handle_response_timed_out with (conf := conf); [exact Hin|].
      apply timed_out_true. exact Hnow.
    + reflexivity.
  - destruct (handle_response_in_time cid confirmed now w conf Hin)
      as (r & w' & Hrun & _ & Hcase).
    { apply timed_out_false. exact Hnow. }
    exists r, w'. split; [exact Hrun|].
    destruct (if confirmed then on_confirm conf else on_cancel conf) as [f|];
      [|exact Hcase].
    destruct Hcase as [Hcalls Hres]. split; [exact Hcalls|].
    intros v Hv. rewrite Hv in Hres. exact Hres.
Qed.

(** C4. When the resume action chosen by [confirmed] raises an exception
    (an instance of [Exception], as [except Exception] names it) on an entry
    that is present and in time, [handle_response] returns the dictionary
    with the exception's text under "error" instead of raising, the entry
    has left the store, and any further response on that id gets the
    not-found result. *)
Theorem handle_response_captures_callback_failure
    cid (confirmed : bool) now w conf f e :
  pending w !! cid = Some conf ->
  now - timestamp conf <= timeout_seconds (confirmation_handler w) ->
  (if confirmed then on_confirm conf else on_cancel conf) = Some f ->
  f (data conf) = Raise e ->
  is_Exception e = true ->
  exists w',
    handle_response cid confirmed now w
    = (Ok (VDict [("error", VStr (exn_str e))]), w') /\
    pending w' = delete cid (pending w) /\
    pending w' !! cid = None /\
    invoked w' = invoked w ++ [Called cid confirmed (data conf)] /\
    forall confirmed' now',
      handle_response cid confirmed' now' w'
      = (Ok (VDict [("error", VStr "Confirmación no encontrada o expirada")]),
         w').
Proof.
  intros Hin Hage Hsel Hf He.
  destruct (handle_response_in_time cid confirmed now w conf Hin)
    as (r & w' & Hrun & Hstore & Hcase).
  { apply timed_out_false. lia. }
  rewrite Hsel, Hf, He in Hcase. destruct Hcase as [Hcalls ->].
  exists w'. split; [exact Hrun|].
  assert (Hgone : pending w' !! cid = None).
  { rewrite Hstore. apply lookup_delete_eq. }
  repeat split; try assumption.
  intros confirmed' now'. apply handle_response_absent. exact Hgone.
Qed.

(** ** Histories *)


Lemma create_confirmation_run uuid4 now message d oc ocl w :
  create_confirmation uuid4 now message d oc ocl w
  = (Ok (substring 0 8 uuid4),
     set_pending
       (<[substring 0 8 uuid4 := Confirmation message d oc ocl now]> (pending w))
       w).
Proof. reflexivity. Qed.



(** An id that is absent stays absent unless it is drawn again. *)
Lemma exec_keeps_absent cid w o :
  pending w !! cid = None ->
  creates cid o = false ->
  pending (exec w o) !! cid = None.
Proof.
  intros Habs Hnc.
  destruct o as [uuid4 now message d oc ocl|cid' confirmed now|now];
    cbn [exec].
  - simpl in Hnc. apply String.eqb_neq in Hnc.
    rewrite create_confirmation_run. cbn [snd]. rewrite set_pending_pending.
    rewrite lookup_insert_ne; [exact Habs|exact Hnc].
  - rewrite handle_response_store. apply lookup_delete_None. right. exact Habs.
  - rewrite cleanup_expired_lookup, Habs. reflexivity.
Qed.

Lemma run_keeps_absent cid history : forall w,
  pending w !! cid = None ->
  forallb (fun o => negb (creates cid o)) history = true ->
  pending (run w history) !! cid = None.
Proof.
  induction history as [|o history IH]; intros w Habs Hnc; [exact Habs|].
  simpl in Hnc. apply andb_true_iff in Hnc as [Ho Hrest].
  unfold run in *. simpl. apply IH; [|exact Hrest].
  apply exec_keeps_absent; [exact Habs|].
  apply negb_true_iff. exact Ho.
Qed.

(** C10. When the entry is present but older than the timeout,
    [handle_response] returns the error "Confirmación expirada", yet the
    entry was popped before the age test: the store has changed although an
    error is returned, neither resume action is called, and from then on,
    through any further responses, sweeps and creations of other ids, the
    id stays out of the store and every retry gets the not-found error. *)
Theorem handle_response_expired_entry_is_consumed cid confirmed now w conf :
  pending w !! cid = Some conf ->
  now - timestamp conf > timeout_seconds (confirmation_handler w) ->
  exists w',
    handle_response cid confirmed now w
    = (Ok (VDict [("error", VStr "Confirmación expirada")]), w') /\
    pending w' = delete cid (pending w) /\
    pending w' <> pending w /\
    invoked w' = invoked w /\
    forall history,
      forallb (fun o => negb (creates cid o)) history = true ->
      pending (run w' history) !! cid = None /\
      forall confirmed' now',
        handle_response cid confirmed' now' (run w' history)
        = (Ok (VDict [("error",
                       VStr "Confirmación no encontrada o expirada")]),
           run w' history).
Proof.
  intros Hin Hage.
  exists (set_pending (delete cid (pending w)) w).
  split.
  { apply handle_response_timed_out with (conf := conf); [exact Hin|].
    apply timed_out_true. lia. }
  assert (Hgone : pending (set_pending (delete cid (pending w)) w) !! cid = None).
  { rewrite set_pending_pending. apply lookup_delete_eq. }
  split; [reflexivity|].
  split.
  { intros Heq. rewrite Heq, Hin in Hgone. discriminate. }
  split; [reflexivity|].
  intros history Hnc.
  assert (Hstill : pending (run (set_pending (delete cid (pending w)) w)
                              history) !! cid = None).
  { apply run_keeps_absent; [exact Hgone|exact Hnc]. }
  split; [exact Hstill|].
  intros confirmed' now'. apply handle_response_absent. exact Hstill.
Qed.

(** C1. After a [handle_response] on an id, and as long as no later
    [create_confirmation] draws that same id again, the entry is gone: that
    first call has called at most one resume action, and every later
    [handle_response] on the id, whatever operations on the store came in
    between, returns the error "Confirmación no encontrada o expirada" and
    leaves the whole world as it was, so that no resume action runs a second
    time. *)
Theorem handle_response_at_most_once
    cid confirmed now w history confirmed' now' :
  forallb (fun o => negb (creates cid o)) history = true ->
  let w1 := snd (handle_response cid confirmed now w) in
  let w2 := run w1 history in
  (invoked w1 = invoked w \/
   exists d, invoked w1 = invoked w ++ [Called cid confirmed d]) /\
  pending w1 !! cid = None /\
  handle_response cid confirmed' now' w2
  = (Ok (VDict [("error", VStr "Confirmación no encontrada o expirada")]), w2).
Proof.
  intros Hnc w1 w2.
  assert (Hgone : pending w1 !! cid = None).
  { unfold w1. rewrite handle_response_store. apply lookup_delete_eq. }
  split; [|split; [exact Hgone|]].
  - unfold w1.
    destruct (pending w !! cid) as [conf|] eqn:Hin.
    + destruct (timed_out now conf (timeout_seconds (confirmation_handler w)))
        eqn:Hold.
      * rewrite (handle_response_timed_out _ _ _ _ _ Hin Hold). left. reflexivity.
      * destruct (handle_response_in_time cid confirmed now w conf Hin Hold)
          as (r & w' & Hrun & _ & Hcase).
        rewrite Hrun. simpl.
        destruct (if confirmed then on_confirm conf else on_cancel conf).
        -- right. exists (data conf). apply Hcase.
        -- left. apply Hcase.
    + rewrite handle_response_absent by exact Hin. left. reflexivity.
  - apply handle_response_absent.
    apply run_keeps_absent; [exact Hgone|exact Hnc].
Qed.


(** C6 (amended). [create_confirmation] has no failure: when the id it draws
    is already in the store it returns the id as usual, the entry stored
    under it is now the new one (the old one is replaced without notice),
    and every other id keeps its entry. *)
Theorem create_confirmation_replaces_existing
    uuid4 now message d oc ocl w old :
  pending w !! substring 0 8 uuid4 = Some old ->
  exists w',
    create_confirmation uuid4 now message d oc ocl w
    = (Ok (substring 0 8 uuid4), w') /\
    pending w' !! substring 0 8 uuid4
    = Some (Confirmation message d oc ocl now) /\
    (forall cid, cid <> substring 0 8 uuid4 ->
       pending w' !! cid = pending w !! cid) /\
    invoked w' = invoked w.
Proof.
  intros _. eexists. split; [apply create_confirmation_run|].
  rewrite set_pending_pending. split; [apply lookup_insert_eq|].
  split; [|reflexivity].
  intros cid Hne. apply lookup_insert_ne. congruence.
Qed.

(** ** The poller: start and stop *)

(** C9. [start_polling] on a poller that is already running returns at once
    and changes nothing (same flag, same cursor, no new thread), and
    [stop_polling] never raises and is idempotent: after one call or any
    larger number of calls, from any state, the flag is [False] and the
    world is the one the first call produced. *)
Theorem start_is_noop_when_running_and_stop_is_idempotent :
  (forall w, running (bot_server w) = true -> start_polling w = (Ok tt, w)) /\
  (forall w, fst (stop_polling w) = Ok tt) /\
  (forall w n,
     let w' := Nat.iter (S n) (fun x => snd (stop_polling x)) w in
     w' = snd (stop_polling w) /\
     running (bot_server w') = false /\
     last_update_id (bot_server w') = last_update_id (bot_server w) /\
     threads w' = threads w).
Proof.
  split; [|split].
  - intros w Hrun. unfold start_polling. rewrite Hrun. reflexivity.
  - intros w. reflexivity.
  - intros w n. cbv zeta.
    assert (Hiter : Nat.iter (S n) (fun x => snd (stop_polling x)) w
                    = snd (stop_polling w)).
    { induction n as [|n IH]; [reflexivity|].
      change (Nat.iter (S (S n)) (fun x => snd (stop_polling x)) w)
        with (snd (stop_polling
                     (Nat.iter (S n) (fun x => snd (stop_polling x)) w))).
      rewrite IH. reflexivity. }
    rewrite Hiter. repeat split; reflexivity.
Qed.

(** ** Strings: dropping a prefix *)

Lemma remove_from_absent old : forall s,
  str_contains old s = false -> remove_from O old s = s.
Proof.
  induction s as [|c rest IH]; intros Hno; [reflexivity|].
  change (str_contains old (String c rest))
    with (String.prefix old (String c rest) || str_contains old rest) in Hno.
  apply orb_false_iff in Hno as [Hpre Hrest].
  cbn [remove_from]. rewrite Hpre, (IH Hrest). reflexivity.
Qed.

Lemma prefix_of_append p : forall s, String.prefix p (p +:+ s) = true.
Proof.
  induction p as [|c p IH]; intros s.
  - destruct s; reflexivity.
  - change (String c p +:+ s) with (String c (p +:+ s)).
    cbn [String.prefix].
    destruct (ascii_dec c c) as [_|Hne]; [apply IH|congruence].
Qed.

Lemma remove_from_skip old p : forall s,
  remove_from (String.length p) old (p +:+ s) = remove_from O old s.
Proof.
  induction p as [|c p IH]; intros s; [reflexivity|].
  change (String c p +:+ s) with (String c (p +:+ s)).
  cbn [String.length remove_from]. apply IH.
Qed.

Lemma remove_from_own_prefix c p s :
  remove_from O (String c p) (String c p +:+ s) = remove_from O (String c p) s.
Proof.
  change (String c p +:+ s) with (String c (p +:+ s)).
  cbn [remove_from].
  change (String c (p +:+ s)) with (String c p +:+ s).
  rewrite prefix_of_append.
  cbn [String.length Nat.pred]. apply remove_from_skip.
Qed.

Lemma str_remove_confirm cid :
  str_contains "confirm_" cid = false ->
  str_remove ("confirm_" +:+ cid) "confirm_" = cid.
Proof.
  intros Hno. unfold str_remove.
  rewrite remove_from_own_prefix. apply remove_from_absent. exact Hno.
Qed.

Lemma str_remove_cancel cid :
  str_contains "cancel_" cid = false ->
  str_remove ("cancel_" +:+ cid) "cancel_" = cid.
Proof.
  intros Hno. unfold str_remove.
  rewrite remove_from_own_prefix. apply remove_from_absent. exact Hno.
Qed.

Example str_remove_prefix :
  str_remove "confirm_3f2a9c1e" "confirm_" = "3f2a9c1e".
Proof. reflexivity. Qed.

Example str_remove_everywhere :
  str_remove "confirm_abconfirm_cd" "confirm_" = "abcd".
Proof. reflexivity. Qed.

Example str_remove_without_overlap : str_remove "aaa" "aa" = "a".
Proof. reflexivity. Qed.

(** A string that starts with, or contains, a pattern contains each of its
    characters. *)
Lemma prefix_chars p : forall s c,
  String.prefix p s = true ->
  In c (list_ascii_of_string p) -> In c (list_ascii_of_string s).
Proof.
  induction p as [|a p IH]; intros s c Hpre Hin; [destruct Hin|].
  destruct s as [|b s]; [discriminate Hpre|].
  cbn [String.prefix] in Hpre.
  destruct (ascii_dec a b) as [->|]; [|discriminate Hpre].
  cbn [list_ascii_of_string] in Hin |- *.
  destruct Hin as [->|Hin]; [left; reflexivity|].
  right. exact (IH s c Hpre Hin).
Qed.

Lemma str_contains_chars p : forall s c,
  str_contains p s = true ->
  In c (list_ascii_of_string p) -> In c (list_ascii_of_string s).
Proof.
  induction s as [|b s IH]; intros c Hc Hin.
  - cbn [str_contains] in Hc. rewrite orb_false_r in Hc.
    exact (prefix_chars p EmptyString c Hc Hin).
  - change (str_contains p (String b s))
      with (String.prefix p (String b s) || str_contains p s) in Hc.
    apply orb_true_iff in Hc as [Hpre|Hrest].
    + exact (prefix_chars p _ c Hpre Hin).
    + cbn [list_ascii_of_string]. right. exact (IH c Hrest Hin).
Qed.

(** Hexadecimal ids contain neither prefix: they have no underscore. *)
Lemma hex_string_has_no_prefix s :
  hex_string s = true ->
  str_contains "confirm_" s = false /\ str_contains "cancel_" s = false.
Proof.
  intros Hhex.
  assert (Hno : ~ In "_"%char (list_ascii_of_string s)).
  { intros Hin. unfold hex_string in Hhex. rewrite forallb_forall in Hhex.
    specialize (Hhex _ Hin). discriminate Hhex. }
  split; apply not_true_is_false; intros Hc; apply Hno;
    apply (str_contains_chars _ _ _ Hc); cbn;
    repeat (first [left; reflexivity|right]).
Qed.

Lemma cancel_is_not_confirm cid :
  String.prefix "confirm_" ("cancel_" +:+ cid) = false.
Proof. reflexivity. Qed.

(** ** Exceptions of the helpers *)

Lemma catchable_Ok {A} (a : A) : catchable (Ok a).
Proof. intros e He. discriminate. Qed.

Ltac by_cases_on v :=
  intros e He; destruct v; simpl in He;
  repeat match type of He with
         | context [match ?x with _ => _ end] => destruct x
         end;
  try discriminate; injection He as <-; reflexivity.

Lemma catchable_contains k v : catchable (contains k v).
Proof. by_cases_on v. Qed.

Lemma catchable_getitem v k : catchable (getitem v k).
Proof. by_cases_on v. Qed.

Lemma catchable_get v k d : catchable (get v k d).
Proof. by_cases_on v. Qed.

Lemma catchable_startswith v p : catchable (startswith v p).
Proof. by_cases_on v. Qed.

Lemma catchable_replace v old : catchable (replace_with_empty v old).
Proof. by_cases_on v. Qed.

Lemma catchable_iter v : catchable (iter v).
Proof. by_cases_on v. Qed.

Lemma catchable_add_one v : catchable (add_one v).
Proof. by_cases_on v. Qed.

(** ** Statements that only talk to the network *)

Lemma notifier_ret {A} (a : A) : notifier (ret a).
Proof.
  intros w r w' H. injection H as <- <-.
  repeat split. apply catchable_Ok.
Qed.

Lemma notifier_eval {A} (o : outcome A) : catchable o -> notifier (eval o).
Proof.
  intros Ho w r w' H. injection H as <- <-. repeat split. exact Ho.
Qed.

Lemma notifier_bind {A B} (m : M A) (k : A -> M B) :
  notifier m -> (forall a, notifier (k a)) -> notifier (bind m k).
Proof.
  intros Hm Hk w r w' H. unfold bind in H.
  destruct (m w) as [[a|e] w1] eqn:Hmw.
  - destruct (Hm _ _ _ Hmw) as (Hh & Hb & Hi & _).
    destruct (Hk a _ _ _ H) as (Hh' & Hb' & Hi' & Hr).
    repeat split; try congruence; exact Hr.
  - injection H as <- <-.
    destruct (Hm _ _ _ Hmw) as (Hh & Hb & Hi & Hr).
    repeat split; try assumption.
    intros e' He'. injection He' as <-. apply Hr. reflexivity.
Qed.

Lemma notifier_try {A} (m : M A) (h : exn -> M A) :
  notifier m -> (forall e, notifier (h e)) -> notifier (try_except m h).
Proof.
  intros Hm Hh w r w' H. unfold try_except in H.
  destruct (m w) as [[a|e] w1] eqn:Hmw.
  - injection H as <- <-. destruct (Hm _ _ _ Hmw) as (? & ? & ? & _).
    repeat split; try assumption. apply catchable_Ok.
  - destruct (Hm _ _ _ Hmw) as (Hc & Hb & Hi & _).
    destruct (is_Exception e).
    + destruct (Hh e _ _ _ H) as (Hc' & Hb' & Hi' & Hr).
      repeat split; try congruence; exact Hr.
    + injection H as <- <-.
      destruct (Hm _ _ _ Hmw) as (_ & _ & _ & Hr).
      specialize (Hr e eq_refl).
      repeat split; try assumption.
      intros e' He'. injection He' as <-. exact Hr.
Qed.

(** A guarded notifier always returns. *)
Lemma guarded_notifier_returns (m : M unit) w :
  notifier m ->
  exists w',
    try_except m (fun e => ret tt) w = (Ok tt, w') /\
    confirmation_handler w' = confirmation_handler w /\
    bot_server w' = bot_server w /\
    invoked w' = invoked w.
Proof.
  intros Hm. unfold try_except.
  destruct (m w) as [[[]|e] w1] eqn:Hmw;
    destruct (Hm _ _ _ Hmw) as (Hc & Hb & Hi & Hr).
  - exists w1. repeat split; assumption.
  - rewrite (Hr e eq_refl). exists w1. repeat split; assumption.
Qed.

Create HintDb notify.
#[local] Hint Resolve notifier_ret notifier_eval catchable_contains
  catchable_getitem catchable_get : notify.

Section Poller.

Variable config : Config.
Variable py_str : value -> string.
Variable httpx_post : list request -> request -> reply.

Lemma notifier_http_post r : notifier (http_post httpx_post r).
Proof.
  intros w res w' H. unfold http_post in H. injection H as <- <-.
  repeat split. intros e He.
  destruct (httpx_post (posted w) r); [discriminate|].
  injection He as <-. reflexivity.
Qed.

Lemma notifier_send_message text :
  notifier (send_message config httpx_post text).
Proof.
  unfold send_message.
  destruct (credentials_missing config); [apply notifier_ret|].
  apply notifier_try; [|intros e; apply notifier_ret].
  apply notifier_bind; [apply notifier_http_post|].
  intros status. destruct (status =? 200); [apply notifier_ret|].
  destruct (status =? 400); [|apply notifier_ret].
  apply notifier_bind; [apply notifier_http_post|].
  intros retry. apply notifier_ret.
Qed.

Lemma notifier_send_confirmation_message text cid :
  notifier (send_confirmation_message config httpx_post text cid).
Proof.
  unfold send_confirmation_message.
  destruct (credentials_missing config); [apply notifier_ret|].
  apply notifier_try; [|intros e; apply notifier_ret].
  apply notifier_bind; [apply notifier_http_post|].
  intros status. apply notifier_ret.
Qed.

Lemma notifier_result_message result :
  notifier (result_message py_str result).
Proof.
  unfold result_message.
  repeat first
    [ apply notifier_ret
    | apply notifier_bind; [solve [auto with notify]|intros ?]
    | match goal with |- notifier (if ?b then _ else _) => destruct b end ].
Qed.

Lemma _handle_confirmation_unfold cid confirmed callback now :
  _handle_confirmation config py_str httpx_post cid confirmed callback now
  = bind (handle_response cid confirmed now)
      (report config py_str httpx_post confirmed callback).
Proof. reflexivity. Qed.

Lemma report_returns confirmed callback result w :
  exists w',
    report config py_str httpx_post confirmed callback result w = (Ok tt, w') /\
    confirmation_handler w' = confirmation_handler w /\
    bot_server w' = bot_server w /\
    invoked w' = invoked w.
Proof.
  unfold report. apply guarded_notifier_returns.
  apply notifier_bind; [auto with notify|intros query_id].
  apply notifier_bind; [apply notifier_http_post|intros answer].
  apply notifier_bind; [apply notifier_result_message|intros message].
  apply notifier_send_message.
Qed.

(** What [_handle_confirmation] does to the store and to the resume actions
    is what its call of [handle_response] does. *)
Lemma _handle_confirmation_effect cid confirmed callback now w :
  let w1 := snd (handle_response cid confirmed now w) in
  let w2 := snd (_handle_confirmation config py_str httpx_post
                   cid confirmed callback now w) in
  confirmation_handler w2 = confirmation_handler w1 /\
  bot_server w2 = bot_server w1 /\
  invoked w2 = invoked w1.
Proof.
  rewrite _handle_confirmation_unfold. unfold bind.
  destruct (handle_response cid confirmed now w) as [[result|e] w1]; simpl.
  - destruct (report_returns confirmed callback result w1)
      as (w2 & -> & Hh & Hb & Hi).
    simpl. auto.
  - auto.
Qed.

End Poller.

(** ** Dispatch *)

Lemma handle_response_bot cid confirmed now w :
  bot_server (snd (handle_response cid confirmed now w)) = bot_server w.
Proof.
  unfold handle_response.
  destruct (pending w !! cid) as [conf|] eqn:Hin; [|reflexivity].
  run_monad.
  destruct (timed_out now conf _); [reflexivity|].
  destruct confirmed, (on_confirm conf) as [f|], (on_cancel conf) as [g|];
    simpl; try reflexivity;
    match goal with
    | |- context [match ?h (data conf) with _ => _ end] =>
        destruct (h (data conf)) as [v|[[] msg]]; reflexivity
    end.
Qed.

Lemma polite_delete cid w w' :
  polite w -> pending w' = delete cid (pending w) -> polite w'.
Proof.
  intros Hp Hstore cid' conf f e Hin Hsel Hf.
  rewrite Hstore in Hin. apply lookup_delete_Some in Hin as [_ Hin].
  exact (Hp cid' conf f e Hin Hsel Hf).
Qed.

(** With a polite store [handle_response] returns a result. *)
Lemma handle_response_returns cid confirmed now w :
  polite w ->
  exists result w',
    handle_response cid confirmed now w = (Ok result, w') /\
    polite w' /\ bot_server w' = bot_server w.
Proof.
  intros Hp.
  assert (Hp' : polite (snd (handle_response cid confirmed now w))).
  { apply (polite_delete cid w); [exact Hp|apply handle_response_store]. }
  pose proof (handle_response_bot cid confirmed now w) as Hb.
  destruct (pending w !! cid) as [conf|] eqn:Hin.
  - destruct (timed_out now conf (timeout_seconds (confirmation_handler w)))
      eqn:Hold.
    + rewrite (handle_response_timed_out _ _ _ _ _ Hin Hold) in *.
      eexists _, _. split; [reflexivity|]. split; assumption.
    + destruct (handle_response_in_time cid confirmed now w conf Hin Hold)
        as (r & w' & Hrun & _ & Hcase).
      rewrite Hrun in *. simpl in Hp', Hb.
      destruct (if confirmed then on_confirm conf else on_cancel conf)
        as [f|] eqn:Hsel.
      * destruct Hcase as [_ Hr].
        destruct (f (data conf)) as [v|e] eqn:Hf.
        -- subst r. eexists _, _. split; [reflexivity|]. split; assumption.
        -- assert (He : is_Exception e = true).
           { apply (Hp cid conf f e Hin); [|exact Hf].
             destruct confirmed; [left|right]; exact Hsel. }
           rewrite He in Hr. subst r.
           eexists _, _. split; [reflexivity|]. split; assumption.
      * destruct Hcase as [-> _].
        eexists _, _. split; [reflexivity|]. split; assumption.
  - rewrite (handle_response_absent _ _ _ _ Hin) in *.
    eexists _, _. split; [reflexivity|]. split; assumption.
Qed.

Section Dispatch.

Variable config : Config.
Variable py_str : value -> string.
Variable httpx_post : list request -> request -> reply.

Lemma _handle_confirmation_returns cid confirmed callback now w :
  polite w ->
  exists w',
    _handle_confirmation config py_str httpx_post cid confirmed callback now w
    = (Ok tt, w') /\
    polite w' /\ bot_server w' = bot_server w.
Proof.
  intros Hp. rewrite _handle_confirmation_unfold. unfold bind.
  destruct (handle_response_returns cid confirmed now w Hp)
    as (result & w1 & -> & Hp1 & Hb1).
  destruct (report_returns config py_str httpx_post confirmed callback result w1)
    as (w2 & -> & Hh & Hb & Hi).
  exists w2. split; [reflexivity|]. split; [|congruence].
  intros cid' conf f e Hin. apply (Hp1 cid' conf f e).
  unfold pending in *. rewrite <- Hh. exact Hin.
Qed.

Lemma _handle_update_returns update now w :
  well_formed update = true ->
  polite w ->
  exists w',
    _handle_update config py_str httpx_post update now w = (Ok tt, w') /\
    polite w' /\ bot_server w' = bot_server w.
Proof.
  intros Hwf Hp.
  destruct update as [| | | |?|d]; try discriminate Hwf.
  simpl in Hwf. unfold _handle_update. run_monad.
  destruct (dict_get d "update_id"); [|discriminate].
  destruct (dict_get d "callback_query") as [callback|];
    [|exists w; auto].
  destruct callback as [| | | |?|c]; try discriminate Hwf.
  simpl.
  assert (Hdata : exists s,
    match dict_get c "data" with Some x => x | None => VStr "" end = VStr s).
  { destruct (dict_get c "data") as [[| | |s|?|?]|]; try discriminate Hwf;
      eauto. }
  destruct Hdata as [s ->]. simpl.
  destruct (String.prefix "confirm_" s).
  - apply _handle_confirmation_returns. exact Hp.
  - destruct (String.prefix "cancel_" s).
    + apply _handle_confirmation_returns. exact Hp.
    + exists w. auto.
Qed.

End Dispatch.

#[local] Arguments String.prefix : simpl never.
#[local] Arguments str_remove : simpl never.

Section Routing.

Variable config : Config.
Variable py_str : value -> string.
Variable httpx_post : list request -> request -> reply.

Abbreviation handle_update := (_handle_update config py_str httpx_post).
Abbreviation handle_confirmation :=
  (_handle_confirmation config py_str httpx_post).

Lemma route_confirm d c cid now w :
  dict_get d "callback_query" = Some (VDict c) ->
  dict_get c "data" = Some (VStr ("confirm_" +:+ cid)) ->
  str_contains "confirm_" cid = false ->
  handle_update (VDict d) now w = handle_confirmation cid true (VDict c) now w.
Proof.
  intros Hcb Hdata Hno. unfold _handle_update. run_monad.
  rewrite Hcb. simpl. rewrite Hdata. simpl.
  rewrite prefix_of_append, str_remove_confirm by exact Hno. reflexivity.
Qed.

Lemma route_cancel d c cid now w :
  dict_get d "callback_query" = Some (VDict c) ->
  dict_get c "data" = Some (VStr ("cancel_" +:+ cid)) ->
  str_contains "cancel_" cid = false ->
  handle_update (VDict d) now w = handle_confirmation cid false (VDict c) now w.
Proof.
  intros Hcb Hdata Hno. unfold _handle_update. run_monad.
  rewrite Hcb. simpl. rewrite Hdata. simpl.
  rewrite ?cancel_is_not_confirm.
  rewrite prefix_of_append, str_remove_cancel by exact Hno.
  reflexivity.
Qed.

(** C2 (amended). The prefixes of the code are "confirm_" and "cancel_".
    For an id that does not itself contain the prefix (and no id made of
    eight hexadecimal digits, as [create_confirmation] draws them, does),
    an update whose
    callback data is "confirm_" followed by the id is handed to
    [handle_response] with that id and [True], and one whose data is
    "cancel_" followed by the id with that id and [False]; what happens to
    the store and to the resume actions is what that call does. An update
    without callback query, or whose callback data starts with neither
    prefix, leaves the world untouched. With credentials configured,
    [send_confirmation_message] posts one message whose two buttons carry
    exactly "confirm_" + id and "cancel_" + id. *)
Theorem dispatch_matches_confirm_and_cancel_buttons :
  (forall d c cid now w,
     dict_get d "callback_query" = Some (VDict c) ->
     dict_get c "data" = Some (VStr ("confirm_" +:+ cid)) ->
     str_contains "confirm_" cid = false ->
     handle_update (VDict d) now w
     = handle_confirmation cid true (VDict c) now w /\
     confirmation_handler (snd (handle_update (VDict d) now w))
     = confirmation_handler (snd (handle_response cid true now w)) /\
     invoked (snd (handle_update (VDict d) now w))
     = invoked (snd (handle_response cid true now w))) /\
  (forall d c cid now w,
     dict_get d "callback_query" = Some (VDict c) ->
     dict_get c "data" = Some (VStr ("cancel_" +:+ cid)) ->
     str_contains "cancel_" cid = false ->
     handle_update (VDict d) now w
     = handle_confirmation cid false (VDict c) now w /\
     confirmation_handler (snd (handle_update (VDict d) now w))
     = confirmation_handler (snd (handle_response cid false now w)) /\
     invoked (snd (handle_update (VDict d) now w))
     = invoked (snd (handle_response cid false now w))) /\
  (forall d now w,
     dict_get d "callback_query" = None ->
     handle_update (VDict d) now w = (Ok tt, w)) /\
  (forall d c s now w,
     dict_get d "callback_query" = Some (VDict c) ->
     match dict_get c "data" with Some x => x | None => VStr "" end = VStr s ->
     String.prefix "confirm_" s = false ->
     String.prefix "cancel_" s = false ->
     handle_update (VDict d) now w = (Ok tt, w)) /\
  (forall uuid4,
     hex_string (substring 0 8 uuid4) = true ->
     str_contains "confirm_" (substring 0 8 uuid4) = false /\
     str_contains "cancel_" (substring 0 8 uuid4) = false) /\
  (forall text cid w,
     credentials_missing config = false ->
     posted (snd (send_confirmation_message config httpx_post text cid w))
     = posted w ++
       [Post (base_url config +:+ "/sendMessage")
          (VDict [("chat_id", chat_id config); ("text", VStr text);
                  ("reply_markup",
                   VDict [("inline_keyboard",
                     VList [VList [
                       VDict [("text", VStr "✅ Sí, corregir");
                              ("callback_data", VStr ("confirm_" +:+ cid))];
                       VDict [("text", VStr "❌ No, dejar así");
                              ("callback_data", VStr ("cancel_" +:+ cid))]]])])])]).
Proof.
  split; [|split; [|split; [|split; [|split]]]].
  - intros d c cid now w Hcb Hdata Hno.
    rewrite (route_confirm d c cid now w Hcb Hdata Hno).
    split; [reflexivity|].
    destruct (_handle_confirmation_effect config py_str httpx_post
                cid true (VDict c) now w) as (Hh & _ & Hi).
    split; assumption.
  - intros d c cid now w Hcb Hdata Hno.
    rewrite (route_cancel d c cid now w Hcb Hdata Hno).
    split; [reflexivity|].
    destruct (_handle_confirmation_effect config py_str httpx_post
                cid false (VDict c) now w) as (Hh & _ & Hi).
    split; assumption.
  - intros d now w Hcb. unfold _handle_update. run_monad.
    rewrite Hcb. reflexivity.
  - intros d c s now w Hcb Hdata Hconfirm Hcancel.
    unfold _handle_update. run_monad.
    rewrite Hcb. simpl. rewrite Hdata. simpl.
    rewrite Hconfirm, Hcancel. reflexivity.
  - intros uuid4 Hhex. apply hex_string_has_no_prefix. exact Hhex.
  - intros text cid w Hcred. unfold send_confirmation_message.
    rewrite Hcred. run_monad.
    destruct (httpx_post _ _); reflexivity.
Qed.

(** ** The loop over a batch *)

Abbreviation updates_loop := (handle_updates config py_str httpx_post).

Lemma handle_updates_app clock xs : forall i ys w w1,
  updates_loop clock i xs w = (Ok tt, w1) ->
  updates_loop clock i (xs ++ ys) w
  = updates_loop clock (i + length xs)%nat ys w1.
Proof.
  induction xs as [|x xs IH]; intros i ys w w1 Hrun.
  - injection Hrun as <-. simpl. rewrite Nat.add_0_r. reflexivity.
  - simpl in Hrun |- *. unfold bind at 1. unfold bind at 1 in Hrun.
    destruct (handle_update x (clock i) w) as [[[]|e] wa]; [|discriminate].
    unfold bind at 1. unfold bind at 1 in Hrun. unfold eval in *.
    destruct (getitem x "update_id") as [update_id|e]; [|discriminate].
    unfold bind at 1. unfold bind at 1 in Hrun. unfold modify in *.
    rewrite (IH (S i) ys _ w1 Hrun).
    rewrite Nat.add_succ_r. reflexivity.
Qed.

Lemma well_formed_update_id update :
  well_formed update = true ->
  exists update_id, getitem update "update_id" = Ok update_id.
Proof.
  intros Hwf. destruct update as [| | | |?|d]; try discriminate Hwf.
  simpl in *. destruct (dict_get d "update_id") as [x|]; [eauto|discriminate].
Qed.

Lemma handle_updates_step clock i update w w2 update_id rest :
  handle_update update (clock i) w = (Ok tt, w2) ->
  getitem update "update_id" = Ok update_id ->
  updates_loop clock i (update :: rest) w
  = updates_loop clock (S i) rest (set_last_update_id update_id w2).
Proof.
  intros Hrun Hid. simpl. unfold bind at 1. rewrite Hrun.
  unfold bind at 1. unfold eval. rewrite Hid. reflexivity.
Qed.

Lemma handle_updates_returns clock updates : forall i w,
  forallb well_formed updates = true ->
  polite w ->
  exists w',
    updates_loop clock i updates w = (Ok tt, w') /\
    polite w' /\
    last_update_id (bot_server w')
    = cursor_after updates (last_update_id (bot_server w)) /\
    running (bot_server w') = running (bot_server w).
Proof.
  induction updates as [|update rest IH]; intros i w Hwf Hp.
  - exists w. simpl. auto.
  - simpl in Hwf. apply andb_true_iff in Hwf as [Hu Hrest].
    destruct (_handle_update_returns config py_str httpx_post
                update (clock i) w Hu Hp) as (w2 & Hrun & Hp2 & Hb2).
    destruct (well_formed_update_id update Hu) as [update_id Hid].
    rewrite (handle_updates_step clock i update w w2 update_id rest Hrun Hid).
    destruct (IH (S i) (set_last_update_id update_id w2) Hrest)
      as (w' & Hloop & Hp' & Hcursor & Hflag).
    { exact Hp2. }
    exists w'. split; [exact Hloop|]. split; [exact Hp'|].
    split.
    + rewrite Hcursor. unfold cursor_after. simpl. rewrite Hid. reflexivity.
    + rewrite Hflag. simpl. rewrite Hb2. reflexivity.
Qed.

End Routing.

Lemma politeb_polite w : politeb w = true -> polite w.
Proof.
  intros Hb cid conf f e Hin Hsel Hf.
  unfold politeb in Hb. rewrite forallb_forall in Hb.
  specialize (Hb (cid, conf)). simpl in Hb.
  assert (Hmem : In (cid, conf) (map_to_list (pending w))).
  { apply list_elem_of_In. apply elem_of_map_to_list. exact Hin. }
  apply Hb in Hmem. apply andb_true_iff in Hmem as [Hc Hx].
  destruct Hsel as [Hsel|Hsel]; rewrite Hsel in *; simpl in *.
  - rewrite Hf in Hc. exact Hc.
  - rewrite Hf in Hx. exact Hx.
Qed.

Section Polling.

Variable config : Config.
Variable py_str : value -> string.
Variable httpx_post : list request -> request -> reply.

Abbreviation poll_once := (_poll_once config py_str httpx_post).
Abbreviation batch_loop := (handle_updates config py_str httpx_post).
Abbreviation dispatch := (_handle_update config py_str httpx_post).

(** C8 (amended). When a poll answers with a batch of well-formed updates
    and the stored resume actions raise nothing but instances of
    [Exception], [_poll_once] returns with the cursor on the ["update_id"]
    of the last update, and the batch is gone through in the order
    received: each update is dispatched in the world its predecessors left,
    and right after it the cursor is that update's ["update_id"] -- whatever
    [handle_response] answered and whether or not the posts to Telegram went
    through. *)
Theorem poll_once_advances_cursor_in_order httpx_get clock n updates w :
  last_update_id (bot_server w) = VInt n ->
  httpx_get (n + 1)
  = Ok (Response 200
          (Ok (VDict [("ok", VBool true); ("result", VList updates)]))) ->
  forallb well_formed updates = true ->
  politeb w = true ->
  exists w',
    poll_once httpx_get clock w = (Ok tt, w') /\
    batch_loop clock O updates w = (Ok tt, w') /\
    last_update_id (bot_server w') = cursor_after updates (VInt n) /\
    forall pre update post,
      updates = pre ++ update :: post ->
      exists w1 w2 update_id,
        batch_loop clock O pre w = (Ok tt, w1) /\
        dispatch update (clock (length pre)) w1 = (Ok tt, w2) /\
        getitem update "update_id" = Ok update_id /\
        batch_loop clock O (pre ++ [update]) w
        = (Ok tt, set_last_update_id update_id w2) /\
        batch_loop clock O updates w
        = batch_loop clock (S (length pre)) post
            (set_last_update_id update_id w2).
Proof.
  intros Hcursor Hget Hwf Hp. apply politeb_polite in Hp.
  destruct (handle_updates_returns config py_str httpx_post clock updates
              O w Hwf Hp) as (w' & Hloop & _ & Hlast & _).
  exists w'. split; [|split; [exact Hloop|split]].
  - unfold _poll_once, try_except. unfold bind at 1. unfold eval at 1.
    rewrite Hcursor. cbn [add_one]. unfold bind at 1. unfold eval at 1.
    rewrite Hget. run_monad. rewrite Hloop. reflexivity.
  - rewrite Hlast, Hcursor. reflexivity.
  - intros pre update post ->.
    rewrite forallb_app in Hwf. apply andb_true_iff in Hwf as [Hpre Hrest].
    simpl in Hrest. apply andb_true_iff in Hrest as [Hu Hpost].
    destruct (handle_updates_returns config py_str httpx_post clock pre
                O w Hpre Hp) as (w1 & Hrun1 & Hp1 & _ & _).
    destruct (_handle_update_returns config py_str httpx_post
                update (clock (length pre)) w1 Hu Hp1) as (w2 & Hrun2 & _ & _).
    destruct (well_formed_update_id update Hu) as [update_id Hid].
    exists w1, w2, update_id.
    split; [exact Hrun1|]. split; [exact Hrun2|]. split; [exact Hid|].
    rewrite !(handle_updates_app config py_str httpx_post clock pre O _ w w1 Hrun1).
    rewrite !(handle_updates_step config py_str httpx_post clock _ update w1 w2
               update_id _ Hrun2 Hid).
    split; reflexivity.
Qed.

End Polling.


Example sample_id : substring 0 8 sample_uuid = "3f2a9c1e".
Proof. reflexivity. Qed.

Example waiting_has_entry : pending waiting !! "3f2a9c1e" = Some sample_entry.
Proof. reflexivity. Qed.

(** ** The properties on the samples *)

Lemma handle_response_at_most_once_witness :
  forallb (fun o => negb (creates "3f2a9c1e" o)) sample_history = true /\
  handle_response "3f2a9c1e" true 1400
    (run (snd (handle_response "3f2a9c1e" true 1010 waiting)) sample_history)
  = (Ok (VDict [("error", VStr "Confirmación no encontrada o expirada")]),
     run (snd (handle_response "3f2a9c1e" true 1010 waiting)) sample_history).
Proof.
  split; [reflexivity|].
  exact (proj2 (proj2 (handle_response_at_most_once
                         "3f2a9c1e" true 1010 waiting sample_history
                         true 1400 eq_refl))).
Defined.

(** C1, as stated, fails when an id is drawn again: the sample confirmation
    is resolved, a later [create_confirmation] draws a UUID with the same
    first eight characters, and a second [handle_response] on the id
    resolves again, calling a resume action a second time. *)
Lemma redrawn_id_is_resolved_a_second_time :
  let w1 := snd (handle_response "3f2a9c1e" true 1010 waiting) in
  let w2 :=
    run w1 [Create "3f2a9c1e-1d2c-4b3a-8f4e-5a6b7c8d9e0f" 1100
              "File editing confirmation" sample_data
              (Some saves_file) (Some reports_cancel)] in
  let w3 := snd (handle_response "3f2a9c1e" true 1200 w2) in
  invoked w1 = [Called "3f2a9c1e" true sample_data] /\
  pending w1 !! "3f2a9c1e" = None /\
  fst (handle_response "3f2a9c1e" true 1200 w2)
  = Ok (VDict [("success", VBool true);
               ("result",
                VDict [("file_path",
                        VStr "downloads/ventas_corregido.xlsx")])]) /\
  invoked w3 = [Called "3f2a9c1e" true sample_data;
                Called "3f2a9c1e" true sample_data] /\
  pending w3 <> pending w2.
Proof.
  repeat split.
  intros Heq.
  assert (Hin : pending
                  (snd (handle_response "3f2a9c1e" true 1200
                          (run (snd (handle_response "3f2a9c1e" true 1010
                                       waiting))
                             [Create "3f2a9c1e-1d2c-4b3a-8f4e-5a6b7c8d9e0f"
                                1100 "File editing confirmation" sample_data
                                (Some saves_file) (Some reports_cancel)])))
                !! "3f2a9c1e" = None) by reflexivity.
  rewrite Heq in Hin. discriminate Hin.
Qed.

Lemma handle_response_timeout_boundary_witness :
  pending waiting !! "3f2a9c1e" = Some sample_entry /\
  exists w',
    handle_response "3f2a9c1e" true 1301 waiting
    = (Ok (VDict [("error", VStr "Confirmación expirada")]), w') /\
    invoked w' = invoked waiting.
Proof.
  split; [reflexivity|].
  apply (proj1 (handle_response_timeout_boundary
                  "3f2a9c1e" true 1301 waiting sample_entry eq_refl)).
  simpl. lia.
Defined.

(** C3, as stated, fails at the boundary: the entry was stored at 1000 with
    a timeout of 300, the response comes at 1300, and it is resolved. *)
Lemma response_at_the_timeout_boundary_still_resolves :
  pending waiting !! "3f2a9c1e" = Some sample_entry /\
  timestamp sample_entry + timeout_seconds (confirmation_handler waiting)
  = 1300 /\
  fst (handle_response "3f2a9c1e" true 1300 waiting)
  = Ok (VDict [("success", VBool true);
               ("result",
                VDict [("file_path", VStr "downloads/ventas_corregido.xlsx")])]) /\
  invoked (snd (handle_response "3f2a9c1e" true 1300 waiting))
  = [Called "3f2a9c1e" true sample_data].
Proof. repeat split. Qed.

Lemma handle_response_captures_callback_failure_witness :
  exists w',
    handle_response "3f2a9c1e" true 1010 waiting_for_failure
    = (Ok (VDict [("error", VStr "Unknown error")]), w') /\
    pending w' !! "3f2a9c1e" = None.
Proof.
  destruct (handle_response_captures_callback_failure
              "3f2a9c1e" true 1010 waiting_for_failure
              (Confirmation "File editing confirmation" sample_data
                 (Some edit_fails) (Some reports_cancel) 1000)
              edit_fails (Exn true "Unknown error")
              eq_refl ltac:(simpl; lia) eq_refl eq_refl eq_refl)
    as (w' & Hrun & _ & Hgone & _).
  exists w'. split; [exact Hrun|exact Hgone].
Defined.

Lemma handle_response_expired_entry_is_consumed_witness :
  pending waiting !! "3f2a9c1e" = Some sample_entry /\
  exists w',
    handle_response "3f2a9c1e" false 1301 waiting
    = (Ok (VDict [("error", VStr "Confirmación expirada")]), w') /\
    pending w' <> pending waiting.
Proof.
  split; [reflexivity|].
  destruct (handle_response_expired_entry_is_consumed
              "3f2a9c1e" false 1301 waiting sample_entry
              eq_refl ltac:(simpl; lia))
    as (w' & Hrun & _ & Hchanged & _).
  exists w'. split; [exact Hrun|exact Hchanged].
Defined.



Lemma create_confirmation_replaces_existing_witness :
  pending waiting !! substring 0 8 sample_uuid = Some sample_entry /\
  exists w',
    create_confirmation sample_uuid 2000 "Second request" (VDict []) None None
      waiting
    = (Ok "3f2a9c1e", w') /\
    pending w' !! "3f2a9c1e"
    = Some (Confirmation "Second request" (VDict []) None None 2000).
Proof.
  split; [reflexivity|].
  destruct (create_confirmation_replaces_existing
              sample_uuid 2000 "Second request" (VDict []) None None
              waiting sample_entry eq_refl)
    as (w' & Hrun & Hnew & _).
  exists w'. split; [exact Hrun|exact Hnew].
Defined.

(** C6, as stated, fails: the id is already in the store, the second
    [create_confirmation] that draws it returns the id like any other and
    the first entry is gone. *)
Lemma duplicate_id_is_overwritten_silently :
  pending waiting !! "3f2a9c1e" = Some sample_entry /\
  fst (create_confirmation sample_uuid 2000 "Second request" (VDict [])
         None None waiting)
  = Ok "3f2a9c1e" /\
  pending (snd (create_confirmation sample_uuid 2000 "Second request"
                  (VDict []) None None waiting)) !! "3f2a9c1e"
  = Some (Confirmation "Second request" (VDict []) None None 2000).
Proof. repeat split. Qed.

Lemma start_is_noop_when_running_witness :
  running (bot_server started) = true /\
  start_polling started = (Ok tt, started).
Proof.
  split; [reflexivity|].
  exact (proj1 start_is_noop_when_running_and_stop_is_idempotent
           started eq_refl).
Defined.

Lemma dispatch_witness :
  _handle_update sample_config sample_str always_200
    (button_press 5 (VStr "confirm_3f2a9c1e")) 1010 waiting
  = _handle_confirmation sample_config sample_str always_200
      "3f2a9c1e" true
      (VDict [("id", VStr "4382"); ("data", VStr "confirm_3f2a9c1e")])
      1010 waiting.
Proof.
  exact (proj1 (proj1 (dispatch_matches_confirm_and_cancel_buttons
                         sample_config sample_str always_200)
                  [("update_id", VInt 5);
                   ("callback_query",
                    VDict [("id", VStr "4382");
                           ("data", VStr "confirm_3f2a9c1e")])]
                  [("id", VStr "4382"); ("data", VStr "confirm_3f2a9c1e")]
                  "3f2a9c1e" 1010 waiting eq_refl eq_refl eq_refl)).
Defined.

(** C2, as stated, fails on the prefixes: a callback "approve_" + id is
    not passed on (the world stays as it is, while a [handle_response] on
    the id would have taken the entry and called the action), and the
    buttons carry "confirm_" and "cancel_". *)
Lemma approve_prefix_is_not_dispatched :
  _handle_update sample_config sample_str always_200
    (button_press 5 (VStr "approve_3f2a9c1e")) 1010 waiting
  = (Ok tt, waiting) /\
  pending waiting !! "3f2a9c1e" = Some sample_entry /\
  pending (snd (handle_response "3f2a9c1e" true 1010 waiting)) !! "3f2a9c1e"
  = None /\
  keyboard "3f2a9c1e"
  = VDict [("inline_keyboard",
            VList [VList [
              VDict [("text", VStr "✅ Sí, corregir");
                     ("callback_data", VStr "confirm_3f2a9c1e")];
              VDict [("text", VStr "❌ No, dejar así");
                     ("callback_data", VStr "cancel_3f2a9c1e")]]])].
Proof. repeat split. Qed.

Lemma poll_once_advances_cursor_in_order_witness :
  forallb well_formed good_batch = true /\
  politeb waiting = true /\
  exists w',
    _poll_once sample_config sample_str always_200
      (answer_with good_batch) (fun i => 1010) waiting
    = (Ok tt, w') /\
    last_update_id (bot_server w') = VInt 6.
Proof.
  split; [reflexivity|]. split; [reflexivity|].
  destruct (poll_once_advances_cursor_in_order
              sample_config sample_str always_200
              (answer_with good_batch) (fun i => 1010) 0 good_batch waiting
              eq_refl eq_refl eq_refl eq_refl)
    as (w' & Hrun & _ & Hcursor & _).
  exists w'. split; [exact Hrun|exact Hcursor].
Defined.

(** C8, as stated, fails on a malformed update: the batch holds update 7,
    whose callback data is null, and update 8; the poll ends with the
    cursor still on 6 and the world as it was. *)
Lemma malformed_update_stalls_cursor :
  last_update_id (bot_server at_cursor_6) = VInt 6 /\
  _poll_once sample_config sample_str always_200
    (answer_with bad_batch) (fun i => 1010) at_cursor_6
  = (Ok tt, at_cursor_6).
Proof. split; reflexivity. Qed.

(** * Further properties of the three modules *)

(** ** The store *)

(** Everything [handle_response] does to the world: the id leaves the
    store and at most one call is put on record. *)
Lemma handle_response_world cid confirmed now w :
  exists calls,
    snd (handle_response cid confirmed now w)
    = with_calls calls (set_pending (delete cid (pending w)) w) /\
    (calls = [] \/
     exists conf, pending w !! cid = Some conf /\
       timed_out now conf (timeout_seconds (confirmation_handler w)) = false /\
       calls = [Called cid confirmed (data conf)]).
Proof.
  unfold handle_response.
  destruct (pending w !! cid) as [conf|] eqn:Hin.
  - run_monad.
    destruct (timed_out now conf _) eqn:Hold.
    + exists []. split; [|left; reflexivity].
      unfold with_calls. simpl. rewrite app_nil_r. reflexivity.
    + destruct confirmed, (on_confirm conf) as [f|], (on_cancel conf) as [g|];
        simpl;
        try (exists []; split; [|left; reflexivity];
             unfold with_calls; simpl; rewrite app_nil_r; reflexivity);
        match goal with
        | |- context [match ?h (data conf) with _ => _ end] =>
            destruct (h (data conf)) as [v|[[] msg]]; simpl;
            eexists; (split; [reflexivity|]); right; exists conf; auto
        end.
  - exists []. split; [|left; reflexivity].
    simpl. rewrite delete_id by exact Hin.
    rewrite set_pending_same.
    destruct w as [h b i q n]. unfold with_calls. simpl.
    rewrite app_nil_r. reflexivity.
Qed.

(** The answer of [handle_response] and the calls it makes depend on the
    world only through the entry under the id and the timeout. *)
Lemma handle_response_depends cid confirmed now w1 w2 :
  pending w1 !! cid = pending w2 !! cid ->
  timeout_seconds (confirmation_handler w1)
  = timeout_seconds (confirmation_handler w2) ->
  fst (handle_response cid confirmed now w1)
  = fst (handle_response cid confirmed now w2) /\
  exists calls,
    invoked (snd (handle_response cid confirmed now w1))
    = invoked w1 ++ calls /\
    invoked (snd (handle_response cid confirmed now w2))
    = invoked w2 ++ calls.
Proof.
  intros Hlook Htime. unfold handle_response. rewrite <- Hlook, <- Htime.
  destruct (pending w1 !! cid) as [conf|] eqn:Hin.
  - run_monad.
    destruct (timed_out now conf _).
    + split; [reflexivity|]. exists []. rewrite !app_nil_r. auto.
    + destruct confirmed, (on_confirm conf) as [f|], (on_cancel conf) as [g|];
        simpl;
        try (split; [reflexivity|]; exists []; rewrite !app_nil_r; auto);
        match goal with
        | |- context [match ?h (data conf) with _ => _ end] =>
            destruct (h (data conf)) as [v|[[] msg]]; simpl;
            (split; [reflexivity|]); eexists; split; reflexivity
        end.
  - simpl. split; [reflexivity|]. exists []. rewrite !app_nil_r. auto.
Qed.

(** X1. Round trip of the store: a confirmation registered by
    [create_confirmation] is found again under the id that call returned
    (the first eight characters of the UUID text); a response that arrives
    within the timeout calls the action registered for that decision, once,
    with exactly the data registered, hands its value back under "success",
    and leaves the store as it was before the registration, minus whatever
    stood under that id. *)
Theorem created_confirmation_is_resolved_by_its_id
    uuid4 created message d (oc ocl : option callback) (confirmed : bool)
    now (f : callback) v w :
  (if confirmed then oc else ocl) = Some f ->
  f d = Ok v ->
  now - created <= timeout_seconds (confirmation_handler w) ->
  exists cid w1 w2,
    create_confirmation uuid4 created message d oc ocl w = (Ok cid, w1) /\
    cid = substring 0 8 uuid4 /\
    pending w1 !! cid = Some (Confirmation message d oc ocl created) /\
    handle_response cid confirmed now w1
    = (Ok (VDict (("success", VBool true) :: ("result", v) ::
                  (if confirmed then [] else [("cancelled", VBool true)]))),
       w2) /\
    invoked w2 = invoked w ++ [Called cid confirmed d] /\
    pending w2 = delete cid (pending w).
Proof.
  intros Hsel Hf Hage.
  set (cid := substring 0 8 uuid4).
  set (conf := Confirmation message d oc ocl created).
  set (w1 := set_pending (<[cid := conf]> (pending w)) w).
  assert (Hin : pending w1 !! cid = Some conf).
  { unfold w1. rewrite set_pending_pending. apply lookup_insert_eq. }
  destruct (handle_response_in_time cid confirmed now w1 conf Hin)
    as (r & w2 & Hrun & Hstore & Hcase).
  { apply timed_out_false. simpl. lia. }
  exists cid, w1, w2.
  split; [apply create_confirmation_run|].
  split; [reflexivity|]. split; [exact Hin|].
  unfold conf in Hcase. cbn [on_confirm on_cancel data] in Hcase.
  rewrite Hsel, Hf in Hcase. destruct Hcase as [Hcalls ->].
  split; [exact Hrun|]. split; [exact Hcalls|].
  rewrite Hstore. unfold w1. rewrite set_pending_pending.
  apply delete_insert_eq.
Qed.

(** X2. [handle_response] touches nothing but the id it is given: every
    other pending confirmation keeps its entry, the store loses at most one
    entry, and the timeout, the poller, the posts and the threads are as
    before, whatever the response was and however the action ended. *)
Theorem handle_response_touches_only_its_id cid confirmed now w :
  let w' := snd (handle_response cid confirmed now w) in
  (forall other, other <> cid -> pending w' !! other = pending w !! other) /\
  (size (pending w) <= S (size (pending w')))%nat /\
  timeout_seconds (confirmation_handler w')
  = timeout_seconds (confirmation_handler w) /\
  bot_server w' = bot_server w /\
  posted w' = posted w /\
  threads w' = threads w.
Proof.
  cbv zeta.
  destruct (handle_response_world cid confirmed now w) as (calls & -> & _).
  change (pending (with_calls calls
                     (set_pending (delete cid (pending w)) w)))
    with (delete cid (pending w)).
  split; [|split].
  - intros other Hne. apply lookup_delete_ne. congruence.
  - rewrite map_size_delete.
    destruct (pending w !! cid); simpl; lia.
  - repeat split.
Qed.

(** ** Sweeps *)

Lemma timed_out_later now1 now2 conf timeout :
  now1 <= now2 ->
  timed_out now1 conf timeout = true -> timed_out now2 conf timeout = true.
Proof.
  intros Hle H1. apply timed_out_true. apply timed_out_true in H1. lia.
Qed.

Lemma cleanup_expired_world now w :
  snd (cleanup_expired now w)
  = set_pending (pending (snd (cleanup_expired now w))) w.
Proof. rewrite cleanup_expired_run. reflexivity. Qed.

(** X3. A sweep changes what a later response gets in one way only: for an
    entry the sweep dropped (its age at the sweep was over the timeout) the
    response finds nothing, gets the not-found error and changes nothing;
    for every other id the response returns the same result and calls the
    same action as it would have without the sweep. *)
Theorem sweep_only_turns_expired_into_not_found swept cid confirmed now w :
  let ws := snd (cleanup_expired swept w) in
  match pending w !! cid with
  | Some conf =>
      if timed_out swept conf (timeout_seconds (confirmation_handler w))
      then handle_response cid confirmed now ws
           = (Ok (VDict [("error",
                          VStr "Confirmación no encontrada o expirada")]), ws)
      else fst (handle_response cid confirmed now ws)
           = fst (handle_response cid confirmed now w) /\
           invoked (snd (handle_response cid confirmed now ws))
           = invoked (snd (handle_response cid confirmed now w))
  | None =>
      handle_response cid confirmed now ws
      = (Ok (VDict [("error",
                     VStr "Confirmación no encontrada o expirada")]), ws)
  end.
Proof.
  cbv zeta.
  pose proof (cleanup_expired_lookup swept w cid) as Hlook.
  destruct (pending w !! cid) as [conf|] eqn:Hin.
  - destruct (timed_out swept conf _) eqn:Hold.
    + apply handle_response_absent. exact Hlook.
    + destruct (handle_response_depends cid confirmed now
                  (snd (cleanup_expired swept w)) w) as (Hres & calls & H1 & H2).
      * rewrite Hlook, Hin. reflexivity.
      * rewrite cleanup_expired_run. reflexivity.
      * split; [exact Hres|]. rewrite H1, H2.
        rewrite cleanup_expired_run. reflexivity.
  - apply handle_response_absent. exact Hlook.
Qed.

(** X4. Sweeps compose: a sweep followed by a sweep at the same or a later
    clock reading leaves exactly the world that the later sweep alone
    leaves; in particular sweeping twice at the same time is sweeping
    once. *)
Theorem later_sweep_absorbs_earlier now1 now2 w :
  now1 <= now2 ->
  snd (cleanup_expired now2 (snd (cleanup_expired now1 w)))
  = snd (cleanup_expired now2 w).
Proof.
  intros Hle.
  rewrite (cleanup_expired_world now2 (snd (cleanup_expired now1 w))).
  rewrite (cleanup_expired_world now2 w).
  rewrite (cleanup_expired_world now1 w) at 2.
  rewrite set_pending_twice. f_equal.
  apply map_eq. intros cid.
  rewrite !cleanup_expired_lookup.
  assert (Htime : timeout_seconds
                    (confirmation_handler (snd (cleanup_expired now1 w)))
                  = timeout_seconds (confirmation_handler w)).
  { rewrite cleanup_expired_run. reflexivity. }
  rewrite Htime.
  destruct (pending w !! cid) as [conf|]; [|reflexivity].
  destruct (timed_out now1 conf _) eqn:H1; [|reflexivity].
  rewrite (timed_out_later now1 now2 conf _ Hle H1). reflexivity.
Qed.

(** ** The prompt *)

(** X5. The prompt never shows the suggestions, and of the issues it shows
    the first five only: what comes after the fifth issue enters the text
    through its number alone. *)
Theorem prompt_shows_five_issues_and_no_suggestion py_str :
  (forall cid issues suggestions suggestions',
     format_confirmation_message py_str cid issues suggestions
     = format_confirmation_message py_str cid issues suggestions') /\
  (forall cid shown hidden hidden' suggestions suggestions',
     length shown = 5%nat ->
     length hidden = length hidden' ->
     format_confirmation_message py_str cid (shown ++ hidden) suggestions
     = format_confirmation_message py_str cid (shown ++ hidden') suggestions').
Proof.
  split; [reflexivity|].
  intros cid shown hidden hidden' suggestions suggestions' Hfive Hsame.
  unfold format_confirmation_message.
  rewrite !firstn_app, Hfive, Nat.sub_diag. cbn [firstn].
  rewrite !length_app, Hsame. reflexivity.
Qed.

(** ** Sending *)

Lemma with_posts_nil w : with_posts [] w = w.
Proof.
  destruct w as [h b i q n]. unfold with_posts. simpl.
  rewrite app_nil_r. reflexivity.
Qed.

Lemma with_posts_app rs1 rs2 w :
  with_posts rs2 (with_posts rs1 w) = with_posts (rs1 ++ rs2) w.
Proof. unfold with_posts. simpl. rewrite app_assoc. reflexivity. Qed.

Lemma http_post_run httpx_post r w :
  http_post httpx_post r w
  = (match httpx_post (posted w) r with
     | Status c => Ok c
     | Failure msg => Raise (Exn true msg)
     end, with_posts [r] w).
Proof. reflexivity. Qed.

Section Sending.

Variable config : Config.
Variable httpx_post : list request -> request -> reply.

(** X6. [send_message] never raises, whatever the transport does, and
    changes nothing but the record of posts. Without bot token or chat id it
    posts nothing. Otherwise it posts the text once with Markdown parsing,
    and once more, the same text to the same chat without the parse mode,
    exactly when the first answer was a 400; it never posts a third time. *)
Theorem send_message_posts_once_and_retries_on_400 text w :
  exists posts,
    send_message config httpx_post text w = (Ok tt, with_posts posts w) /\
    if credentials_missing config then posts = []
    else
      match httpx_post (posted w) (markdown_message config text) with
      | Status code =>
          if code =? 400
          then posts = [markdown_message config text;
                        plain_message config text]
          else posts = [markdown_message config text]
      | Failure _ => posts = [markdown_message config text]
      end.
Proof.
  unfold send_message.
  destruct (credentials_missing config).
  { exists []. rewrite with_posts_nil. split; reflexivity. }
  fold (markdown_message config text). fold (plain_message config text).
  unfold try_except, bind. rewrite http_post_run.
  destruct (httpx_post (posted w) (markdown_message config text))
    as [code|msg].
  - destruct (code =? 200) eqn:H200.
    + apply Z.eqb_eq in H200. subst code.
      exists [markdown_message config text]. split; reflexivity.
    + destruct (code =? 400).
      * rewrite http_post_run.
        exists [markdown_message config text; plain_message config text].
        split; [|reflexivity].
        destruct (httpx_post _ (plain_message config text));
          simpl; rewrite with_posts_app; reflexivity.
      * exists [markdown_message config text]. split; reflexivity.
  - exists [markdown_message config text]. split; reflexivity.
Qed.

End Sending.

(** ** Reporting a response *)

Lemma send_message_returns config httpx_post text w :
  fst (send_message config httpx_post text w) = Ok tt.
Proof.
  unfold send_message.
  destruct (credentials_missing config); [reflexivity|].
  unfold try_except, bind. rewrite http_post_run.
  destruct (httpx_post (posted w) _) as [code|msg]; [|reflexivity].
  destruct (code =? 200); [reflexivity|].
  destruct (code =? 400); [|reflexivity].
  rewrite http_post_run.
  destruct (httpx_post _ _); reflexivity.
Qed.

Section Reporting.

Variable config : Config.
Variable py_str : value -> string.
Variable httpx_post : list request -> request -> reply.

Abbreviation confirmation_step :=
  (_handle_confirmation config py_str httpx_post).

(** Picking the text has no effect. *)
Lemma result_message_pure result w :
  result_message py_str result w = (message_for py_str result, w).
Proof.
  unfold message_for, result_message, bind, eval, ret.
  repeat match goal with
         | |- context [match ?x with _ => _ end] => destruct x
         end; reflexivity.
Qed.

Lemma message_for_catchable result : catchable (message_for py_str result).
Proof.
  unfold message_for.
  destruct (result_message py_str result initial) as [r w'] eqn:Hrun.
  exact (proj2 (proj2 (proj2 (notifier_result_message py_str result
                                _ _ _ Hrun)))).
Qed.

(** All that the guarded part of [_handle_confirmation] does. *)
Lemma report_run confirmed callback result w :
  report config py_str httpx_post confirmed callback result w
  = (Ok tt,
     match getitem callback "id" with
     | Raise _ => w
     | Ok query_id =>
         let ack := answer_callback config confirmed query_id in
         match httpx_post (posted w) ack with
         | Failure _ => with_posts [ack] w
         | Status _ =>
             match message_for py_str result with
             | Raise _ => with_posts [ack] w
             | Ok text =>
                 snd (send_message config httpx_post text
                        (with_posts [ack] w))
             end
         end
     end).
Proof.
  unfold report, try_except. unfold bind at 1. unfold eval at 1.
  destruct (getitem callback "id") as [query_id|e] eqn:Hid.
  - fold (answer_callback config confirmed query_id).
    unfold bind at 1. rewrite http_post_run. cbv zeta.
    destruct (httpx_post (posted w) _) as [code|msg]; [|reflexivity].
    unfold bind at 1. rewrite result_message_pure.
    destruct (message_for py_str result) as [text|e] eqn:Hmsg.
    + pose proof (send_message_returns config httpx_post text
                    (with_posts [answer_callback config confirmed query_id] w))
        as Hret.
      destruct (send_message config httpx_post text _) as [r w']. simpl in *.
      subst r. reflexivity.
    + rewrite (message_for_catchable result e Hmsg). reflexivity.
  - rewrite (catchable_getitem callback "id" e Hid). reflexivity.
Qed.

Lemma _handle_confirmation_run cid confirmed callback now w result :
  fst (handle_response cid confirmed now w) = Ok result ->
  confirmation_step cid confirmed callback now w
  = report config py_str httpx_post confirmed callback result
      (snd (handle_response cid confirmed now w)).
Proof.
  intros Hres. rewrite _handle_confirmation_unfold. unfold bind.
  destruct (handle_response cid confirmed now w) as [r w1].
  simpl in Hres. subst r. reflexivity.
Qed.

Lemma handle_response_posted cid confirmed now w :
  posted (snd (handle_response cid confirmed now w)) = posted w.
Proof.
  destruct (handle_response_world cid confirmed now w) as (calls & -> & _).
  reflexivity.
Qed.

(** X7. A button press whose callback query carries no ["id"] is still
    acted upon -- the entry is taken and its action called, exactly as
    [handle_response] does -- but nothing at all is posted: neither the
    acknowledgement nor the result reaches the chat, and no error is
    raised for it. *)
Theorem press_without_query_id_is_consumed_silently cid confirmed c now w :
  dict_get c "id" = None ->
  confirmation_step cid confirmed (VDict c) now w
  = (match fst (handle_response cid confirmed now w) with
     | Ok _ => Ok tt
     | Raise e => Raise e
     end,
     snd (handle_response cid confirmed now w)).
Proof.
  intros Hid. rewrite _handle_confirmation_unfold. unfold bind.
  destruct (handle_response cid confirmed now w) as [[result|e] w1];
    [|reflexivity].
  rewrite report_run. simpl. rewrite Hid. reflexivity.
Qed.

(** X8. When the acknowledgement of the button press cannot be posted, the
    result message is not attempted: the only post on record is the failed
    acknowledgement, although the entry has been taken and its action has
    run. *)
Theorem failed_acknowledgement_suppresses_the_result
    cid confirmed c query_id now w result msg :
  dict_get c "id" = Some query_id ->
  fst (handle_response cid confirmed now w) = Ok result ->
  httpx_post (posted w) (answer_callback config confirmed query_id)
  = Failure msg ->
  confirmation_step cid confirmed (VDict c) now w
  = (Ok tt,
     with_posts [answer_callback config confirmed query_id]
       (snd (handle_response cid confirmed now w))).
Proof.
  intros Hid Hres Hfail.
  rewrite (_handle_confirmation_run _ _ _ _ _ _ Hres), report_run.
  simpl getitem. rewrite Hid. cbv zeta.
  rewrite handle_response_posted, Hfail. reflexivity.
Qed.

End Reporting.

Lemma send_message_once config httpx_post text w code :
  credentials_missing config = false ->
  httpx_post (posted w) (markdown_message config text) = Status code ->
  code <> 400 ->
  send_message config httpx_post text w
  = (Ok tt, with_posts [markdown_message config text] w).
Proof.
  intros Hcred Hpost Hcode. unfold send_message. rewrite Hcred.
  fold (markdown_message config text).
  unfold try_except, bind. rewrite http_post_run, Hpost.
  destruct (code =? 200); [reflexivity|].
  destruct (Z.eqb_spec code 400) as [->|_]; [contradiction|reflexivity].
Qed.

Section Reported.

Variable config : Config.
Variable py_str : value -> string.
Variable httpx_post : list request -> request -> reply.

Abbreviation respond_and_report :=
  (_handle_confirmation config py_str httpx_post).

(** When both posts go through, the record grows by the acknowledgement
    and the message picked for the result. *)
Lemma report_sends confirmed c query_id result text w a code :
  dict_get c "id" = Some query_id ->
  message_for py_str result = Ok text ->
  credentials_missing config = false ->
  httpx_post (posted w) (answer_callback config confirmed query_id)
  = Status a ->
  httpx_post (posted w ++ [answer_callback config confirmed query_id])
    (markdown_message config text) = Status code ->
  code <> 400 ->
  report config py_str httpx_post confirmed (VDict c) result w
  = (Ok tt,
     with_posts [answer_callback config confirmed query_id;
                 markdown_message config text] w).
Proof.
  intros Hid Hmsg Hcred Hack Hsend Hcode.
  rewrite report_run. simpl getitem. rewrite Hid. cbv zeta.
  rewrite Hack, Hmsg.
  rewrite (send_message_once config httpx_post text
             (with_posts [answer_callback config confirmed query_id] w)
             code Hcred Hsend Hcode).
  cbn [snd]. rewrite with_posts_app. reflexivity.
Qed.

(** X9. Every error answer of [handle_response] -- an unknown or already
    used id, an expired entry, an action that failed -- is reported: when
    the transport accepts the posts, the chat gets the acknowledgement of
    the press and then the message "❌ Error: " followed by the text of the
    error, and nothing else is posted. *)
Theorem error_result_is_reported_to_the_chat
    cid confirmed c query_id now w s a code :
  fst (handle_response cid confirmed now w)
  = Ok (VDict [("error", VStr s)]) ->
  dict_get c "id" = Some query_id ->
  credentials_missing config = false ->
  py_str (VStr s) = s ->
  httpx_post (posted w) (answer_callback config confirmed query_id)
  = Status a ->
  httpx_post (posted w ++ [answer_callback config confirmed query_id])
    (markdown_message config ("❌ Error: " +:+ s)) = Status code ->
  code <> 400 ->
  respond_and_report cid confirmed (VDict c) now w
  = (Ok tt,
     with_posts [answer_callback config confirmed query_id;
                 markdown_message config ("❌ Error: " +:+ s)]
       (snd (handle_response cid confirmed now w))).
Proof.
  intros Hres Hid Hcred Hstr Hack Hsend Hcode.
  rewrite (_handle_confirmation_run _ _ _ _ _ _ _ _ _ Hres).
  apply (report_sends _ _ _ _ _ _ a code); try assumption.
  - unfold message_for, result_message, bind, eval, ret. simpl.
    rewrite Hstr. reflexivity.
  - rewrite handle_response_posted. exact Hack.
  - rewrite handle_response_posted. exact Hsend.
Qed.


(** X11. A confirmed action that returns [None], a number or a boolean
    leaves the chat without a result: looking for ["file_path"] in such a
    value fails, the failure is swallowed, and after the acknowledgement
    nothing more is posted although the action ran and succeeded. *)
Theorem scalar_result_is_not_reported
    cid c query_id now w conf (f : callback) v a :
  pending w !! cid = Some conf ->
  now - timestamp conf <= timeout_seconds (confirmation_handler w) ->
  on_confirm conf = Some f ->
  f (data conf) = Ok v ->
  not_a_container v = true ->
  dict_get c "id" = Some query_id ->
  httpx_post (posted w) (answer_callback config true query_id) = Status a ->
  exists w',
    respond_and_report cid true (VDict c) now w = (Ok tt, w') /\
    posted w' = posted w ++ [answer_callback config true query_id] /\
    invoked w' = invoked w ++ [Called cid true (data conf)] /\
    pending w' = delete cid (pending w).
Proof.
  intros Hin Hage Hsel Hf Hv Hid Hack.
  destruct (handle_response_in_time cid true now w conf Hin)
    as (res & w1 & Hrun & Hstore & Hcase).
  { apply timed_out_false. lia. }
  rewrite Hsel, Hf in Hcase. destruct Hcase as [Hcalls ->].
  assert (Hres : fst (handle_response cid true now w)
                 = Ok (VDict [("success", VBool true); ("result", v)])).
  { rewrite Hrun. reflexivity. }
  assert (Hw1 : snd (handle_response cid true now w) = w1).
  { rewrite Hrun. reflexivity. }
  assert (Hposted : posted w1 = posted w).
  { rewrite <- Hw1. apply handle_response_posted. }
  rewrite (_handle_confirmation_run _ _ _ _ _ _ _ _ _ Hres), Hw1.
  rewrite report_run. simpl getitem. rewrite Hid. cbv zeta.
  rewrite Hposted, Hack.
  assert (Hmsg : exists e,
    message_for py_str (VDict [("success", VBool true); ("result", v)])
    = Raise e).
  { unfold message_for, result_message, bind, eval, ret.
    destruct v; try discriminate Hv; simpl; eauto. }
  destruct Hmsg as [e ->].
  eexists. split; [reflexivity|]. simpl. rewrite Hposted.
  repeat split; assumption.
Qed.

(** X12. A cancellation is always reported as such: for an entry in time,
    whether or not an [on_cancel] action is registered and whatever it
    returns, the chat gets the acknowledgement "❌ Cancelado" followed by
    "❌ Operación cancelada". *)
Theorem cancellation_is_reported
    cid c query_id now w conf a code :
  pending w !! cid = Some conf ->
  now - timestamp conf <= timeout_seconds (confirmation_handler w) ->
  match on_cancel conf with
  | Some f => exists v, f (data conf) = Ok v
  | None => True
  end ->
  dict_get c "id" = Some query_id ->
  credentials_missing config = false ->
  httpx_post (posted w) (answer_callback config false query_id) = Status a ->
  httpx_post (posted w ++ [answer_callback config false query_id])
    (markdown_message config "❌ Operación cancelada") = Status code ->
  code <> 400 ->
  exists w',
    respond_and_report cid false (VDict c) now w = (Ok tt, w') /\
    posted w' = posted w ++ [answer_callback config false query_id;
                             markdown_message config "❌ Operación cancelada"] /\
    pending w' = delete cid (pending w).
Proof.
  intros Hin Hage Hok Hid Hcred Hack Hsend Hcode.
  destruct (handle_response_in_time cid false now w conf Hin)
    as (res & w1 & Hrun & Hstore & Hcase).
  { apply timed_out_false. lia. }
  assert (Hw1 : snd (handle_response cid false now w) = w1).
  { rewrite Hrun. reflexivity. }
  assert (Hposted : posted w1 = posted w).
  { rewrite <- Hw1. apply handle_response_posted. }
  assert (Hmsg : exists result,
    res = Ok result /\
    message_for py_str result = Ok "❌ Operación cancelada").
  { destruct (on_cancel conf) as [f|].
    - destruct Hok as [v Hv]. rewrite Hv in Hcase.
      destruct Hcase as [_ ->]. eexists. split; reflexivity.
    - destruct Hcase as [-> _]. eexists. split; reflexivity. }
  destruct Hmsg as (result & -> & Hmsg).
  assert (Hres : fst (handle_response cid false now w) = Ok result).
  { rewrite Hrun. reflexivity. }
  rewrite (_handle_confirmation_run _ _ _ _ _ _ _ _ _ Hres), Hw1.
  rewrite (report_sends false c query_id result
             "❌ Operación cancelada" w1 a code);
    try assumption.
  - eexists. split; [reflexivity|]. simpl. rewrite Hposted.
    split; [reflexivity|assumption].
  - rewrite Hposted. exact Hack.
  - rewrite Hposted. exact Hsend.
Qed.

End Reported.

(** ** What a poll can do to the store *)

Lemma consuming_quiet {A} (m : M A) :
  (forall w r w', m w = (r, w') ->
     confirmation_handler w' = confirmation_handler w /\
     running (bot_server w') = running (bot_server w) /\
     invoked w' = invoked w) ->
  consuming m.
Proof.
  intros Hq w r w' Hrun. destruct (Hq _ _ _ Hrun) as (Hh & Hb & Hi).
  exists []. rewrite app_nil_r. split; [exact Hi|].
  split; [constructor|]. split; [intros cid []|].
  unfold pending. rewrite Hh. repeat split; auto.
Qed.

Lemma consuming_ret {A} (a : A) : consuming (ret a).
Proof.
  apply consuming_quiet. intros w r w' H. injection H as <- <-. auto.
Qed.

Lemma consuming_eval {A} (o : outcome A) : consuming (eval o).
Proof.
  apply consuming_quiet. intros w r w' H. injection H as <- <-. auto.
Qed.

Lemma consuming_set_cursor v : consuming (modify (set_last_update_id v)).
Proof.
  apply consuming_quiet. intros w r w' H. injection H as <- <-. auto.
Qed.

Lemma consuming_notifier {A} (m : M A) : notifier m -> consuming m.
Proof.
  intros Hn. apply consuming_quiet. intros w r w' H.
  destruct (Hn _ _ _ H) as (Hh & Hb & Hi & _). rewrite Hb. auto.
Qed.

(** Two statements in a row: the ids called by the second were still
    pending after the first, so they differ from the ids the first called. *)
Lemma consuming_then w w1 w' calls1 calls2 :
  invoked w1 = invoked w ++ calls1 ->
  NoDup (map call_id calls1) ->
  (forall cid, In cid (map call_id calls1) ->
     is_Some (pending w !! cid) /\ pending w1 !! cid = None) ->
  pending w1 ⊆ pending w ->
  invoked w' = invoked w1 ++ calls2 ->
  NoDup (map call_id calls2) ->
  (forall cid, In cid (map call_id calls2) ->
     is_Some (pending w1 !! cid) /\ pending w' !! cid = None) ->
  pending w' ⊆ pending w1 ->
  invoked w' = invoked w ++ (calls1 ++ calls2) /\
  NoDup (map call_id (calls1 ++ calls2)) /\
  (forall cid, In cid (map call_id (calls1 ++ calls2)) ->
     is_Some (pending w !! cid) /\ pending w' !! cid = None) /\
  pending w' ⊆ pending w.
Proof.
  intros Hi1 Hnd1 Hids1 Hsub1 Hi2 Hnd2 Hids2 Hsub2.
  split; [rewrite Hi2, Hi1, app_assoc; reflexivity|].
  split.
  - rewrite map_app. apply NoDup_app. split; [exact Hnd1|].
    split; [|exact Hnd2].
    intros cid Hin1 Hin2.
    apply list_elem_of_In in Hin1. apply list_elem_of_In in Hin2.
    destruct (Hids1 cid Hin1) as [_ Hgone].
    destruct (Hids2 cid Hin2) as [[conf Hthere] _].
    rewrite Hgone in Hthere. discriminate.
  - split; [|transitivity (pending w1); assumption].
    intros cid Hin. rewrite map_app in Hin. apply in_app_or in Hin.
    destruct Hin as [Hin|Hin].
    + destruct (Hids1 cid Hin) as [Hthere Hgone]. split; [exact Hthere|].
      exact (lookup_weaken_None _ _ _ Hgone Hsub2).
    + destruct (Hids2 cid Hin) as [Hthere Hgone]. split; [|exact Hgone].
      exact (lookup_weaken_is_Some _ _ _ Hthere Hsub1).
Qed.

Lemma consuming_bind {A B} (m : M A) (k : A -> M B) :
  consuming m -> (forall a, consuming (k a)) -> consuming (bind m k).
Proof.
  intros Hm Hk w r w' H. unfold bind in H.
  destruct (m w) as [[a|e] w1] eqn:Hmw.
  - destruct (Hm _ _ _ Hmw) as (c1 & Hi1 & Hnd1 & Hids1 & Hsub1 & Ht1 & Hr1).
    destruct (Hk a _ _ _ H) as (c2 & Hi2 & Hnd2 & Hids2 & Hsub2 & Ht2 & Hr2).
    exists (c1 ++ c2).
    destruct (consuming_then w w1 w' c1 c2) as (? & ? & ? & ?); try assumption.
    do 4 (split; [assumption|]). split; congruence.
  - injection H as <- <-. exact (Hm _ _ _ Hmw).
Qed.

Lemma consuming_try {A} (m : M A) (h : exn -> M A) :
  consuming m -> (forall e, consuming (h e)) -> consuming (try_except m h).
Proof.
  intros Hm Hh w r w' H. unfold try_except in H.
  destruct (m w) as [[a|e] w1] eqn:Hmw.
  - injection H as <- <-. exact (Hm _ _ _ Hmw).
  - destruct (is_Exception e).
    + destruct (Hm _ _ _ Hmw)
        as (c1 & Hi1 & Hnd1 & Hids1 & Hsub1 & Ht1 & Hr1).
      destruct (Hh e _ _ _ H)
        as (c2 & Hi2 & Hnd2 & Hids2 & Hsub2 & Ht2 & Hr2).
      exists (c1 ++ c2).
      destruct (consuming_then w w1 w' c1 c2) as (? & ? & ? & ?);
        try assumption.
      do 4 (split; [assumption|]). split; congruence.
    + injection H as <- <-. exact (Hm _ _ _ Hmw).
Qed.

(** A statement that first reads the world. *)
Lemma consuming_read {A} (f : World -> M A) :
  (forall w0, consuming (f w0)) -> consuming (fun w => f w w).
Proof. intros Hf w r w' H. exact (Hf w w r w' H). Qed.

Lemma consuming_handle_response cid confirmed now :
  consuming (handle_response cid confirmed now).
Proof.
  intros w r w' Hrun.
  destruct (handle_response_world cid confirmed now w) as (calls & Hw & Hcalls).
  rewrite Hrun in Hw. simpl in Hw. subst w'.
  exists calls. split; [reflexivity|].
  change (pending (with_calls calls
                     (set_pending (delete cid (pending w)) w)))
    with (delete cid (pending w)).
  destruct Hcalls as [->|(conf & Hin & _ & ->)].
  - split; [constructor|]. split; [intros x []|].
    split; [apply delete_subseteq|]. split; reflexivity.
  - split; [repeat constructor; intros Hx; inversion Hx|].
    split.
    + intros x [<-|[]]. split; [eauto|apply lookup_delete_eq].
    + split; [apply delete_subseteq|]. split; reflexivity.
Qed.

Section Poll_effects.

Variable config : Config.
Variable py_str : value -> string.
Variable httpx_post : list request -> request -> reply.

Lemma consuming_report confirmed callback result :
  consuming (report config py_str httpx_post confirmed callback result).
Proof.
  apply consuming_quiet. intros w r w' Hrun.
  destruct (report_returns config py_str httpx_post confirmed callback
              result w) as (w2 & Hret & Hh & Hb & Hi).
  rewrite Hrun in Hret. injection Hret as -> ->. rewrite Hb. auto.
Qed.

Lemma consuming_handle_confirmation cid confirmed callback now :
  consuming (_handle_confirmation config py_str httpx_post
               cid confirmed callback now).
Proof.
  rewrite _handle_confirmation_unfold.
  apply consuming_bind; [apply consuming_handle_response|].
  intros result. apply consuming_report.
Qed.

Lemma consuming_handle_update update now :
  consuming (_handle_update config py_str httpx_post update now).
Proof.
  unfold _handle_update.
  repeat first
    [ apply consuming_ret
    | apply consuming_handle_confirmation
    | apply consuming_bind; [apply consuming_eval|intros ?]
    | match goal with |- consuming (if ?b then _ else _) => destruct b end ].
Qed.

Lemma consuming_handle_updates clock updates : forall i,
  consuming (handle_updates config py_str httpx_post clock i updates).
Proof.
  induction updates as [|update rest IH]; intros i; simpl.
  - apply consuming_ret.
  - apply consuming_bind; [apply consuming_handle_update|intros _].
    apply consuming_bind; [apply consuming_eval|intros update_id].
    apply consuming_bind; [apply consuming_set_cursor|intros _].
    apply IH.
Qed.

Lemma consuming_poll_once httpx_get clock :
  consuming (_poll_once config py_str httpx_post httpx_get clock).
Proof.
  unfold _poll_once.
  apply consuming_try; [|intros e; apply consuming_ret].
  apply (consuming_read (fun w0 =>
    bind (eval (add_one (last_update_id (bot_server w0)))) _)).
  intros w0.
  repeat first
    [ apply consuming_ret
    | apply consuming_handle_updates
    | apply consuming_bind; [apply consuming_eval|intros ?]
    | match goal with |- consuming (if ?b then _ else _) => destruct b end ].
Qed.

(** X13. In one poll no confirmation is acted upon twice, whatever the
    batch holds (the same button pressed again, the same update delivered
    twice, malformed updates): the resume actions called during a
    [_poll_once] belong to pairwise different ids, each of which was pending
    before the poll and is gone after it. A poll never adds an entry to the
    store and never changes the timeout or the running flag. *)
Theorem poll_acts_at_most_once_per_confirmation httpx_get clock w :
  let w' := snd (_poll_once config py_str httpx_post httpx_get clock w) in
  exists calls,
    invoked w' = invoked w ++ calls /\
    NoDup (map call_id calls) /\
    (forall cid, In cid (map call_id calls) ->
       is_Some (pending w !! cid) /\ pending w' !! cid = None) /\
    pending w' ⊆ pending w /\
    timeout_seconds (confirmation_handler w')
    = timeout_seconds (confirmation_handler w) /\
    running (bot_server w') = running (bot_server w).
Proof.
  cbv zeta.
  destruct (_poll_once config py_str httpx_post httpx_get clock w)
    as [r w'] eqn:Hrun.
  exact (consuming_poll_once httpx_get clock w r w' Hrun).
Qed.

End Poll_effects.

(** ** A poll cannot fail *)

Lemma polite_subseteq w w' :
  polite w -> pending w' ⊆ pending w -> polite w'.
Proof.
  intros Hp Hsub cid conf f e Hin Hsel Hf.
  exact (Hp cid conf f e (lookup_weaken _ _ _ _ Hin Hsub) Hsel Hf).
Qed.

Lemma consuming_polite {A} (m : M A) w r w' :
  consuming m -> polite w -> m w = (r, w') -> polite w'.
Proof.
  intros Hm Hp Hrun.
  destruct (Hm _ _ _ Hrun) as (calls & _ & _ & _ & Hsub & _).
  exact (polite_subseteq w w' Hp Hsub).
Qed.

Lemma polite_politeb w : polite w -> politeb w = true.
Proof.
  intros Hp. unfold politeb. apply forallb_forall. intros [cid conf] Hin.
  apply list_elem_of_In, elem_of_map_to_list in Hin. simpl.
  apply andb_true_iff. split; unfold raises_only_exceptions.
  - destruct (on_confirm conf) as [f|] eqn:Hsel; [|reflexivity].
    destruct (f (data conf)) as [v|e] eqn:Hf; [reflexivity|].
    exact (Hp cid conf f e Hin (or_introl Hsel) Hf).
  - destruct (on_cancel conf) as [f|] eqn:Hsel; [|reflexivity].
    destruct (f (data conf)) as [v|e] eqn:Hf; [reflexivity|].
    exact (Hp cid conf f e Hin (or_intror Hsel) Hf).
Qed.

Lemma tame_ret {A} (a : A) : tame (ret a).
Proof. intros w r w' _ H. injection H as <- <-. apply catchable_Ok. Qed.

Lemma tame_eval {A} (o : outcome A) : catchable o -> tame (eval o).
Proof. intros Ho w r w' _ H. injection H as <- <-. exact Ho. Qed.

Lemma tame_set_cursor v : tame (modify (set_last_update_id v)).
Proof. intros w r w' _ H. injection H as <- <-. apply catchable_Ok. Qed.

Lemma tame_bind {A B} (m : M A) (k : A -> M B) :
  consuming m -> tame m -> (forall a, tame (k a)) -> tame (bind m k).
Proof.
  intros Hc Hm Hk w r w' Hp H. unfold bind in H.
  destruct (m w) as [[a|e] w1] eqn:Hmw.
  - exact (Hk a w1 r w' (consuming_polite m w _ w1 Hc Hp Hmw) H).
  - injection H as <- <-. intros e' He'. injection He' as <-.
    exact (Hm w _ w1 Hp Hmw e eq_refl).
Qed.

Lemma tame_handle_response cid confirmed now :
  tame (handle_response cid confirmed now).
Proof.
  intros w r w' Hp Hrun.
  destruct (handle_response_returns cid confirmed now w Hp)
    as (result & w2 & Hret & _).
  rewrite Hrun in Hret. injection Hret as -> _. apply catchable_Ok.
Qed.

#[local] Hint Resolve catchable_contains catchable_getitem catchable_get
  catchable_startswith catchable_replace catchable_iter catchable_add_one
  : notify.

Section Poll_faults.

Variable config : Config.
Variable py_str : value -> string.
Variable httpx_post : list request -> request -> reply.

Lemma tame_handle_confirmation cid confirmed callback now :
  tame (_handle_confirmation config py_str httpx_post
          cid confirmed callback now).
Proof.
  rewrite _handle_confirmation_unfold.
  apply tame_bind;
    [apply consuming_handle_response|apply tame_handle_response|].
  intros result w r w' _ Hrun.
  destruct (report_returns config py_str httpx_post confirmed callback
              result w) as (w2 & Hret & _).
  rewrite Hrun in Hret. injection Hret as -> _. apply catchable_Ok.
Qed.

Lemma tame_handle_update update now :
  tame (_handle_update config py_str httpx_post update now).
Proof.
  unfold _handle_update.
  repeat first
    [ apply tame_ret
    | apply tame_handle_confirmation
    | apply tame_bind;
        [apply consuming_eval|apply tame_eval; auto with notify|intros ?]
    | match goal with |- tame (if ?b then _ else _) => destruct b end ].
Qed.

Lemma tame_handle_updates clock updates : forall i,
  tame (handle_updates config py_str httpx_post clock i updates).
Proof.
  induction updates as [|update rest IH]; intros i; simpl.
  - apply tame_ret.
  - apply tame_bind;
      [apply consuming_handle_update|apply tame_handle_update|intros _].
    apply tame_bind;
      [apply consuming_eval|apply tame_eval; auto with notify
      |intros update_id].
    apply tame_bind;
      [apply consuming_set_cursor|apply tame_set_cursor|intros _].
    apply IH.
Qed.

(** X14. A poll cannot bring the polling thread down: as long as the
    transport and the stored resume actions raise nothing but instances of
    [Exception], [_poll_once] returns normally for every answer of the
    server -- failed request, any status, undecodable or unexpected body,
    malformed updates -- and leaves a store with the same guarantee. *)
Theorem poll_once_never_raises httpx_get clock w :
  politeb w = true ->
  fetch_catchable httpx_get w = true ->
  exists w',
    _poll_once config py_str httpx_post httpx_get clock w = (Ok tt, w') /\
    politeb w' = true.
Proof.
  intros Hp Hfetch. apply politeb_polite in Hp.
  destruct (_poll_once config py_str httpx_post httpx_get clock w)
    as [r w'] eqn:Hrun.
  assert (Hp' : politeb w' = true).
  { apply polite_politeb.
    exact (consuming_polite _ w r w'
             (consuming_poll_once config py_str httpx_post httpx_get clock)
             Hp Hrun). }
  exists w'. split; [|exact Hp'].
  unfold _poll_once, try_except in Hrun.
  match type of Hrun with
  | (match ?body with _ => _ end) = _ =>
      destruct body as [[[]|e] w1] eqn:Hbody
  end.
  - injection Hrun as <- <-. reflexivity.
  - assert (He : is_Exception e = true).
    { clear Hrun. unfold fetch_catchable in Hfetch.
      unfold bind at 1 in Hbody. unfold eval at 1 in Hbody.
      destruct (add_one (last_update_id (bot_server w)))
        as [offset|e0] eqn:Hadd.
      2:{ injection Hbody as <- _.
          exact (catchable_add_one _ _ Hadd). }
      unfold bind at 1 in Hbody. unfold eval at 1 in Hbody.
      destruct (httpx_get offset) as [resp|e0].
      2:{ injection Hbody as <- _. exact Hfetch. }
      destruct (status_code resp =? 200); [|discriminate Hbody].
      unfold bind at 1 in Hbody. unfold eval at 1 in Hbody.
      destruct (response_json resp) as [body|e0].
      2:{ injection Hbody as <- _. exact Hfetch. }
      revert Hbody.
      match goal with
      | |- ?m w = _ -> _ =>
          assert (Htame : tame m);
          [|intros Hbody; exact (Htame w _ w1 Hp Hbody e eq_refl)]
      end.
      repeat first
        [ apply tame_ret
        | apply tame_handle_updates
        | apply tame_bind;
            [apply consuming_eval|apply tame_eval; auto with notify
            |intros ?]
        | match goal with |- tame (if ?b then _ else _) => destruct b end ]. }
    rewrite He in Hrun. injection Hrun as <- <-. reflexivity.
Qed.

End Poll_faults.

(** ** Polls that bring nothing *)

Section Empty_polls.

Variable config : Config.
Variable py_str : value -> string.
Variable httpx_post : list request -> request -> reply.

Abbreviation one_poll := (_poll_once config py_str httpx_post).

(** The poll of a batch that the loop gets through. *)
Lemma poll_once_runs_batch httpx_get clock n updates w w' :
  last_update_id (bot_server w) = VInt n ->
  httpx_get (n + 1)
  = Ok (Response 200
          (Ok (VDict [("ok", VBool true); ("result", VList updates)]))) ->
  handle_updates config py_str httpx_post clock O updates w = (Ok tt, w') ->
  one_poll httpx_get clock w = (Ok tt, w').
Proof.
  intros Hcursor Hget Hloop.
  unfold _poll_once, try_except. unfold bind at 1. unfold eval at 1.
  rewrite Hcursor. cbn [add_one]. unfold bind at 1. unfold eval at 1.
  rewrite Hget. run_monad. rewrite Hloop. reflexivity.
Qed.

(** X15. The cursor and the store move only on an answer that brings
    updates. A poll leaves the world exactly as it was, and returns
    normally, when the request fails, when the status is not 200 (a 409
    conflict included), when the body does not say ["ok"], and when the
    ["result"] is missing or empty. *)
Theorem poll_without_updates_changes_nothing httpx_get clock n w :
  last_update_id (bot_server w) = VInt n ->
  (forall e,
     httpx_get (n + 1) = Raise e -> is_Exception e = true ->
     one_poll httpx_get clock w = (Ok tt, w)) /\
  (forall r,
     httpx_get (n + 1) = Ok r -> status_code r <> 200 ->
     one_poll httpx_get clock w = (Ok tt, w)) /\
  (forall r d,
     httpx_get (n + 1) = Ok r -> status_code r = 200 ->
     response_json r = Ok (VDict d) ->
     truthy (match dict_get d "ok" with Some x => x | None => VNone end)
     = false ->
     one_poll httpx_get clock w = (Ok tt, w)) /\
  (forall r d,
     httpx_get (n + 1) = Ok r -> status_code r = 200 ->
     response_json r = Ok (VDict d) ->
     truthy (match dict_get d "ok" with Some x => x | None => VNone end)
     = true ->
     dict_get d "result" = None \/ dict_get d "result" = Some (VList []) ->
     one_poll httpx_get clock w = (Ok tt, w)).
Proof.
  intros Hcursor.
  assert (Hstart : forall o,
    httpx_get (n + 1) = o ->
    one_poll httpx_get clock w
    = try_except
        (bind (eval o)
           (fun response =>
              if status_code response =? 200 then
                bind (eval (response_json response)) (fun data =>
                bind (eval (get data "ok" VNone)) (fun ok =>
                if truthy ok then
                  bind (eval (get data "result" (VList []))) (fun updates =>
                  bind (eval (iter updates)) (fun updates =>
                  handle_updates config py_str httpx_post clock O updates))
                else ret tt))
              else ret tt))
        (fun e => ret tt) w).
  { intros o <-. unfold _poll_once, try_except. unfold bind at 1.
    unfold eval at 1. rewrite Hcursor. reflexivity. }
  split; [|split; [|split]].
  - intros e Hget He. rewrite (Hstart _ Hget).
    unfold try_except, bind, eval. rewrite He. reflexivity.
  - intros r Hget Hstatus. rewrite (Hstart _ Hget).
    unfold try_except, bind at 1, eval at 1.
    destruct (Z.eqb_spec (status_code r) 200); [contradiction|reflexivity].
  - intros r d Hget Hstatus Hjson Hok. rewrite (Hstart _ Hget).
    unfold try_except, bind, eval. rewrite Hstatus, Hjson. simpl.
    rewrite Hok. reflexivity.
  - intros r d Hget Hstatus Hjson Hok Hresult. rewrite (Hstart _ Hget).
    unfold try_except, bind, eval. rewrite Hstatus, Hjson. simpl.
    rewrite Hok. destruct Hresult as [-> | ->]; reflexivity.
Qed.

(** X16. A cursor that is not a number silences the poller for good. The
    loop stores whatever an update carries under ["update_id"]; once a
    batch has ended on an update whose id is, say, a string, every later
    [_poll_once] fails on [last_update_id + 1] before asking the server,
    swallows the fault and leaves the world as it is, whatever the server
    would have answered. *)
Theorem non_numeric_update_id_stops_polling httpx_get clock n updates w :
  last_update_id (bot_server w) = VInt n ->
  httpx_get (n + 1)
  = Ok (Response 200
          (Ok (VDict [("ok", VBool true); ("result", VList updates)]))) ->
  forallb well_formed updates = true ->
  politeb w = true ->
  is_number (cursor_after updates (VInt n)) = false ->
  exists w',
    one_poll httpx_get clock w = (Ok tt, w') /\
    last_update_id (bot_server w') = cursor_after updates (VInt n) /\
    forall httpx_get' clock',
      one_poll httpx_get' clock' w' = (Ok tt, w').
Proof.
  intros Hcursor Hget Hwf Hp Hbad. apply politeb_polite in Hp.
  destruct (handle_updates_returns config py_str httpx_post clock updates
              O w Hwf Hp) as (w' & Hloop & _ & Hlast & _).
  rewrite Hcursor in Hlast.
  exists w'. split; [|split; [exact Hlast|]].
  - exact (poll_once_runs_batch httpx_get clock n updates w w'
             Hcursor Hget Hloop).
  - intros httpx_get' clock'.
    unfold _poll_once, try_except. unfold bind at 1. unfold eval at 1.
    rewrite Hlast.
    destruct (cursor_after updates (VInt n)); try discriminate Hbad;
      reflexivity.
Qed.

(** X17. Updates that were handled are not asked for again: after a batch
    that ends on update number [m], what the next poll does is decided by
    the server's answer for offset [m + 1] alone. *)
Theorem next_poll_asks_after_the_last_update
    httpx_get clock n updates w m :
  last_update_id (bot_server w) = VInt n ->
  httpx_get (n + 1)
  = Ok (Response 200
          (Ok (VDict [("ok", VBool true); ("result", VList updates)]))) ->
  forallb well_formed updates = true ->
  politeb w = true ->
  cursor_after updates (VInt n) = VInt m ->
  exists w',
    one_poll httpx_get clock w = (Ok tt, w') /\
    forall next next' clock',
      next (m + 1) = next' (m + 1) ->
      one_poll next clock' w' = one_poll next' clock' w'.
Proof.
  intros Hcursor Hget Hwf Hp Hm. apply politeb_polite in Hp.
  destruct (handle_updates_returns config py_str httpx_post clock updates
              O w Hwf Hp) as (w' & Hloop & _ & Hlast & _).
  rewrite Hcursor, Hm in Hlast.
  exists w'. split.
  - exact (poll_once_runs_batch httpx_get clock n updates w w'
             Hcursor Hget Hloop).
  - intros next next' clock' Hsame.
    unfold _poll_once, try_except. unfold bind at 1 3. unfold eval at 1 5.
    rewrite Hlast. cbn [add_one].
    unfold bind at 1 5. unfold eval at 1 5. rewrite Hsame. reflexivity.
Qed.

End Empty_polls.

(** ** Starting and stopping *)

Lemma flip_start_running w :
  running (bot_server w) = true -> flip w Start = w.
Proof. intros Hrun. simpl. unfold start_polling. rewrite Hrun. reflexivity. Qed.

Lemma flip_start_stopped w :
  running (bot_server w) = false ->
  flip w Start = start_thread (set_running true w).
Proof. intros Hrun. simpl. unfold start_polling. rewrite Hrun. reflexivity. Qed.

Lemma flips_bounds l : forall w,
  (threads (flips w l)
   <= threads w + count_stops l + (if running (bot_server w) then 0 else 1)
  /\ threads (flips w l) <= threads w + count_starts l
  /\ (running (bot_server (flips w l)) = true ->
      running (bot_server w) = true \/ threads w < threads (flips w l))
  /\ confirmation_handler (flips w l) = confirmation_handler w
  /\ last_update_id (bot_server (flips w l)) = last_update_id (bot_server w)
  )%nat.
Proof.
  induction l as [|s l IH]; intros w.
  - unfold flips, count_stops, count_starts. simpl.
    repeat split; try lia. intros Hr. left. exact Hr.
  - change (flips w (s :: l)) with (flips (flip w s) l).
    destruct (IH (flip w s)) as (H1 & H2 & H3 & H4 & H5).
    assert (Hmono : forall x l', (threads x <= threads (flips x l'))%nat).
    { intros x l'. revert x.
      induction l' as [|s' l' IHl]; intros x; [unfold flips; simpl; lia|].
      change (flips x (s' :: l')) with (flips (flip x s') l').
      specialize (IHl (flip x s')).
      destruct s'; simpl flip in *; [|simpl in *; lia].
      unfold start_polling in *.
      destruct (running (bot_server x)); simpl in *; lia. }
    destruct s.
    + change (count_stops (Start :: l)) with (count_stops l).
      change (count_starts (Start :: l)) with (S (count_starts l)).
      destruct (running (bot_server w)) eqn:Hrun.
      * rewrite (flip_start_running w Hrun) in *. rewrite Hrun in H1.
        repeat split; try assumption; try lia.
      * rewrite (flip_start_stopped w Hrun) in *. simpl in H1, H2, H4, H5.
        repeat split; try assumption; try lia.
        intros _. right.
        pose proof (Hmono (start_thread (set_running true w)) l) as Hm.
        simpl in Hm. lia.
    + change (count_stops (Stop :: l)) with (S (count_stops l)).
      change (count_starts (Stop :: l)) with (count_starts l).
      simpl flip in *. simpl in H1, H2, H3, H4, H5.
      repeat split; try assumption.
      * destruct (running (bot_server w)); lia.
      * intros Hr. destruct (H3 Hr) as [Hbad|Hgrow];
          [discriminate Hbad|right; exact Hgrow].
Qed.

(** X18. However a program interleaves [start_polling] and
    [stop_polling], from the moment the modules are loaded: the number of
    polling threads started is at most the number of starts and at most one
    more than the number of stops (so without a stop, no second loop is ever
    started), a poller that is running has had a thread started for it, and
    neither call touches the store or the cursor. *)
Theorem one_thread_per_start_after_stop (l : list switch) :
  let w := flips initial l in
  (threads w <= count_starts l)%nat /\
  (threads w <= S (count_stops l))%nat /\
  (running (bot_server w) = true -> 1 <= threads w)%nat /\
  confirmation_handler w = confirmation_handler initial /\
  last_update_id (bot_server w) = VInt 0.
Proof.
  cbv zeta.
  destruct (flips_bounds l initial) as (H1 & H2 & H3 & H4 & H5).
  simpl in H1, H2, H3.
  split; [lia|]. split; [lia|]. split; [|split; assumption].
  intros Hr. destruct (H3 Hr) as [Hbad|Hgrow]; [discriminate Hbad|lia].
Qed.

(** ** The configuration *)

Lemma missing_variables_nil s :
  missing_variables s = [] <->
  is_set (AZURE_CLIENT_ID s) && is_set (AZURE_TENANT_ID s) &&
  is_set (GEMINI_API_KEY s) && is_set (TELEGRAM_BOT_TOKEN (telegram s))
  = true.
Proof.
  unfold missing_variables.
  destruct (is_set (AZURE_CLIENT_ID s)), (is_set (AZURE_TENANT_ID s)),
    (is_set (GEMINI_API_KEY s)), (is_set (TELEGRAM_BOT_TOKEN (telegram s)));
    simpl; split; intros H; try reflexivity; discriminate H.
Qed.

(** X19. [Config.validate] passes exactly when the Azure client id, the
    Azure tenant id, the Gemini key and the Telegram bot token are all set
    and not empty, and raises a [ValueError] otherwise. The Telegram chat id
    is not looked at: validation passes without it, and then every
    [send_message] and [send_confirmation_message] returns without posting
    anything. *)
Theorem validate_ignores_the_chat_id s :
  (validate s = Ok tt <->
   is_set (AZURE_CLIENT_ID s) && is_set (AZURE_TENANT_ID s) &&
   is_set (GEMINI_API_KEY s) && is_set (TELEGRAM_BOT_TOKEN (telegram s))
   = true) /\
  (forall e, validate s = Raise e -> is_Exception e = true) /\
  (forall chat,
     validate {| AZURE_CLIENT_ID := AZURE_CLIENT_ID s;
                 AZURE_TENANT_ID := AZURE_TENANT_ID s;
                 GEMINI_API_KEY := GEMINI_API_KEY s;
                 telegram :=
                   {| TELEGRAM_BOT_TOKEN := TELEGRAM_BOT_TOKEN (telegram s);
                      TELEGRAM_CHAT_ID := chat |} |}
     = validate s) /\
  (is_set (TELEGRAM_CHAT_ID (telegram s)) = false ->
   forall httpx_post text cid w,
     send_message (telegram s) httpx_post text w = (Ok tt, w) /\
     send_confirmation_message (telegram s) httpx_post text cid w
     = (Ok tt, w)).
Proof.
  split; [|split; [|split]].
  - rewrite <- missing_variables_nil. unfold validate.
    destruct (missing_variables s); split; intros H;
      try reflexivity; discriminate H.
  - intros e. unfold validate.
    destruct (missing_variables s); intros H; [discriminate H|].
    injection H as <-. reflexivity.
  - intros chat. reflexivity.
  - intros Hchat httpx_post text cid w.
    assert (Hmiss : credentials_missing (telegram s) = true).
    { unfold credentials_missing, is_set in *.
      destruct (TELEGRAM_BOT_TOKEN (telegram s)) as [t|]; [|reflexivity].
      destruct (TELEGRAM_CHAT_ID (telegram s)) as [c|]; [|reflexivity].
      apply negb_false_iff in Hchat. rewrite Hchat.
      apply orb_true_r. }
    unfold send_message, send_confirmation_message. rewrite Hmiss.
    split; reflexivity.
Qed.

(** ** Offering a correction *)

Section Offers.

Variable config : Config.
Variable py_str : value -> string.
Variable httpx_post : list request -> request -> reply.
Variable mcp_server : FileEditorServer.

Abbreviation offer := (offer_correction config py_str httpx_post mcp_server).
Abbreviation approve_action := (on_confirm_edit py_str mcp_server).
Abbreviation dispatch_update := (_handle_update config py_str httpx_post).
Abbreviation dispatch_confirmation :=
  (_handle_confirmation config py_str httpx_post).

(** What an offer does when the analysis asks for a correction. *)
Lemma offer_run file_path uuid4 now w a suggestions issues :
  analyze_excel mcp_server (VDict [("file_path", VStr file_path)])
  = Ok (VDict a) ->
  truthy (match dict_get a "needs_editing" with
          | Some x => x | None => VNone end) = true ->
  dict_get a "suggestions" = Some suggestions ->
  dict_get a "issues" = Some (VList issues) ->
  offer file_path uuid4 now w
  = send_confirmation_message config httpx_post
      (format_confirmation_message py_str (substring 0 8 uuid4)
         issues suggestions)
      (substring 0 8 uuid4)
      (set_pending
         (<[substring 0 8 uuid4 :=
              Confirmation "File editing confirmation"
                (VDict [("file_path", VStr file_path);
                        ("suggestions", suggestions)])
                (Some approve_action) (Some on_cancel_report) now]>
            (pending w)) w).
Proof.
  intros Htool Hneeds Hsugg Hissues.
  unfold offer_correction. unfold bind at 1. unfold eval at 1.
  change (call_tool mcp_server "analyze_excel"
            (VDict [("file_path", VStr file_path)]))
    with (analyze_excel mcp_server (VDict [("file_path", VStr file_path)])).
  rewrite Htool. unfold bind at 1. unfold eval at 1. cbn [get].
  rewrite Hneeds. unfold bind at 1. unfold eval at 1. cbn [getitem].
  rewrite Hsugg. unfold bind at 1. rewrite create_confirmation_run.
  unfold bind at 1. unfold eval at 1. rewrite Hissues.
  reflexivity.
Qed.

(** X20. Round trip of an offer. When the analysis of a spreadsheet asks
    for a correction and the Telegram credentials are set, [main] registers
    one confirmation under the id drawn and posts one message; the two
    buttons of that message carry "confirm_" and "cancel_" followed by
    that id, and a press of either button, whenever it comes back through
    the poller, is handed to the confirmation step with exactly that id and
    the decision of the button. *)
Theorem offered_buttons_lead_back_to_the_confirmation
    file_path uuid4 now w a suggestions issues :
  analyze_excel mcp_server (VDict [("file_path", VStr file_path)])
  = Ok (VDict a) ->
  truthy (match dict_get a "needs_editing" with
          | Some x => x | None => VNone end) = true ->
  dict_get a "suggestions" = Some suggestions ->
  dict_get a "issues" = Some (VList issues) ->
  credentials_missing config = false ->
  hex_string (substring 0 8 uuid4) = true ->
  let cid := substring 0 8 uuid4 in
  exists w1 prompt yes no,
    offer file_path uuid4 now w = (Ok tt, w1) /\
    pending w1 !! cid
    = Some (Confirmation "File editing confirmation"
              (VDict [("file_path", VStr file_path);
                      ("suggestions", suggestions)])
              (Some approve_action) (Some on_cancel_report) now) /\
    posted w1 = posted w ++ [prompt] /\
    button_data prompt = [VStr yes; VStr no] /\
    forall d c when,
      dict_get d "callback_query" = Some (VDict c) ->
      (dict_get c "data" = Some (VStr yes) ->
       dispatch_update (VDict d) when w1
       = dispatch_confirmation cid true (VDict c) when w1) /\
      (dict_get c "data" = Some (VStr no) ->
       dispatch_update (VDict d) when w1
       = dispatch_confirmation cid false (VDict c) when w1).
Proof.
  intros Htool Hneeds Hsugg Hissues Hcred Hhex cid.
  destruct (hex_string_has_no_prefix _ Hhex) as [Hyes Hno].
  rewrite (offer_run file_path uuid4 now w a suggestions issues
             Htool Hneeds Hsugg Hissues).
  fold cid. unfold send_confirmation_message. rewrite Hcred.
  unfold try_except, bind. rewrite http_post_run.
  eexists _, _, ("confirm_" +:+ cid), ("cancel_" +:+ cid).
  split.
  { destruct (httpx_post _ _); reflexivity. }
  split; [apply lookup_insert_eq|].
  split; [reflexivity|]. split; [reflexivity|].
  intros d c when Hcb. split; intros Hdata.
  - exact (route_confirm config py_str httpx_post d c cid when _
             Hcb Hdata Hyes).
  - exact (route_cancel config py_str httpx_post d c cid when _
             Hcb Hdata Hno).
Qed.

End Offers.

Section Offer_outcomes.

Variable config : Config.
Variable py_str : value -> string.
Variable httpx_post : list request -> request -> reply.
Variable mcp_server : FileEditorServer.

Abbreviation make_offer :=
  (offer_correction config py_str httpx_post mcp_server).
Abbreviation approve := (on_confirm_edit py_str mcp_server).

(** X21. No confirmation is asked for unless the analysis says the file
    needs editing: when ["needs_editing"] is missing or false the offer
    leaves the world untouched. This covers the answer [analyze_excel]
    gives for a file it could not read, which lists an issue but says
    [False]. *)
Theorem no_offer_unless_the_analysis_asks file_path uuid4 now w :
  (forall a,
     analyze_excel mcp_server (VDict [("file_path", VStr file_path)])
     = Ok (VDict a) ->
     truthy (match dict_get a "needs_editing" with
             | Some x => x | None => VNone end) = false ->
     make_offer file_path uuid4 now w = (Ok tt, w)) /\
  (forall problem,
     analyze_excel mcp_server (VDict [("file_path", VStr file_path)])
     = Ok (VDict [("issues", VList [VStr problem]);
                  ("suggestions", VList []);
                  ("needs_editing", VBool false)]) ->
     make_offer file_path uuid4 now w = (Ok tt, w)).
Proof.
  assert (Hgen : forall a,
     analyze_excel mcp_server (VDict [("file_path", VStr file_path)])
     = Ok (VDict a) ->
     truthy (match dict_get a "needs_editing" with
             | Some x => x | None => VNone end) = false ->
     make_offer file_path uuid4 now w = (Ok tt, w)).
  { intros a Htool Hneeds.
    unfold offer_correction. unfold bind at 1. unfold eval at 1.
    change (call_tool mcp_server "analyze_excel"
              (VDict [("file_path", VStr file_path)]))
      with (analyze_excel mcp_server (VDict [("file_path", VStr file_path)])).
    rewrite Htool. unfold bind at 1. unfold eval at 1. cbn [get].
    rewrite Hneeds. reflexivity. }
  split; [exact Hgen|].
  intros problem Htool. apply (Hgen _ Htool). reflexivity.
Qed.

Lemma offer_registers file_path uuid4 now w a suggestions issues :
  analyze_excel mcp_server (VDict [("file_path", VStr file_path)])
  = Ok (VDict a) ->
  truthy (match dict_get a "needs_editing" with
          | Some x => x | None => VNone end) = true ->
  dict_get a "suggestions" = Some suggestions ->
  dict_get a "issues" = Some (VList issues) ->
  exists w1,
    make_offer file_path uuid4 now w = (Ok tt, w1) /\
    pending w1 !! substring 0 8 uuid4
    = Some (Confirmation "File editing confirmation"
              (VDict [("file_path", VStr file_path);
                      ("suggestions", suggestions)])
              (Some approve) (Some on_cancel_report) now).
Proof.
  intros Htool Hneeds Hsugg Hissues.
  rewrite (offer_run config py_str httpx_post mcp_server
             file_path uuid4 now w a suggestions issues
             Htool Hneeds Hsugg Hissues).
  unfold send_confirmation_message.
  destruct (credentials_missing config).
  - eexists. split; [reflexivity|]. apply lookup_insert_eq.
  - unfold try_except, bind. rewrite http_post_run.
    eexists. split; [destruct (httpx_post _ _); reflexivity|].
    apply lookup_insert_eq.
Qed.

(** X22. Once the analysis has asked for a correction the confirmation is
    in the store whether or not the prompt could be sent: the offer returns
    normally, the entry is there with the two actions of [main], and when
    the Telegram credentials are missing nothing was posted, so that no
    button exists that could ever resolve it. *)
Theorem offer_is_registered_even_if_not_sent
    file_path uuid4 now w a suggestions issues :
  analyze_excel mcp_server (VDict [("file_path", VStr file_path)])
  = Ok (VDict a) ->
  truthy (match dict_get a "needs_editing" with
          | Some x => x | None => VNone end) = true ->
  dict_get a "suggestions" = Some suggestions ->
  dict_get a "issues" = Some (VList issues) ->
  exists w1,
    make_offer file_path uuid4 now w = (Ok tt, w1) /\
    pending w1 !! substring 0 8 uuid4
    = Some (Confirmation "File editing confirmation"
              (VDict [("file_path", VStr file_path);
                      ("suggestions", suggestions)])
              (Some approve) (Some on_cancel_report) now) /\
    (credentials_missing config = true -> posted w1 = posted w) /\
    (credentials_missing config = false ->
     exists prompt, posted w1 = posted w ++ [prompt]).
Proof.
  intros Htool Hneeds Hsugg Hissues.
  rewrite (offer_run config py_str httpx_post mcp_server
             file_path uuid4 now w a suggestions issues
             Htool Hneeds Hsugg Hissues).
  unfold send_confirmation_message.
  destruct (credentials_missing config).
  - eexists. split; [reflexivity|].
    split; [apply lookup_insert_eq|].
    split; [reflexivity|discriminate].
  - unfold try_except, bind. rewrite http_post_run.
    eexists. split; [destruct (httpx_post _ _); reflexivity|].
    split; [apply lookup_insert_eq|].
    split; [discriminate|]. intros _. eexists. reflexivity.
Qed.

(** X23. What the two actions registered by [main] give back through
    [handle_response], for an entry in time whose data is the file and the
    suggestions. Approving saves the edited file -- under the suffix
    "_corregido", with the frame the edit returned -- only when the edit
    tool reported success, and the result then carries the new path; a
    failed edit comes back as the error result with the tool's error text,
    or "Unknown error" when it gave none. Declining gives the cancelled
    result. *)
Theorem actions_of_main_through_handle_response
    cid now w conf file_path suggestions :
  pending w !! cid = Some conf ->
  now - timestamp conf <= timeout_seconds (confirmation_handler w) ->
  data conf = VDict [("file_path", VStr file_path);
                     ("suggestions", suggestions)] ->
  on_confirm conf = Some approve ->
  on_cancel conf = Some on_cancel_report ->
  let edit :=
    edit_excel mcp_server
      (VDict [("file_path", VStr file_path); ("operations", suggestions)]) in
  (forall r frame new_path,
     edit = Ok (VDict r) ->
     truthy (match dict_get r "success" with
             | Some x => x | None => VNone end) = true ->
     dict_get r "dataframe" = Some frame ->
     save_file mcp_server
       (VDict [("dataframe", frame); ("original_path", VStr file_path);
               ("suffix", VStr "_corregido")]) = Ok new_path ->
     fst (handle_response cid true now w)
     = Ok (VDict [("success", VBool true);
                  ("result", VDict [("file_path", new_path)])])) /\
  (forall r,
     edit = Ok (VDict r) ->
     truthy (match dict_get r "success" with
             | Some x => x | None => VNone end) = false ->
     fst (handle_response cid true now w)
     = Ok (VDict [("error",
                   VStr (py_str (match dict_get r "error" with
                                 | Some x => x
                                 | None => VStr "Unknown error"
                                 end)))])) /\
  fst (handle_response cid false now w)
  = Ok (VDict [("success", VBool true);
               ("result", VDict [("cancelled", VBool true)]);
               ("cancelled", VBool true)]).
Proof.
  intros Hin Hage Hdata Hyes Hno edit.
  assert (Hfresh : timed_out now conf
                     (timeout_seconds (confirmation_handler w)) = false).
  { apply timed_out_false. lia. }
  assert (Hstart : approve (data conf)
    = and_then edit (fun edit_result =>
      and_then (get edit_result "success" VNone) (fun success =>
      if truthy success then
        and_then (getitem edit_result "dataframe") (fun dataframe =>
        and_then (save_file mcp_server
                    (VDict [("dataframe", dataframe);
                            ("original_path", VStr file_path);
                            ("suffix", VStr "_corregido")])) (fun new_path =>
        Ok (VDict [("file_path", new_path)])))
      else
        and_then (get edit_result "error" (VStr "Unknown error"))
          (fun error => Raise (Exn true (py_str error)))))).
  { rewrite Hdata. reflexivity. }
  split; [|split].
  - intros r frame new_path Hedit Hok Hframe Hsave.
    destruct (handle_response_in_time cid true now w conf Hin Hfresh)
      as (res & w' & Hrun & _ & Hcase).
    rewrite Hyes, Hstart, Hedit in Hcase. cbn [and_then get] in Hcase.
    rewrite Hok in Hcase. cbn [and_then getitem] in Hcase.
    rewrite Hframe in Hcase. cbn [and_then] in Hcase.
    rewrite Hsave in Hcase. cbn [and_then] in Hcase.
    destruct Hcase as [_ ->]. rewrite Hrun. reflexivity.
  - intros r Hedit Hok.
    destruct (handle_response_in_time cid true now w conf Hin Hfresh)
      as (res & w' & Hrun & _ & Hcase).
    rewrite Hyes, Hstart, Hedit in Hcase. cbn [and_then get] in Hcase.
    rewrite Hok in Hcase. cbn [and_then is_Exception exn_str] in Hcase.
    destruct Hcase as [_ ->]. rewrite Hrun. reflexivity.
  - destruct (handle_response_in_time cid false now w conf Hin Hfresh)
      as (res & w' & Hrun & _ & Hcase).
    rewrite Hno in Hcase. cbn in Hcase.
    destruct Hcase as [_ ->]. rewrite Hrun. reflexivity.
Qed.

End Offer_outcomes.

(** ** The actions of [main] keep the poller safe *)

Lemma catchable_and_then {A B} (o : outcome A) (k : A -> outcome B) :
  catchable o -> (forall a, catchable (k a)) -> catchable (and_then o k).
Proof.
  intros Ho Hk e He. destruct o as [a|e0]; simpl in He.
  - exact (Hk a e He).
  - injection He as <-. exact (Ho e0 eq_refl).
Qed.

Lemma catchable_Raise_Exception {A} msg : catchable (@Raise A (Exn true msg)).
Proof. intros e He. injection He as <-. reflexivity. Qed.

Lemma catchable_sequence_of v : catchable (sequence_of v).
Proof. by_cases_on v. Qed.

Lemma catchable_call_tool mcp name params :
  (forall p, catchable (analyze_excel mcp p)) ->
  (forall p, catchable (edit_excel mcp p)) ->
  (forall p, catchable (save_file mcp p)) ->
  catchable (call_tool mcp name params).
Proof.
  intros Ha He Hs. unfold call_tool.
  destruct (String.eqb name "analyze_excel"); [apply Ha|].
  destruct (String.eqb name "edit_excel"); [apply He|].
  destruct (String.eqb name "save_file"); [apply Hs|].
  apply catchable_Raise_Exception.
Qed.

Lemma polite_insert cid conf w :
  polite w ->
  (forall f, on_confirm conf = Some f \/ on_cancel conf = Some f ->
     catchable (f (data conf))) ->
  polite (set_pending (<[cid := conf]> (pending w)) w).
Proof.
  intros Hp Hconf cid' conf' f e Hin Hsel Hf.
  rewrite set_pending_pending in Hin.
  destruct (decide (cid = cid')) as [->|Hne].
  - rewrite lookup_insert_eq in Hin. injection Hin as <-.
    exact (Hconf f Hsel e Hf).
  - rewrite lookup_insert_ne in Hin by exact Hne.
    exact (Hp cid' conf' f e Hin Hsel Hf).
Qed.

Section Safe_actions.

Variable config : Config.
Variable py_str : value -> string.
Variable httpx_post : list request -> request -> reply.
Variable mcp_server : FileEditorServer.

Hypothesis edit_catchable : forall p, catchable (edit_excel mcp_server p).
Hypothesis save_catchable : forall p, catchable (save_file mcp_server p).

Lemma on_confirm_edit_catchable data :
  catchable (on_confirm_edit py_str mcp_server data).
Proof.
  unfold on_confirm_edit.
  apply catchable_and_then; [apply catchable_getitem|intros file_path].
  apply catchable_and_then; [apply catchable_getitem|intros suggestions].
  apply catchable_and_then; [apply edit_catchable|intros edit_result].
  apply catchable_and_then; [apply catchable_get|intros success].
  destruct (truthy success).
  - apply catchable_and_then; [apply catchable_getitem|intros dataframe].
    apply catchable_and_then; [apply save_catchable|intros new_path].
    apply catchable_Ok.
  - apply catchable_and_then; [apply catchable_get|intros error].
    apply catchable_Raise_Exception.
Qed.

(** The store after an offer: as before, or with the one new entry. *)
Lemma offer_store file_path uuid4 now w :
  let w1 := snd (offer_correction config py_str httpx_post mcp_server
                   file_path uuid4 now w) in
  pending w1 = pending w \/
  exists suggestions,
    pending w1
    = <[substring 0 8 uuid4 :=
          Confirmation "File editing confirmation"
            (VDict [("file_path", VStr file_path);
                    ("suggestions", suggestions)])
            (Some (on_confirm_edit py_str mcp_server))
            (Some on_cancel_report) now]> (pending w).
Proof.
  cbv zeta.
  destruct (offer_correction config py_str httpx_post mcp_server
              file_path uuid4 now w) as [r w1] eqn:Hrun.
  cbn [snd]. unfold offer_correction in Hrun.
  unfold bind at 1 in Hrun. unfold eval at 1 in Hrun.
  destruct (call_tool mcp_server "analyze_excel" _) as [analysis|e];
    [|injection Hrun as _ <-; left; reflexivity].
  unfold bind at 1 in Hrun. unfold eval at 1 in Hrun.
  destruct (get analysis "needs_editing" VNone) as [needs|e];
    [|injection Hrun as _ <-; left; reflexivity].
  destruct (truthy needs); [|injection Hrun as _ <-; left; reflexivity].
  unfold bind at 1 in Hrun. unfold eval at 1 in Hrun.
  destruct (getitem analysis "suggestions") as [suggestions|e];
    [|injection Hrun as _ <-; left; reflexivity].
  unfold bind at 1 in Hrun. rewrite create_confirmation_run in Hrun.
  right. exists suggestions.
  match type of Hrun with
  | ?m ?w0 = _ =>
      assert (Hn : notifier m);
      [|destruct (Hn _ _ _ Hrun) as (Hh & _);
        unfold pending at 1; rewrite Hh; reflexivity]
  end.
  apply notifier_bind; [apply notifier_eval, catchable_getitem|intros ?].
  apply notifier_bind; [apply notifier_eval, catchable_Ok|intros ?].
  apply notifier_bind; [apply notifier_eval, catchable_sequence_of|intros ?].
  apply notifier_send_confirmation_message.
Qed.

(** X24. The confirmations that [main] registers never endanger the
    polling thread: if the edit and save tools raise nothing but instances
    of [Exception], an offer made on a store whose actions have that
    property leaves a store with the same property, whichever way the offer
    ends. *)
Theorem offers_keep_the_store_polite file_path uuid4 now w :
  politeb w = true ->
  politeb (snd (offer_correction config py_str httpx_post mcp_server
                  file_path uuid4 now w)) = true.
Proof.
  intros Hp. apply politeb_polite in Hp. apply polite_politeb.
  destruct (offer_store file_path uuid4 now w) as [Hsame|[suggestions Hnew]].
  - apply (polite_subseteq w); [exact Hp|]. rewrite Hsame. reflexivity.
  - pose proof (polite_insert (substring 0 8 uuid4)
                  (Confirmation "File editing confirmation"
                     (VDict [("file_path", VStr file_path);
                             ("suggestions", suggestions)])
                     (Some (on_confirm_edit py_str mcp_server))
                     (Some on_cancel_report) now) w Hp) as Hpol.
    intros cid conf f e Hin Hsel Hf. rewrite Hnew in Hin.
    apply (Hpol) with (cid := cid) (conf := conf) (f := f);
      try assumption.
    intros g [Hg|Hg]; simpl in Hg; injection Hg as <-.
    + apply on_confirm_edit_catchable.
    + apply catchable_Ok.
Qed.

End Safe_actions.

(** ** The further properties on the samples *)

Lemma created_confirmation_is_resolved_by_its_id_witness :
  exists cid w1 w2,
    create_confirmation sample_uuid 1000 "File editing confirmation"
      sample_data (Some saves_file) (Some reports_cancel) initial
    = (Ok cid, w1) /\
    cid = "3f2a9c1e" /\
    pending w1 !! cid = Some sample_entry /\
    handle_response cid true 1200 w1
    = (Ok (VDict [("success", VBool true);
                  ("result",
                   VDict [("file_path",
                           VStr "downloads/ventas_corregido.xlsx")])]), w2) /\
    invoked w2 = [Called cid true sample_data] /\
    pending w2 = delete cid ∅.
Proof.
  exact (created_confirmation_is_resolved_by_its_id
           sample_uuid 1000 "File editing confirmation" sample_data
           (Some saves_file) (Some reports_cancel) true 1200 saves_file
           (VDict [("file_path", VStr "downloads/ventas_corregido.xlsx")])
           initial eq_refl eq_refl ltac:(simpl; lia)).
Defined.

Lemma later_sweep_absorbs_earlier_witness :
  snd (cleanup_expired 1400 (snd (cleanup_expired 1200 waiting)))
  = snd (cleanup_expired 1400 waiting).
Proof.
  apply (later_sweep_absorbs_earlier 1200 1400 waiting). lia.
Defined.

Lemma prompt_shows_five_issues_witness :
  format_confirmation_message sample_str "3f2a9c1e"
    ([VStr "a"; VStr "b"; VStr "c"; VStr "d"; VStr "e"] ++ [VStr "f"])
    VNone
  = format_confirmation_message sample_str "3f2a9c1e"
      ([VStr "a"; VStr "b"; VStr "c"; VStr "d"; VStr "e"] ++ [VStr "g"])
      sample_suggestions.
Proof.
  exact (proj2 (prompt_shows_five_issues_and_no_suggestion sample_str)
           "3f2a9c1e" [VStr "a"; VStr "b"; VStr "c"; VStr "d"; VStr "e"]
           [VStr "f"] [VStr "g"] VNone sample_suggestions eq_refl eq_refl).
Defined.

Lemma press_without_query_id_witness :
  _handle_confirmation sample_config sample_str always_200
    "3f2a9c1e" true (VDict query_without_id) 1010 waiting
  = (Ok tt, snd (handle_response "3f2a9c1e" true 1010 waiting)).
Proof.
  exact (press_without_query_id_is_consumed_silently
           sample_config sample_str always_200
           "3f2a9c1e" true query_without_id 1010 waiting eq_refl).
Defined.

Lemma failed_acknowledgement_witness :
  _handle_confirmation sample_config sample_str always_fails
    "3f2a9c1e" true (VDict sample_query) 1010 waiting
  = (Ok tt,
     with_posts [answer_callback sample_config true (VStr "4382")]
       (snd (handle_response "3f2a9c1e" true 1010 waiting))).
Proof.
  exact (failed_acknowledgement_suppresses_the_result
           sample_config sample_str always_fails
           "3f2a9c1e" true sample_query (VStr "4382") 1010 waiting
           (VDict [("success", VBool true);
                   ("result",
                    VDict [("file_path",
                            VStr "downloads/ventas_corregido.xlsx")])])
           "connection refused" eq_refl eq_refl eq_refl).
Defined.

Lemma error_result_is_reported_witness :
  _handle_confirmation sample_config sample_str always_200
    "3f2a9c1e" true (VDict sample_query) 1010 initial
  = (Ok tt,
     with_posts
       [answer_callback sample_config true (VStr "4382");
        markdown_message sample_config
          "❌ Error: Confirmación no encontrada o expirada"]
       initial).
Proof.
  exact (error_result_is_reported_to_the_chat
           sample_config sample_str always_200
           "3f2a9c1e" true sample_query (VStr "4382") 1010 initial
           "Confirmación no encontrada o expirada" 200 200
           eq_refl eq_refl eq_refl eq_refl eq_refl eq_refl
           ltac:(discriminate)).
Defined.


Lemma scalar_result_is_not_reported_witness :
  exists w',
    _handle_confirmation sample_config sample_str always_200
      "3f2a9c1e" true (VDict sample_query) 1010 waiting_for_none
    = (Ok tt, w') /\
    posted w'
    = posted waiting_for_none ++
      [answer_callback sample_config true (VStr "4382")] /\
    invoked w'
    = invoked waiting_for_none ++ [Called "3f2a9c1e" true sample_data] /\
    pending w' = delete "3f2a9c1e" (pending waiting_for_none).
Proof.
  exact (scalar_result_is_not_reported
           sample_config sample_str always_200
           "3f2a9c1e" sample_query (VStr "4382") 1010 waiting_for_none
           (Confirmation "File editing confirmation" sample_data
              (Some returns_none) None 1000)
           returns_none VNone 200
           eq_refl ltac:(simpl; lia) eq_refl eq_refl eq_refl eq_refl
           eq_refl).
Defined.

Lemma cancellation_is_reported_witness :
  exists w',
    _handle_confirmation sample_config sample_str always_200
      "3f2a9c1e" false (VDict sample_query) 1010 waiting = (Ok tt, w') /\
    posted w'
    = posted waiting ++
      [answer_callback sample_config false (VStr "4382");
       markdown_message sample_config "❌ Operación cancelada"] /\
    pending w' = delete "3f2a9c1e" (pending waiting).
Proof.
  apply (cancellation_is_reported
           sample_config sample_str always_200
           "3f2a9c1e" sample_query (VStr "4382") 1010 waiting sample_entry
           200 200); try reflexivity.
  - simpl. lia.
  - simpl. eexists. reflexivity.
  - discriminate.
Defined.

Lemma poll_once_never_raises_witness :
  politeb at_cursor_6 = true /\
  fetch_catchable (answer_with bad_batch) at_cursor_6 = true /\
  exists w',
    _poll_once sample_config sample_str always_200
      (answer_with bad_batch) (fun i => 1010) at_cursor_6 = (Ok tt, w') /\
    politeb w' = true.
Proof.
  split; [reflexivity|]. split; [reflexivity|].
  exact (poll_once_never_raises sample_config sample_str always_200
           (answer_with bad_batch) (fun i => 1010) at_cursor_6
           eq_refl eq_refl).
Defined.

Lemma poll_without_updates_witness :
  _poll_once sample_config sample_str always_200
    (fun offset => Ok (Response 409 (Ok VNone))) (fun i => 1010) at_cursor_6
  = (Ok tt, at_cursor_6).
Proof.
  apply (proj1 (proj2 (poll_without_updates_changes_nothing
                         sample_config sample_str always_200
                         (fun offset => Ok (Response 409 (Ok VNone)))
                         (fun i => 1010) 6 at_cursor_6 eq_refl))
           (Response 409 (Ok VNone))).
  - reflexivity.
  - simpl. discriminate.
Defined.

Lemma non_numeric_update_id_witness :
  exists w',
    _poll_once sample_config sample_str always_200
      (answer_with odd_batch) (fun i => 1010) at_cursor_6 = (Ok tt, w') /\
    last_update_id (bot_server w') = VStr "seven" /\
    forall httpx_get' clock',
      _poll_once sample_config sample_str always_200 httpx_get' clock' w'
      = (Ok tt, w').
Proof.
  exact (non_numeric_update_id_stops_polling
           sample_config sample_str always_200
           (answer_with odd_batch) (fun i => 1010) 6 odd_batch at_cursor_6
           eq_refl eq_refl eq_refl eq_refl eq_refl).
Defined.

Lemma next_poll_asks_after_the_last_update_witness :
  exists w',
    _poll_once sample_config sample_str always_200
      (answer_with good_batch) (fun i => 1010) waiting = (Ok tt, w') /\
    forall next next' clock',
      next (6 + 1) = next' (6 + 1) ->
      _poll_once sample_config sample_str always_200 next clock' w'
      = _poll_once sample_config sample_str always_200 next' clock' w'.
Proof.
  exact (next_poll_asks_after_the_last_update
           sample_config sample_str always_200
           (answer_with good_batch) (fun i => 1010) 0 good_batch waiting 6
           eq_refl eq_refl eq_refl eq_refl eq_refl).
Defined.

Lemma offered_buttons_witness :
  exists w1 prompt yes no,
    offer_correction sample_config sample_str always_200 sample_tools
      "downloads/ventas.xlsx" sample_uuid 1000 initial = (Ok tt, w1) /\
    pending w1 !! "3f2a9c1e" = Some offered_entry /\
    posted w1 = posted initial ++ [prompt] /\
    button_data prompt = [VStr yes; VStr no] /\
    forall d c when,
      dict_get d "callback_query" = Some (VDict c) ->
      (dict_get c "data" = Some (VStr yes) ->
       _handle_update sample_config sample_str always_200 (VDict d) when w1
       = _handle_confirmation sample_config sample_str always_200
           "3f2a9c1e" true (VDict c) when w1) /\
      (dict_get c "data" = Some (VStr no) ->
       _handle_update sample_config sample_str always_200 (VDict d) when w1
       = _handle_confirmation sample_config sample_str always_200
           "3f2a9c1e" false (VDict c) when w1).
Proof.
  exact (offered_buttons_lead_back_to_the_confirmation
           sample_config sample_str always_200 sample_tools
           "downloads/ventas.xlsx" sample_uuid 1000 initial
           _ sample_suggestions _
           eq_refl eq_refl eq_refl eq_refl eq_refl eq_refl).
Defined.

Lemma offer_is_registered_witness :
  exists w1,
    offer_correction
      {| TELEGRAM_BOT_TOKEN := Some "123456:token";
         TELEGRAM_CHAT_ID := None |}
      sample_str always_200 sample_tools
      "downloads/ventas.xlsx" sample_uuid 1000 initial = (Ok tt, w1) /\
    pending w1 !! "3f2a9c1e" = Some offered_entry /\
    posted w1 = posted initial.
Proof.
  destruct (offer_is_registered_even_if_not_sent
              {| TELEGRAM_BOT_TOKEN := Some "123456:token";
                 TELEGRAM_CHAT_ID := None |}
              sample_str always_200 sample_tools
              "downloads/ventas.xlsx" sample_uuid 1000 initial
              _ sample_suggestions _ eq_refl eq_refl eq_refl eq_refl)
    as (w1 & Hrun & Hin & Hquiet & _).
  exists w1. split; [exact Hrun|]. split; [exact Hin|].
  apply Hquiet. reflexivity.
Defined.

Lemma actions_of_main_witness :
  pending offered !! "3f2a9c1e" = Some offered_entry /\
  fst (handle_response "3f2a9c1e" true 1100 offered)
  = Ok (VDict [("success", VBool true);
               ("result",
                VDict [("file_path",
                        VStr "downloads/ventas_corregido_20240101_120000.xlsx")])]).
Proof.
  split; [reflexivity|].
  apply (proj1 (actions_of_main_through_handle_response
                  sample_str sample_tools
                  "3f2a9c1e" 1100 offered offered_entry
                  "downloads/ventas.xlsx" sample_suggestions
                  eq_refl ltac:(simpl; lia) eq_refl eq_refl eq_refl)
           [("success", VBool true); ("operations_applied", VInt 1);
            ("dataframe", VStr "frame")]
           (VStr "frame")
           (VStr "downloads/ventas_corregido_20240101_120000.xlsx"));
    reflexivity.
Defined.

Lemma offers_keep_the_store_polite_witness :
  politeb offered = true.
Proof.
  apply (offers_keep_the_store_polite
           sample_config sample_str always_200 sample_tools).
  - intros p. apply catchable_Ok.
  - intros p. apply catchable_Ok.
  - reflexivity.
Defined.

(** ** The tools of the file editor *)

Section Analysis.

Variable py_str : value -> string.
Variable strip lower : string -> string.
Variable read_csv read_excel : string -> outcome Editor.DataFrame.

Abbreviation read := (Editor.read_file read_csv read_excel).
Abbreviation analyze :=
  (Editor.analyze_excel py_str strip lower read_csv read_excel).
Abbreviation all_checks := (Editor.checks py_str strip lower).

Lemma replace_spaces_leaves_none s :
  str_contains " " (Editor.replace_spaces s) = false.
Proof.
  induction s as [|c s IH]; [reflexivity|].
  cbn [Editor.replace_spaces str_contains]. rewrite IH, orb_false_r.
  destruct (Ascii.eqb c " ") eqn:Hc.
  - reflexivity.
  - unfold String.prefix. destruct (ascii_dec " " c) as [<-|Hne].
    + rewrite Ascii.eqb_refl in Hc. discriminate.
    + reflexivity.
Qed.

Lemma filter_length_pos {A} (p : A -> bool) l :
  (0 <? length (List.filter p l))%nat = existsb p l.
Proof.
  induction l as [|x l IH]; [reflexivity|].
  cbn [List.filter existsb]. destruct (p x); [reflexivity|exact IH].
Qed.

Lemma check_name_fold l lists :
  length (fst (fold_left (Editor.check_name py_str strip) l lists))
  = (length (fst lists)
     + length (List.filter (Editor.badly_named py_str strip) l))%nat /\
  length (snd (fold_left (Editor.check_name py_str strip) l lists))
  = (length (snd lists)
     + length (List.filter (Editor.badly_named py_str strip) l))%nat.
Proof.
  revert lists. induction l as [|c l IH]; intros lists.
  - cbn. lia.
  - cbn [fold_left List.filter]. destruct (IH (Editor.check_name py_str strip lists c))
      as [H1 H2]. rewrite H1, H2.
    unfold Editor.check_name, Editor.badly_named.
    destruct (_ || _); cbn [fst snd length]; rewrite ?length_app; cbn; lia.
Qed.

Lemma check_nulls_fold l lists :
  length (fst (fold_left (Editor.check_nulls py_str) l lists))
  = (length (fst lists) + length (List.filter Editor.has_nulls l))%nat /\
  length (snd (fold_left (Editor.check_nulls py_str) l lists))
  = (length (snd lists) + length (List.filter Editor.has_nulls l))%nat.
Proof.
  revert lists. induction l as [|c l IH]; intros lists.
  - cbn. lia.
  - cbn [fold_left List.filter]. destruct (IH (Editor.check_nulls py_str lists c))
      as [H1 H2]. rewrite H1, H2.
    unfold Editor.check_nulls, Editor.has_nulls.
    destruct (0 <? _)%nat; cbn [fst snd length]; rewrite ?length_app; cbn; lia.
Qed.

Lemma sample_not_empty rows nulls :
  (0 <? Nat.min 10 (rows - nulls))%nat = (nulls <? rows)%nat.
Proof.
  destruct (Nat.ltb_spec nulls rows) as [H|H];
    [apply Nat.ltb_lt|apply Nat.ltb_ge]; lia.
Qed.

Lemma check_dates_fold df l lists :
  length (fst (fold_left (Editor.check_dates py_str lower df) l lists))
  = (length (fst lists)
     + length (List.filter (Editor.dated py_str lower df) l))%nat /\
  length (snd (fold_left (Editor.check_dates py_str lower df) l lists))
  = (length (snd lists)
     + length (List.filter (Editor.dated py_str lower df) l))%nat.
Proof.
  revert lists. induction l as [|c l IH]; intros lists.
  - cbn. lia.
  - cbn [fold_left List.filter].
    destruct (IH (Editor.check_dates py_str lower df lists c)) as [H1 H2].
    rewrite H1, H2.
    unfold Editor.check_dates, Editor.dated. rewrite sample_not_empty.
    destruct (_ || _); cbn [andb].
    + destruct (_ <? _)%nat; cbn [fst snd length]; rewrite ?length_app;
        cbn; lia.
    + lia.
Qed.

Lemma checks_lengths df :
  length (fst (all_checks df)) = length (snd (all_checks df)) /\
  (0 <? length (fst (all_checks df)))%nat
  = existsb (Editor.defective py_str strip lower df) (Editor.columns df).
Proof.
  unfold Editor.checks.
  destruct (check_dates_fold df (Editor.columns df)
              (fold_left (Editor.check_nulls py_str) (Editor.columns df)
                 (fold_left (Editor.check_name py_str strip)
                    (Editor.columns df) ([], [])))) as [D1 D2].
  destruct (check_nulls_fold (Editor.columns df)
              (fold_left (Editor.check_name py_str strip)
                 (Editor.columns df) ([], []))) as [N1 N2].
  destruct (check_name_fold (Editor.columns df) ([], [])) as [R1 R2].
  rewrite D1, D2, N1, N2, R1, R2. split; [reflexivity|].
  cbn [fst length Nat.add].
  generalize (Editor.columns df). intros l.
  induction l as [|c l IH]; [reflexivity|].
  cbn [List.filter existsb]. unfold Editor.defective at 1.
  destruct (Editor.badly_named py_str strip c),
           (Editor.has_nulls c),
           (Editor.dated py_str lower df c);
    cbn [length orb]; rewrite ?Nat.add_succ_r; cbn [Nat.add];
    try reflexivity; exact IH.
Qed.

Lemma analyze_read file_path df :
  read file_path = Ok df ->
  analyze file_path
  = Ok (VDict [("issues", VList (fst (all_checks df)));
               ("suggestions", VList (snd (all_checks df)));
               ("needs_editing",
                VBool (existsb (Editor.defective py_str strip lower df)
                         (Editor.columns df)));
               ("row_count", VInt (Z.of_nat (Editor.row_count df)));
               ("column_count",
                VInt (Z.of_nat (length (Editor.columns df))))]).
Proof.
  intros Hread. unfold Editor.analyze_excel. rewrite Hread.
  rewrite <- (proj2 (checks_lengths df)).
  destruct (all_checks df) as [issues suggestions]. reflexivity.
Qed.

Lemma analyze_unread file_path e :
  read file_path = Raise e ->
  is_Exception e = true ->
  analyze file_path
  = Ok (VDict [("issues",
                VList [VStr ("Error al analizar: " +:+ exn_str e)]);
               ("suggestions", VList []);
               ("needs_editing", VBool false)]).
Proof.
  intros Hread He. unfold Editor.analyze_excel. rewrite Hread, He.
  reflexivity.
Qed.

Lemma read_catchable file_path :
  (forall p, catchable (read_csv p)) ->
  (forall p, catchable (read_excel p)) ->
  catchable (read file_path).
Proof.
  intros Hcsv Hexcel. unfold Editor.read_file.
  destruct file_path; try apply catchable_Raise_Exception.
  destruct (Editor.is_suffix _ _); [apply Hcsv|apply Hexcel].
Qed.

Lemma fold_left_invariant {A B} (f : A -> B -> A) (Q : A -> Prop)
    (l : list B) :
  (forall a b, In b l -> Q a -> Q (f a b)) ->
  forall a, Q a -> Q (fold_left f l a).
Proof.
  induction l as [|b l IH]; intros Hstep a Ha; [exact Ha|].
  cbn [fold_left]. apply IH.
  - intros a' b' Hin. apply Hstep. right. exact Hin.
  - apply Hstep; [left; reflexivity|exact Ha].
Qed.

Lemma checks_editable df :
  Forall (Editor.editable df) (snd (all_checks df)).
Proof.
  unfold Editor.checks.
  apply (fold_left_invariant (Editor.check_dates py_str lower df)
           (fun lists => Forall (Editor.editable df) (snd lists))).
  { intros lists c Hin Hall. unfold Editor.check_dates.
    destruct (_ || _); [|exact Hall].
    destruct (0 <? _)%nat; [|exact Hall].
    cbn [snd]. apply Forall_app. split; [exact Hall|].
    constructor; [|constructor].
    eexists _, c, "standardize_dates". split; [reflexivity|].
    split; [exact Hin|]. split; [reflexivity|]. split; [reflexivity|].
    right. right. reflexivity. }
  apply (fold_left_invariant (Editor.check_nulls py_str)
           (fun lists => Forall (Editor.editable df) (snd lists))).
  { intros lists c Hin Hall. unfold Editor.check_nulls.
    destruct (0 <? _)%nat; [|exact Hall].
    cbn [snd]. apply Forall_app. split; [exact Hall|].
    constructor; [|constructor].
    eexists _, c, "fill_nulls". split; [reflexivity|].
    split; [exact Hin|]. split; [reflexivity|]. split; [reflexivity|].
    right. left. reflexivity. }
  apply (fold_left_invariant (Editor.check_name py_str strip)
           (fun lists => Forall (Editor.editable df) (snd lists))).
  { intros lists c Hin Hall. unfold Editor.check_name.
    destruct (_ || _); [|exact Hall].
    cbn [snd]. apply Forall_app. split; [exact Hall|].
    constructor; [|constructor].
    eexists _, c, "rename_column". split; [reflexivity|].
    split; [exact Hin|]. split; [reflexivity|]. split; [reflexivity|].
    left. split; [reflexivity|].
    eexists. split; [reflexivity|]. apply replace_spaces_leaves_none. }
  constructor.
Qed.

(** X25. [analyze_excel] answers for every argument and every file, as long
    as the readers raise nothing but instances of [Exception]: it returns a
    dictionary with a list of issues, a list of suggestions and the flag
    ["needs_editing"]. The flag is set exactly when there is a suggestion;
    then every issue has its suggestion, position by position. A file that
    could not be read gives one issue, no suggestion, and the flag unset. *)
Theorem analysis_always_answers file_path :
  (forall p, catchable (read_csv p)) ->
  (forall p, catchable (read_excel p)) ->
  exists issues suggestions rest,
    analyze file_path
    = Ok (VDict (("issues", VList issues) ::
                 ("suggestions", VList suggestions) ::
                 ("needs_editing",
                  VBool (match suggestions with [] => false | _ => true end))
                 :: rest)) /\
    match read file_path with
    | Ok _ => length issues = length suggestions
    | Raise e =>
        suggestions = [] /\
        issues = [VStr ("Error al analizar: " +:+ exn_str e)]
    end.
Proof.
  intros Hcsv Hexcel.
  destruct (read file_path) as [df|e] eqn:Hread.
  - rewrite (analyze_read _ _ Hread).
    destruct (checks_lengths df) as [Hlen Hflag].
    exists (fst (all_checks df)), (snd (all_checks df)).
    eexists. split; [|exact Hlen].
    rewrite <- Hflag, Hlen.
    destruct (snd (all_checks df)); reflexivity.
  - pose proof (read_catchable file_path Hcsv Hexcel e Hread) as He.
    rewrite (analyze_unread _ _ Hread He).
    exists [VStr ("Error al analizar: " +:+ exn_str e)], [], [].
    split; [reflexivity|]. split; reflexivity.
Qed.

(** X26. The analysis asks for an edit exactly when some column of the
    table is defective: its label holds a space or is padded, it has a null
    cell, or it is named after a date ("fecha" or "date" in the lower-cased
    label) and holds at least one value. The three passes over the columns
    find one issue per defect, so a column can be listed up to three
    times. *)
Theorem analysis_asks_exactly_for_defective_tables file_path df :
  read file_path = Ok df ->
  exists issues suggestions,
    analyze file_path
    = Ok (VDict [("issues", VList issues);
                 ("suggestions", VList suggestions);
                 ("needs_editing",
                  VBool (existsb (Editor.defective py_str strip lower df)
                           (Editor.columns df)));
                 ("row_count", VInt (Z.of_nat (Editor.row_count df)));
                 ("column_count",
                  VInt (Z.of_nat (length (Editor.columns df))))]) /\
    length issues
    = (length (List.filter (Editor.badly_named py_str strip) (Editor.columns df))
       + length (List.filter Editor.has_nulls (Editor.columns df))
       + length (List.filter (Editor.dated py_str lower df) (Editor.columns df)))%nat /\
    length suggestions = length issues /\
    (length issues <= 3 * length (Editor.columns df))%nat.
Proof.
  intros Hread. rewrite (analyze_read _ _ Hread).
  exists (fst (all_checks df)), (snd (all_checks df)).
  split; [reflexivity|].
  destruct (checks_lengths df) as [Hlen _]. rewrite <- Hlen.
  assert (Hcount :
    length (fst (all_checks df))
    = (length (List.filter (Editor.badly_named py_str strip) (Editor.columns df))
       + length (List.filter Editor.has_nulls (Editor.columns df))
       + length (List.filter (Editor.dated py_str lower df) (Editor.columns df)))%nat).
  { unfold Editor.checks.
    rewrite (proj1 (check_dates_fold df _ _)),
            (proj1 (check_nulls_fold _ _)),
            (proj1 (check_name_fold _ _)).
    reflexivity. }
  split; [exact Hcount|]. split; [reflexivity|].
  rewrite Hcount.
  pose proof (List.filter_length_le (Editor.badly_named py_str strip)
                (Editor.columns df)).
  pose proof (List.filter_length_le Editor.has_nulls (Editor.columns df)).
  pose proof (List.filter_length_le (Editor.dated py_str lower df)
                (Editor.columns df)).
  lia.
Qed.

(** X27. Whatever the analysis suggests, [edit_excel] knows how to apply:
    every suggestion is a dictionary whose type is "rename_column",
    "fill_nulls" or "standardize_dates", on a column of the table that was
    read, and the new name of a renaming holds no space (the label is
    stripped and its spaces become underscores). *)
Theorem suggestions_are_operations_of_the_editor file_path df :
  read file_path = Ok df ->
  exists issues suggestions rest,
    analyze file_path
    = Ok (VDict (("issues", VList issues) ::
                 ("suggestions", VList suggestions) :: rest)) /\
    Forall (Editor.editable df) suggestions.
Proof.
  intros Hread. rewrite (analyze_read _ _ Hread).
  eexists _, _, _. split; [reflexivity|]. apply checks_editable.
Qed.

End Analysis.

Section Offered_analysis.

Variable config : Config.
Variable py_str : value -> string.
Variable httpx_post : list request -> request -> reply.
Variable mcp_server : FileEditorServer.
Variable strip lower : string -> string.
Variable read_csv read_excel : string -> outcome Editor.DataFrame.

(** [call_tool] hands the keyword [file_path] to the method. *)
Hypothesis analysis_tool :
  forall p,
    analyze_excel mcp_server (VDict [("file_path", p)])
    = Editor.analyze_excel py_str strip lower read_csv read_excel p.

Abbreviation offer_for :=
  (offer_correction config py_str httpx_post mcp_server).

(** X28. [main] asks for a confirmation exactly when the table it has read
    is defective. A table without a defective column, and a file that the
    reader could not read, leave the store and the chat untouched; for a
    defective table one confirmation is registered under the id drawn,
    whose data carry the path and the suggestions of the analysis, none of
    them empty-handed: there is at least one suggestion and each is an
    operation of the editor. *)
Theorem offer_follows_the_analysis file_path uuid4 now w :
  match Editor.read_file read_csv read_excel (VStr file_path) with
  | Ok df =>
      if existsb (Editor.defective py_str strip lower df) (Editor.columns df)
      then
        exists w1 suggestions,
          offer_for file_path uuid4 now w = (Ok tt, w1) /\
          pending w1 !! substring 0 8 uuid4
          = Some (Confirmation "File editing confirmation"
                    (VDict [("file_path", VStr file_path);
                            ("suggestions", VList suggestions)])
                    (Some (on_confirm_edit py_str mcp_server))
                    (Some on_cancel_report) now) /\
          suggestions <> [] /\
          Forall (Editor.editable df) suggestions
      else offer_for file_path uuid4 now w = (Ok tt, w)
  | Raise e =>
      offer_for file_path uuid4 now w
      = (if is_Exception e then Ok tt else Raise e, w)
  end.
Proof.
  destruct (Editor.read_file read_csv read_excel (VStr file_path))
    as [df|e] eqn:Hread.
  - pose proof (analyze_read py_str strip lower read_csv read_excel
                  _ _ Hread) as Hrun.
    rewrite <- analysis_tool in Hrun.
    destruct (existsb _ _) eqn:Hdef.
    + destruct (offer_registers config py_str httpx_post
                  mcp_server file_path uuid4 now w _ _ _
                  Hrun eq_refl eq_refl eq_refl) as (w1 & Hoffer & Hin).
      exists w1, (snd (Editor.checks py_str strip lower df)).
      split; [exact Hoffer|]. split; [exact Hin|].
      split; [|apply checks_editable].
      destruct (checks_lengths py_str strip lower df) as [Hlen Hflag].
      rewrite Hdef, Hlen in Hflag. intros Hnil. rewrite Hnil in Hflag.
      discriminate Hflag.
    + unfold offer_correction, bind, eval, call_tool. cbn [String.eqb].
      simpl. rewrite Hrun. reflexivity.
  - unfold offer_correction, bind, eval, call_tool. simpl.
    rewrite analysis_tool. unfold Editor.analyze_excel. rewrite Hread.
    destruct (is_Exception e); reflexivity.
Qed.

End Offered_analysis.

Section Editing.

Variable py_str : value -> string.
Variable mcp_server : FileEditorServer.
Variable read_csv read_excel : string -> outcome Editor.DataFrame.
Variable reference : Editor.DataFrame -> value.
Variable rename : Editor.DataFrame -> value -> value
                  -> outcome unit * Editor.DataFrame.
Variable fillna : Editor.DataFrame -> value -> value
                  -> outcome unit * Editor.DataFrame.
Variable to_datetime : Editor.DataFrame -> value
                       -> outcome unit * Editor.DataFrame.

Abbreviation read_table := (Editor.read_file read_csv read_excel).
Abbreviation edit :=
  (Editor.edit_excel read_csv read_excel reference rename fillna to_datetime).
Abbreviation apply_all :=
  (Editor.apply_operations rename fillna to_datetime).

(** The readers and the pandas operations raise nothing but instances of
    [Exception]. *)
Hypothesis read_csv_catchable : forall p, catchable (read_csv p).
Hypothesis read_excel_catchable : forall p, catchable (read_excel p).
Hypothesis rename_catchable :
  forall df column new_name, catchable (fst (rename df column new_name)).
Hypothesis fillna_catchable :
  forall df column v, catchable (fst (fillna df column v)).
Hypothesis to_datetime_catchable :
  forall df column, catchable (fst (to_datetime df column)).

Lemma operation_counts op n df :
  exists r n' df',
    Editor.operation rename fillna to_datetime op (n, df) = (r, (n', df')) /\
    catchable r /\
    (n <= n' <= S n)%nat.
Proof.
  unfold Editor.operation.
  destruct (getitem op "type") as [type|e] eqn:Htype.
  2:{ eexists _, _, _. split; [reflexivity|]. split; [|lia].
      intros e' He'. injection He' as <-.
        exact (catchable_getitem _ _ _ Htype). }
  destruct (Editor.equals type "rename_column").
  { destruct (getitem op "column") as [column|e] eqn:Hcol.
    2:{ eexists _, _, _. split; [reflexivity|]. split; [|lia].
        intros e' He'. injection He' as <-.
        exact (catchable_getitem _ _ _ Hcol). }
    destruct (getitem op "new_name") as [new_name|e] eqn:Hnew.
    2:{ eexists _, _, _. split; [reflexivity|]. split; [|lia].
        intros e' He'. injection He' as <-.
        exact (catchable_getitem _ _ _ Hnew). }
    pose proof (rename_catchable df column new_name) as Hc.
    destruct (rename df column new_name) as [[u|e] df'];
      eexists _, _, _; (split; [reflexivity|]); (split; [|lia]).
    - apply catchable_Ok.
    - exact Hc. }
  destruct (Editor.equals type "fill_nulls").
  { destruct (get op "value" (VInt 0)) as [v|e] eqn:Hval.
    2:{ eexists _, _, _. split; [reflexivity|]. split; [|lia].
        intros e' He'. injection He' as <-.
        exact (catchable_get _ _ _ _ Hval). }
    destruct (getitem op "column") as [column|e] eqn:Hcol.
    2:{ eexists _, _, _. split; [reflexivity|]. split; [|lia].
        intros e' He'. injection He' as <-.
        exact (catchable_getitem _ _ _ Hcol). }
    pose proof (fillna_catchable df column v) as Hc.
    destruct (fillna df column v) as [[u|e] df'];
      eexists _, _, _; (split; [reflexivity|]); (split; [|lia]).
    - apply catchable_Ok.
    - exact Hc. }
  destruct (Editor.equals type "standardize_dates").
  { destruct (getitem op "column") as [column|e] eqn:Hcol.
    2:{ eexists _, _, _. split; [reflexivity|]. split; [|lia].
        intros e' He'. injection He' as <-.
        exact (catchable_getitem _ _ _ Hcol). }
    pose proof (to_datetime_catchable df column) as Hc.
    destruct (to_datetime df column) as [[u|e] df'];
      eexists _, _, _; (split; [reflexivity|]); (split; [|lia]).
    - apply catchable_Ok.
    - exact Hc. }
  eexists _, _, _. split; [reflexivity|]. split; [apply catchable_Ok|lia].
Qed.

Lemma apply_operations_counts ops :
  forall n df,
  exists n' df',
    apply_all ops (n, df) = Ok (n', df') /\
    (n <= n' <= n + length ops)%nat.
Proof.
  induction ops as [|op ops IH]; intros n df.
  - exists n, df. split; [reflexivity|]. cbn. lia.
  - cbn [Editor.apply_operations].
    destruct (operation_counts op n df) as (r & n1 & df1 & Hop & Hr & Hn).
    rewrite Hop.
    destruct (IH n1 df1) as (n' & df' & Hrest & Hn').
    exists n', df'. cbn [length].
    destruct r as [u|e].
    + split; [exact Hrest|lia].
    + rewrite (Hr e eq_refl). split; [exact Hrest|lia].
Qed.

(** X29. [edit_excel] answers for every argument, every file and every
    list of operations. When the table was read, the answer says success,
    whatever became of the operations: those that failed, or that have no
    type or an unknown one, are passed over, so the number of operations
    applied is at most the number of operations given and may be zero. Only
    a file that cannot be read, or operations that cannot be iterated over,
    give a failure, which carries the text of the error and a count of
    zero. *)
Theorem edit_succeeds_whenever_the_table_was_read file_path operations :
  exists answer,
    edit file_path operations = Ok (VDict answer) /\
    match read_table file_path, iter operations with
    | Ok df, Ok ops =>
        exists n df',
          apply_all ops (O, df) = Ok (n, df') /\
          (n <= length ops)%nat /\
          answer = [("success", VBool true);
                    ("operations_applied", VInt (Z.of_nat n));
                    ("dataframe", reference df')]
    | Ok _, Raise e | Raise e, _ =>
        answer = [("success", VBool false);
                  ("operations_applied", VInt 0);
                  ("error", VStr (exn_str e))]
    end.
Proof.
  unfold Editor.edit_excel.
  pose proof (read_catchable read_csv read_excel file_path
                read_csv_catchable read_excel_catchable) as Hread.
  destruct (read_table file_path) as [df|e].
  - pose proof (catchable_iter operations) as Hiter.
    destruct (iter operations) as [ops|e].
    + destruct (apply_operations_counts ops O df) as (n & df' & Hrun & Hn).
      rewrite Hrun. eexists. split; [reflexivity|].
      exists n, df'. split; [reflexivity|]. split; [lia|reflexivity].
    + rewrite (Hiter e eq_refl). eexists. split; reflexivity.
  - rewrite (Hread e eq_refl). eexists. split; reflexivity.
Qed.

(** [call_tool] hands the keywords [file_path] and [operations] to the
    method. *)
Hypothesis edit_tool :
  forall p operations,
    edit_excel mcp_server
      (VDict [("file_path", p); ("operations", operations)])
    = edit p operations.

(** X30. What a confirmed edit does with the file. If the file can still
    be read, the suggestions are applied as far as they go and the table is
    saved under the suffix "_corregido" -- also when not a single operation
    could be applied -- and the action returns the path that [save_file]
    gave. If the file cannot be read any more, nothing is saved and the
    action raises an [Exception] with the text of the reader's error, which
    [handle_response] turns into an error result. *)
Theorem confirmed_edit_saves_a_copy_or_reports_the_reader
    file_path suggestions :
  let data := VDict [("file_path", VStr file_path);
                     ("suggestions", suggestions)] in
  match read_table (VStr file_path) with
  | Ok df =>
      forall ops,
        iter suggestions = Ok ops ->
        exists n df',
          apply_all ops (O, df) = Ok (n, df') /\
          on_confirm_edit py_str mcp_server data
          = and_then
              (save_file mcp_server
                 (VDict [("dataframe", reference df');
                         ("original_path", VStr file_path);
                         ("suffix", VStr "_corregido")]))
              (fun new_path => Ok (VDict [("file_path", new_path)]))
  | Raise e =>
      on_confirm_edit py_str mcp_server data
      = Raise (Exn true (py_str (VStr (exn_str e))))
  end.
Proof.
  intros data. unfold on_confirm_edit, data, call_tool.
  cbn [getitem dict_get String.eqb Ascii.eqb Bool.eqb and_then].
  pose proof (read_catchable read_csv read_excel (VStr file_path)
                read_csv_catchable read_excel_catchable) as Hread.
  destruct (read_table (VStr file_path)) as [df|e] eqn:Htable.
  - intros ops Hiter.
    destruct (apply_operations_counts ops O df) as (n & df' & Hrun & Hn).
    exists n, df'. split; [exact Hrun|].
    rewrite edit_tool. unfold Editor.edit_excel.
    rewrite Htable, Hiter, Hrun. reflexivity.
  - rewrite edit_tool. unfold Editor.edit_excel.
    rewrite Htable, (Hread e eq_refl). reflexivity.
Qed.

End Editing.

(** ** The tools on the sample table *)

Lemma sample_readers_catchable :
  (forall p, catchable (sample_read_csv p)) /\
  (forall p, catchable (sample_read_excel p)).
Proof.
  split; intros p e H.
  - injection H as <-. reflexivity.
  - unfold sample_read_excel in H. destruct (String.eqb _ _).
    + discriminate H.
    + injection H as <-. reflexivity.
Defined.

Lemma sample_operations_catchable :
  (forall df c n, catchable (fst (sample_rename df c n))) /\
  (forall df c v, catchable (fst (sample_fillna df c v))) /\
  (forall df c, catchable (fst (sample_to_datetime df c))).
Proof.
  split; [|split].
  - intros df c n e H. discriminate H.
  - intros df c v e H. unfold sample_fillna in H.
    destruct (has_column df c); [discriminate H|].
    injection H as <-. reflexivity.
  - intros df c e H. unfold sample_to_datetime in H.
    destruct (has_column df c); [discriminate H|].
    injection H as <-. reflexivity.
Defined.

Lemma analysis_always_answers_witness :
  exists issues suggestions rest,
    Editor.analyze_excel table_str strip_spaces ascii_lower
      sample_read_csv sample_read_excel (VStr "downloads/ventas.csv")
    = Ok (VDict (("issues", VList issues) ::
                 ("suggestions", VList suggestions) ::
                 ("needs_editing",
                  VBool (match suggestions with [] => false | _ => true end))
                 :: rest)) /\
    suggestions = [] /\
    issues = [VStr ("Error al analizar: " +:+
                    exn_str (no_such_file "downloads/ventas.csv"))].
Proof.
  exact (analysis_always_answers table_str strip_spaces ascii_lower
           sample_read_csv sample_read_excel (VStr "downloads/ventas.csv")
           (proj1 sample_readers_catchable)
           (proj2 sample_readers_catchable)).
Defined.

Lemma analysis_of_the_sample_table :
  exists issues suggestions,
    Editor.analyze_excel table_str strip_spaces ascii_lower
      sample_read_csv sample_read_excel (VStr "downloads/ventas.xlsx")
    = Ok (VDict [("issues", VList issues);
                 ("suggestions", VList suggestions);
                 ("needs_editing", VBool true);
                 ("row_count", VInt 12);
                 ("column_count", VInt 3)]) /\
    length issues = 3%nat /\
    length suggestions = length issues /\
    (length issues <= 9)%nat.
Proof.
  exact (analysis_asks_exactly_for_defective_tables
           table_str strip_spaces ascii_lower
           sample_read_csv sample_read_excel
           (VStr "downloads/ventas.xlsx") sample_table eq_refl).
Defined.

Lemma suggestions_for_the_sample_table :
  exists issues suggestions rest,
    Editor.analyze_excel table_str strip_spaces ascii_lower
      sample_read_csv sample_read_excel (VStr "downloads/ventas.xlsx")
    = Ok (VDict (("issues", VList issues) ::
                 ("suggestions", VList suggestions) :: rest)) /\
    Forall (Editor.editable sample_table) suggestions.
Proof.
  exact (suggestions_are_operations_of_the_editor
           table_str strip_spaces ascii_lower
           sample_read_csv sample_read_excel
           (VStr "downloads/ventas.xlsx") sample_table eq_refl).
Defined.

Lemma offer_for_the_sample_table :
  exists w1 suggestions,
    offer_correction sample_config table_str always_200 pandas_tools
      "downloads/ventas.xlsx" sample_uuid 1000 initial = (Ok tt, w1) /\
    pending w1 !! "3f2a9c1e"
    = Some (Confirmation "File editing confirmation"
              (VDict [("file_path", VStr "downloads/ventas.xlsx");
                      ("suggestions", VList suggestions)])
              (Some (on_confirm_edit table_str pandas_tools))
              (Some on_cancel_report) 1000) /\
    suggestions <> [] /\
    Forall (Editor.editable sample_table) suggestions.
Proof.
  exact (offer_follows_the_analysis sample_config table_str always_200
           pandas_tools strip_spaces ascii_lower
           sample_read_csv sample_read_excel
           (fun p => eq_refl)
           "downloads/ventas.xlsx" sample_uuid 1000 initial).
Defined.

Lemma edit_of_the_sample_table :
  exists answer,
    Editor.edit_excel sample_read_csv sample_read_excel sample_reference
      sample_rename sample_fillna sample_to_datetime
      (VStr "downloads/ventas.xlsx") (VList table_suggestions)
    = Ok (VDict answer) /\
    exists n df',
      Editor.apply_operations sample_rename sample_fillna sample_to_datetime
        table_suggestions (O, sample_table) = Ok (n, df') /\
      (n <= 3)%nat /\
      answer = [("success", VBool true);
                ("operations_applied", VInt (Z.of_nat n));
                ("dataframe", sample_reference df')].
Proof.
  exact (edit_succeeds_whenever_the_table_was_read
           sample_read_csv sample_read_excel sample_reference
           sample_rename sample_fillna sample_to_datetime
           (proj1 sample_readers_catchable)
           (proj2 sample_readers_catchable)
           (proj1 sample_operations_catchable)
           (proj1 (proj2 sample_operations_catchable))
           (proj2 (proj2 sample_operations_catchable))
           (VStr "downloads/ventas.xlsx") (VList table_suggestions)).
Defined.

Lemma confirmed_edit_of_a_vanished_file :
  on_confirm_edit table_str pandas_tools
    (VDict [("file_path", VStr "downloads/enero.xlsx");
            ("suggestions", VList table_suggestions)])
  = Raise (Exn true
             "[Errno 2] No such file or directory: 'downloads/enero.xlsx'").
Proof.
  exact (confirmed_edit_saves_a_copy_or_reports_the_reader
           table_str pandas_tools
           sample_read_csv sample_read_excel sample_reference
           sample_rename sample_fillna sample_to_datetime
           (proj1 sample_readers_catchable)
           (proj2 sample_readers_catchable)
           (proj1 sample_operations_catchable)
           (proj1 (proj2 sample_operations_catchable))
           (proj2 (proj2 sample_operations_catchable))
           (fun p operations => eq_refl)
           "downloads/enero.xlsx" (VList table_suggestions)).
Defined.
